(** * Approval-form interpretation and attachment forwarding

    A shallow embedding of the approval bridge: the attachment walk and
    resolver ([services/attachment.py]), the event gate, field aggregation
    and category routing ([handlers/approval.py]) and the value encryption
    helpers ([utils/crypto_utils.py]), followed by the properties of the
    specification that were checked against them. *)

From Stdlib Require Import ZArith List String Ascii Bool Lia Arith.
From Stdlib Require Import Floats.SpecFloat.
From Stdlib Require Import DecimalString.
Import ListNotations.
Open Scope string_scope.

(** ** Python values

    The objects [json.loads] builds: [None], booleans, integers, binary64
    floats, text, lists and dictionaries.  Text is kept as its UTF-8
    encoding; a dictionary is an association list with distinct keys in
    insertion order. *)

Inductive exn : Type :=
| JSONDecodeError
| TypeError
| AttributeError
| UnicodeDecodeError
| ValueError
| RecursionError
| RemoteError (msg : string).

Inductive result (A : Type) : Type :=
| Ok (a : A)
| Err (e : exn).

Arguments Ok {A} a.
Arguments Err {A} e.

Definition rbind {A B : Type} (r : result A) (k : A -> result B) : result B :=
  match r with
  | Ok a => k a
  | Err e => Err e
  end.

Unset Elimination Schemes.
Inductive value : Type :=
| PNone
| PBool (b : bool)
| PInt (z : Z)
| PFloat (f : spec_float)
| PStr (s : string)
| PList (items : list value)
| PDict (items : list (string * value)).
Set Elimination Schemes.

(** Induction over nested lists and dictionaries. *)
Definition value_ind (P : value -> Prop)
    (HNone : P PNone)
    (HBool : forall b, P (PBool b))
    (HInt : forall z, P (PInt z))
    (HFloat : forall f, P (PFloat f))
    (HStr : forall s, P (PStr s))
    (HList : forall l, Forall P l -> P (PList l))
    (HDict : forall d, Forall (fun kv => P (snd kv)) d -> P (PDict d)) :
  forall v, P v :=
  fix go (v : value) : P v :=
    match v with
    | PNone => HNone
    | PBool b => HBool b
    | PInt z => HInt z
    | PFloat f => HFloat f
    | PStr s => HStr s
    | PList l =>
        HList l ((fix all (l : list value) : Forall P l :=
                    match l with
                    | [] => Forall_nil P
                    | x :: r => Forall_cons x (go x) (all r)
                    end) l)
    | PDict d =>
        HDict d ((fix all (d : list (string * value)) :
                    Forall (fun kv => P (snd kv)) d :=
                    match d with
                    | [] => Forall_nil _
                    | kv :: r => Forall_cons kv (go (snd kv)) (all r)
                    end) d)
    end.

(** [bool(v)]. *)
Definition truthy (v : value) : bool :=
  match v with
  | PNone => false
  | PBool b => b
  | PInt z => negb (Z.eqb z 0)
  | PFloat (S754_zero _) => false
  | PFloat _ => true
  | PStr s => negb (String.eqb s "")
  | PList l => match l with [] => false | _ :: _ => true end
  | PDict d => match d with [] => false | _ :: _ => true end
  end.

(** [a or b] when evaluating [b] cannot raise. *)
Definition py_or (a b : value) : value := if truthy a then a else b.

Fixpoint lookup (k : string) (d : list (string * value)) : option value :=
  match d with
  | [] => None
  | (k', v) :: r => if String.eqb k' k then Some v else lookup k r
  end.

(** [d.get(k, default)] on a dictionary. *)
Definition dict_get (d : list (string * value)) (k : string) (default : value) : value :=
  match lookup k d with
  | Some v => v
  | None => default
  end.

(** [v.get(k, default)] on any object: only dictionaries have the method. *)
Definition get (v : value) (k : string) (default : value) : result value :=
  match v with
  | PDict d => Ok (dict_get d k default)
  | _ => Err AttributeError
  end.

(** [v == s] for a text literal [s]. *)
Definition eq_str (v : value) (s : string) : bool :=
  match v with
  | PStr t => String.eqb t s
  | _ => false
  end.

Definition isinstance_dict (v : value) : bool :=
  match v with PDict _ => true | _ => false end.

(** *** Text *)

(** A UTF-8 continuation byte, [10xxxxxx]. *)
Definition is_continuation (c : ascii) : bool :=
  match c with
  | Ascii _ _ _ _ _ _ b6 b7 => b7 && negb b6
  end.

(** The characters of a text, each as its own encoded text. *)
Fixpoint code_points (s : string) : list string :=
  match s with
  | EmptyString => []
  | String c rest =>
      match code_points rest with
      | String d t :: more =>
          if is_continuation d
          then String c (String d t) :: more
          else String c EmptyString :: String d t :: more
      | l => String c EmptyString :: l
      end
  end.

(** [len(s)]: characters, not bytes. *)
Definition py_len (s : string) : nat := List.length (code_points s).

Definition bytes_of (l : list nat) : string :=
  string_of_list_ascii (map ascii_of_nat l).

(** The characters [str.strip()] removes: U+0009..U+000D, U+001C..U+0020,
    U+0085, U+00A0, U+1680, U+2000..U+200A, U+2028, U+2029, U+202F, U+205F,
    U+3000. *)
Definition whitespace : list string :=
  map bytes_of
    [ [9]; [10]; [11]; [12]; [13]; [28]; [29]; [30]; [31]; [32];
      [194; 133]; [194; 160]; [225; 154; 128];
      [226; 128; 128]; [226; 128; 129]; [226; 128; 130]; [226; 128; 131];
      [226; 128; 132]; [226; 128; 133]; [226; 128; 134]; [226; 128; 135];
      [226; 128; 136]; [226; 128; 137]; [226; 128; 138];
      [226; 128; 168]; [226; 128; 169]; [226; 128; 175];
      [226; 129; 159]; [227; 128; 128] ].

Definition isspace (c : string) : bool := existsb (String.eqb c) whitespace.

Fixpoint lstrip_points (l : list string) : list string :=
  match l with
  | [] => []
  | c :: r => if isspace c then lstrip_points r else l
  end.

(** [s.strip()]. *)
Definition strip (s : string) : string :=
  String.concat "" (rev (lstrip_points (rev (lstrip_points (code_points s))))).

(** [s.split(",")]. *)
Fixpoint split_comma (s : string) : list string :=
  match s with
  | EmptyString => [EmptyString]
  | String c rest =>
      if Ascii.eqb c ","%char
      then EmptyString :: split_comma rest
      else match split_comma rest with
           | h :: t => String c h :: t
           | [] => [String c EmptyString]
           end
  end.

(** [s.startswith(p)]. *)
Definition startswith (s p : string) : bool := String.prefix p s.

(** [needle in hay] for two texts. *)
Fixpoint contains (needle hay : string) : bool :=
  String.prefix needle hay ||
  match hay with
  | EmptyString => false
  | String _ rest => contains needle rest
  end.

(** [s in container] for a text literal [s]. *)
Definition py_in (s : string) (container : value) : result bool :=
  match container with
  | PStr t => Ok (contains s t)
  | PList l => Ok (existsb (fun x => eq_str x s) l)
  | PDict d => Ok (existsb (fun kv => String.eqb (fst kv) s) d)
  | _ => Err TypeError
  end.

(** What [for x in v] iterates over. *)
Definition py_iter (v : value) : result (list value) :=
  match v with
  | PList l => Ok l
  | PDict d => Ok (map (fun kv => PStr (fst kv)) d)
  | PStr s => Ok (map PStr (code_points s))
  | _ => Err TypeError
  end.

(** Decimal text of a natural number, as in [f"{i+1}"]. *)
Definition decimal (n : nat) : string := NilZero.string_of_uint (Nat.to_uint n).

(** The library services the handlers rely on.  [json_loads s] is the
    value [json.loads] returns on the text [s], and [None] when it raises;
    [json_error s] is what it raises then: [JSONDecodeError] on text that
    is not JSON, and, where the interpreter's limits are reached first,
    [RecursionError] (nesting deeper than the recursion limit allows) or
    [ValueError] (an integer of more digits than [int] converts).
    [repr_compound] is the text Python prints for a float, a list or a
    dictionary. *)
Class PyRuntime : Type := {
  json_loads : string -> option value;
  json_error : string -> exn;
  repr_compound : value -> string
}.

Section Runtime.
Context {RT : PyRuntime}.

(** [json.loads(v)]: the argument must be text. *)
Definition loads (v : value) : result value :=
  match v with
  | PStr s =>
      match json_loads s with
      | Some r => Ok r
      | None => Err (json_error s)
      end
  | _ => Err TypeError
  end.

(** [str(v)], the text an f-string inserts. *)
Definition py_str (v : value) : string :=
  match v with
  | PStr s => s
  | PNone => "None"
  | PBool true => "True"
  | PBool false => "False"
  | PInt z => NilZero.string_of_int (Z.to_int z)
  | _ => repr_compound v
  end.

End Runtime.

(** ** services/attachment.py *)

(** The [AttachmentInfo] dataclass.  The fields are annotated [str] but
    hold whatever the form carries; [content] is [Optional[bytes]]. *)
Record AttachmentInfo : Type := {
  file_token : value;
  name : value;
  mime_type : value;
  content : option string;
  download_url : value
}.

(** [f"attachment_{i+1}"]. *)
Definition fallback_name (i : nat) : value :=
  PStr ("attachment_" ++ decimal (i + 1)).

(** Candidate file names read from the control's [ext]. *)
Definition ext_filenames (ext : value) : list value :=
  match ext with
  | PStr s =>
      if truthy (PStr s)
      then map (fun n => PStr (strip n)) (split_comma s)
      else []
  | PDict d =>
      let n := py_or (dict_get d "name" PNone) (dict_get d "file_name" PNone) in
      if truthy n then [n] else []
  | PList l => l
  | _ => []
  end.

(** The descriptor one entry of [files] contributes, at position [i]. *)
Definition file_descriptor (names : list value) (i : nat) (file_info : value)
  : option AttachmentInfo :=
  match file_info with
  | PStr s =>
      if startswith s "http"
      then Some {| file_token := PStr "";
                   name := match nth_error names i with
                           | Some n => n
                           | None => fallback_name i
                           end;
                   mime_type := PStr "";
                   content := None;
                   download_url := PStr s |}
      else None
  | PDict d =>
      Some {| file_token :=
                py_or (py_or (dict_get d "file_token" PNone)
                             (dict_get d "token" PNone)) (PStr "");
              name := py_or (dict_get d "name" PNone)
                            (dict_get d "file_name" (fallback_name i));
              mime_type := dict_get d "mime_type" (PStr "");
              content := None;
              download_url :=
                py_or (py_or (dict_get d "url" PNone)
                             (dict_get d "download_url" PNone)) (PStr "") |}
  | _ => None
  end.

(** [for i, file_info in enumerate(files)], counting from [i]. *)
Fixpoint collect_files (names : list value) (i : nat) (files : list value)
    (attachments : list AttachmentInfo) : list AttachmentInfo :=
  match files with
  | [] => attachments
  | file_info :: rest =>
      collect_files names (S i) rest
        match file_descriptor names i file_info with
        | Some a => attachments ++ [a]
        | None => attachments
        end
  end.

Section Attachment.
Context {RT : PyRuntime}.

(** The loop body for a control of type [attachment] or [attachmentV2]. *)
Definition resolve_control (control : list (string * value))
    (attachments : list AttachmentInfo) : list AttachmentInfo :=
  let val := dict_get control "value" PNone in
  if negb (truthy val) then attachments
  else
    let resolve_files (val : value) :=
      let names := ext_filenames (dict_get control "ext" PNone) in
      let files := match val with PList l => l | _ => [val] end in
      collect_files names 0 files attachments in
    match val with
    | PStr s =>
        match json_loads s with
        | Some parsed => resolve_files parsed
        | None =>
            if startswith s "http"
            then attachments ++
                 [ {| file_token := PStr "";
                      name := PStr "attachment";
                      mime_type := PStr "";
                      content := None;
                      download_url := PStr s |} ]
            else attachments
        end
    | _ => resolve_files val
    end.

(** The recursive walk, with [fuel] bounding the nesting of [fieldList]
    rows that is still followed. *)
Fixpoint extract_fuel (fuel : nat) :
    list value -> list AttachmentInfo -> list AttachmentInfo :=
  fix loop (controls : list value) (attachments : list AttachmentInfo) :=
    match controls with
    | [] => attachments
    | control :: rest =>
        loop rest
          match control with
          | PDict d =>
              let control_type := dict_get d "type" (PStr "") in
              if eq_str control_type "fieldList" then
                match dict_get d "value" (PList []) with
                | PList rows =>
                    match fuel with
                    | O => attachments
                    | S fuel' =>
                        fold_left
                          (fun acc row =>
                             match row with
                             | PList row_controls =>
                                 extract_fuel fuel' row_controls acc
                             | _ => acc
                             end)
                          rows attachments
                    end
                | _ => attachments
                end
              else if eq_str control_type "attachment"
                      || eq_str control_type "attachmentV2"
              then resolve_control d attachments
              else attachments
          | _ => attachments
          end
    end.

(** The loop body and the walk once more, with the exceptions of the
    decoder: on the text of a value [json.loads] may raise otherwise than
    by [JSONDecodeError], which the [except] clause of the loop body does
    not catch, and the walk ends there.  [resolve_control] and
    [extract_fuel] above are what the loop body and the walk yield when
    this does not happen. *)
Definition resolve_control_raising (control : list (string * value))
    (attachments : list AttachmentInfo) : result (list AttachmentInfo) :=
  let val := dict_get control "value" PNone in
  if negb (truthy val) then Ok attachments
  else
    let resolve_files (val : value) :=
      let names := ext_filenames (dict_get control "ext" PNone) in
      let files := match val with PList l => l | _ => [val] end in
      collect_files names 0 files attachments in
    match val with
    | PStr s =>
        match json_loads s with
        | Some parsed => Ok (resolve_files parsed)
        | None =>
            match json_error s with
            | JSONDecodeError =>
                Ok (if startswith s "http"
                    then (attachments ++
                          [ {| file_token := PStr "";
                               name := PStr "attachment";
                               mime_type := PStr "";
                               content := None;
                               download_url := PStr s |} ])%list
                    else attachments)
            | e => Err e
            end
        end
    | _ => Ok (resolve_files val)
    end.

Fixpoint extract_fuel_raising (fuel : nat) :
    list value -> list AttachmentInfo -> result (list AttachmentInfo) :=
  fix loop (controls : list value) (attachments : list AttachmentInfo) :=
    match controls with
    | [] => Ok attachments
    | control :: rest =>
        match
          match control with
          | PDict d =>
              let control_type := dict_get d "type" (PStr "") in
              if eq_str control_type "fieldList" then
                match dict_get d "value" (PList []) with
                | PList rows =>
                    match fuel with
                    | O => Ok attachments
                    | S fuel' =>
                        fold_left
                          (fun acc row =>
                             match acc, row with
                             | Ok found, PList row_controls =>
                                 extract_fuel_raising fuel' row_controls found
                             | _, _ => acc
                             end)
                          rows (Ok attachments)
                    end
                | _ => Ok attachments
                end
              else if eq_str control_type "attachment"
                      || eq_str control_type "attachmentV2"
              then resolve_control_raising d attachments
              else Ok attachments
          | _ => Ok attachments
          end
        with
        | Ok found => loop rest found
        | Err e => Err e
        end
    end.

End Attachment.

(** Nesting depth of a value. *)
Fixpoint depth (v : value) : nat :=
  match v with
  | PList l => S (fold_right (fun x n => Nat.max (depth x) n) 0 l)
  | PDict d => S (fold_right (fun kv n => Nat.max (depth (snd kv)) n) 0 d)
  | _ => 0
  end.

Section AttachmentService.
Context {RT : PyRuntime}.

(** [_extract_attachments_recursive(controls, attachments)]: the fuel is
    the depth of the document, which the walk never exhausts. *)
Definition _extract_attachments_recursive (controls : list value)
    (attachments : list AttachmentInfo) : list AttachmentInfo :=
  extract_fuel (depth (PList controls)) controls attachments.

(** The walk with the exceptions of the decoder. *)
Definition walk_raising (controls : list value)
    (attachments : list AttachmentInfo) : result (list AttachmentInfo) :=
  extract_fuel_raising (depth (PList controls)) controls attachments.

(** [extract_attachments_from_form(form_json)]: [JSONDecodeError] on the
    form text gives the empty list, any other exception of the decoder
    comes out. *)
Definition extract_attachments_from_form (form_json : string)
  : result (list AttachmentInfo) :=
  match json_loads form_json with
  | None =>
      match json_error form_json with
      | JSONDecodeError => Ok []
      | e => Err e
      end
  | Some form_data =>
      rbind (py_iter form_data) (fun controls => walk_raising controls [])
  end.

End AttachmentService.

(** ** Collaborators and effects

    The handlers await three services of the API client and one of the mail
    sender.  A program is the tree of these calls; every call may answer
    with a value or raise.  The mapping [get_file_download_urls] returns is
    represented by its [get].  Lines printed to the log are left out. *)

Inductive call : Type -> Type :=
| get_approval_instance (instance_code : value) : call value
| get_file_download_urls (file_tokens : list value) : call (value -> value)
| download_file (url : value) : call string
| send_with_attachments (to_email : string) (subject body : string)
    (attachments : list AttachmentInfo) : call unit.

Inductive prog (A : Type) : Type :=
| Ret (a : A)
| Raise (e : exn)
| Call {R : Type} (c : call R) (k : result R -> prog A).

Arguments Ret {A} a.
Arguments Raise {A} e.
Arguments Call {A R} c k.

Fixpoint bind {A B : Type} (p : prog A) (k : A -> prog B) : prog B :=
  match p with
  | Ret a => k a
  | Raise e => Raise e
  | Call c k' => Call c (fun r => bind (k' r) k)
  end.

(** [try: p  except Exception as e: h e]. *)
Fixpoint try_except {A : Type} (p : prog A) (h : exn -> prog A) : prog A :=
  match p with
  | Ret a => Ret a
  | Raise e => h e
  | Call c k => Call c (fun r => try_except (k r) h)
  end.

Definition lift {A : Type} (r : result A) : prog A :=
  match r with
  | Ok a => Ret a
  | Err e => Raise e
  end.

(** [await c]: the answer, or the exception the collaborator raised. *)
Definition await {R : Type} (c : call R) : prog R := Call c lift.

Declare Scope prog_scope.
Delimit Scope prog_scope with prog.
Notation "x <- p ;; k" := (bind p (fun x => k))
  (at level 61, p at next level, right associativity) : prog_scope.
Notation "' pat <- p ;; k" := (bind p (fun x => match x with pat => k end))
  (at level 61, pat pattern, p at next level, right associativity) : prog_scope.

Declare Scope result_scope.
Delimit Scope result_scope with result.
Notation "x <- r ;; k" := (rbind r (fun x => k))
  (at level 61, r at next level, right associativity) : result_scope.

(** One answered call. *)
Inductive entry : Type :=
| Entry {R : Type} (c : call R) (r : result R).

(** The collaborators as a state machine over a world [W]. *)
Definition handler (W : Type) : Type := forall R, call R -> W -> result R * W.

(** Running a program against the collaborators: the outcome, the world
    left behind and the calls made, in order. *)
Fixpoint run {W A : Type} (h : handler W) (p : prog A) (w : W)
  : result A * W * list entry :=
  match p with
  | Ret a => (Ok a, w, [])
  | Raise e => (Err e, w, [])
  | Call c k =>
      let '(r, w1) := h _ c w in
      let '(out, w2, log) := run h (k r) w1 in
      (out, w2, Entry c r :: log)
  end.

(** A dictionary key must be hashable. *)
Definition hashable (v : value) : bool :=
  match v with
  | PList _ | PDict _ => false
  | _ => true
  end.

Definition set_content (a : AttachmentInfo) (c : string) : AttachmentInfo :=
  {| file_token := file_token a;
     name := name a;
     mime_type := mime_type a;
     content := Some c;
     download_url := download_url a |}.

Open Scope prog_scope.

(** The download loop of [download_attachments]; [token_to_url] is the
    [get] of the resolved mapping.  The descriptors of a batch are distinct
    objects, as the walk builds them, so setting the content of one is an
    update of that element. *)
Fixpoint download_loop (token_to_url : value -> value)
    (attachments downloaded : list AttachmentInfo)
  : prog (list AttachmentInfo) :=
  match attachments with
  | [] => Ret downloaded
  | attachment :: rest =>
      url <- (if truthy (download_url attachment)
              then Ret (download_url attachment)
              else if hashable (file_token attachment)
                   then Ret (token_to_url (file_token attachment))
                   else Raise TypeError) ;;
      if negb (truthy url) then download_loop token_to_url rest downloaded
      else
        downloaded' <-
          try_except
            (content <- await (download_file url) ;;
             Ret (downloaded ++ [set_content attachment content])%list)
            (fun _ => Ret downloaded) ;;
        download_loop token_to_url rest downloaded'
  end.

(** [download_attachments(attachments)]. *)
Definition download_attachments (attachments : list AttachmentInfo)
  : prog (list AttachmentInfo) :=
  match attachments with
  | [] => Ret []
  | _ :: _ =>
      let file_tokens :=
        map file_token
          (filter (fun a => truthy (file_token a) && negb (truthy (download_url a)))
                  attachments) in
      token_to_url <-
        match file_tokens with
        | [] => Ret (fun _ => PNone)
        | _ :: _ => await (get_file_download_urls file_tokens)
        end ;;
      download_loop token_to_url attachments []
  end.

Close Scope prog_scope.

(** ** config.py and handlers/approval.py *)

(** The destination addresses of [Settings]; each defaults to the empty
    text. *)
Record Settings : Type := {
  email_费用报销test : string;
  email_付款test : string;
  email_费用报销 : string;
  email_付款_瑞典对公_shic : string
}.

(** [getattr(settings, attr_name, default)] over the address fields. *)
Definition getattr (settings : Settings) (attr_name default : string) : string :=
  if String.eqb attr_name "email_费用报销test" then email_费用报销test settings
  else if String.eqb attr_name "email_付款test" then email_付款test settings
  else if String.eqb attr_name "email_费用报销" then email_费用报销 settings
  else if String.eqb attr_name "email_付款_瑞典对公_shic"
       then email_付款_瑞典对公_shic settings
  else default.

(** Approval name to settings attribute. *)
Definition APPROVAL_EMAIL_ATTRS : list (string * string) :=
  [ ("费用报销test", "email_费用报销test");
    ("付款test", "email_付款test");
    ("费用报销", "email_费用报销");
    ("付款-瑞典对公-SHIC", "email_付款_瑞典对公_shic") ].

Fixpoint assoc (k : string) (m : list (string * string)) : option string :=
  match m with
  | [] => None
  | (k', v) :: r => if String.eqb k' k then Some v else assoc k r
  end.

(** [_get_target_email(approval_name)] for a name that is text. *)
Definition target_email_of (settings : Settings) (approval_name : string)
  : option string :=
  match assoc approval_name APPROVAL_EMAIL_ATTRS with
  | None => None
  | Some attr_name =>
      if String.eqb attr_name "" then None
      else
        let email := getattr settings attr_name "" in
        if String.eqb email "" then None else Some email
  end.

(** [_get_target_email(approval_name)] on whatever the instance carries:
    a list or dictionary cannot be looked up, any other value that is not
    text has no mapping. *)
Definition _get_target_email (settings : Settings) (approval_name : value)
  : result (option string) :=
  match approval_name with
  | PStr n => Ok (target_email_of settings n)
  | PList _ | PDict _ => Err TypeError
  | _ => Ok None
  end.

Definition newline : string := String (ascii_of_nat 10) EmptyString.

Section Approval.
Context {RT : PyRuntime}.

Open Scope result_scope.

(** [f"{s.get('value', '')} {s.get('currency', '')}" for s in sums]. *)
Fixpoint sum_parts (sums : list value) : result (list string) :=
  match sums with
  | [] => Ok []
  | s :: rest =>
      v <- get s "value" (PStr "") ;;
      c <- get s "currency" (PStr "") ;;
      parts <- sum_parts rest ;;
      Ok ((py_str v ++ " " ++ py_str c)%string :: parts)
  end.

(** [for item in ext] of a [fieldList] control: the first item of type
    [amount] decides, and the loop breaks there. *)
Fixpoint scan_summary (ext : list value) (approval_amount : value)
  : result value :=
  match ext with
  | [] => Ok approval_amount
  | item :: rest =>
      ty <- get item "type" PNone ;;
      if eq_str ty "amount" then
        sum_items <- get item "sumItems" (PStr "") ;;
        if truthy sum_items then
          match loads sum_items with
          | Ok sums =>
              elems <- py_iter sums ;;
              parts <- sum_parts elems ;;
              Ok (PStr (String.concat ", " parts))
          | Err JSONDecodeError => get item "value" (PStr "")
          | Err e => Err e
          end
        else Ok approval_amount
      else scan_summary rest approval_amount
  end.

(** One turn of [for field in form_data] on the pair
    [(approval_title, approval_amount)]. *)
Definition field_step (st : value * value) (field : value)
  : result (value * value) :=
  let '(approval_title, approval_amount) := st in
  n <- get field "name" PNone ;;
  t <- get field "type" PNone ;;
  if eq_str n "名称" && eq_str t "input" then
    v <- get field "value" (PStr "") ;;
    Ok (v, approval_amount)
  else if eq_str n "金额" && eq_str t "amount" then
    amount_value <- get field "value" (PStr "") ;;
    ext <- get field "ext" (PDict []) ;;
    let currency :=
      match ext with
      | PDict d => dict_get d "currency" (PStr "SEK")
      | _ => PStr "SEK"
      end in
    Ok (approval_title, PStr (py_str amount_value ++ " " ++ py_str currency))
  else if eq_str t "fieldList" && negb (truthy approval_amount) then
    ext <- get field "ext" (PList []) ;;
    match ext with
    | PList items =>
        a <- scan_summary items approval_amount ;;
        Ok (approval_title, a)
    | _ => Ok st
    end
  else Ok st.

Fixpoint fields_loop (form_data : list value) (st : value * value)
  : result (value * value) :=
  match form_data with
  | [] => Ok st
  | field :: rest =>
      st' <- field_step st field ;;
      fields_loop rest st'
  end.

(** Step 3 of [_process_approval]: title and amount of the form. *)
Definition summary (form_data : value) : result (value * value) :=
  fields <- py_iter form_data ;;
  fields_loop fields (PStr "", PStr "").

(** [extract_attachments_from_form] on the [form] entry of an instance,
    which need not be text. *)
Definition extract_attachments (form_json : value)
  : result (list AttachmentInfo) :=
  match form_json with
  | PStr s => extract_attachments_from_form s
  | _ => Err TypeError
  end.

Close Scope result_scope.
Open Scope prog_scope.

(** Steps 4 to 6 of [_process_approval]. *)
Definition forward (target_email : string)
    (approval_name approval_title approval_amount form_json : value)
  : prog unit :=
  attachments <- lift (extract_attachments form_json) ;;
  match attachments with
  | [] => Ret tt
  | _ :: _ =>
      downloaded <- download_attachments attachments ;;
      match downloaded with
      | [] => Ret tt
      | _ :: _ =>
          let subject :=
            ("[" ++ py_str approval_name ++ "]-" ++ py_str approval_title)%string in
          let body :=
            ("审批已通过" ++ newline ++ newline ++
             "审批类型: " ++ py_str approval_name ++ newline ++
             "审批标题: " ++ py_str approval_title ++ newline ++
             "审批金额: " ++ py_str approval_amount ++ newline ++
             "附件数量: " ++ decimal (List.length downloaded) ++ newline)%string in
          await (send_with_attachments target_email subject body downloaded)
      end
  end.

(** [_process_approval(instance_code)].  The instance must be a
    dictionary ([instance.keys()]); the form is decoded once for the debug
    dump, once for the fields and once more by the attachment service. *)
Definition _process_approval (settings : Settings) (instance_code : value)
  : prog unit :=
  instance <- await (get_approval_instance instance_code) ;;
  approval_name <- lift (get instance "approval_name" (PStr "")) ;;
  form_json <- lift (get instance "form" (PStr "[]")) ;;
  _ <- lift (loads form_json) ;;
  target_email <- lift (_get_target_email settings approval_name) ;;
  match target_email with
  | None => Ret tt
  | Some target_email =>
      form_data <- lift (loads form_json) ;;
      '(title, approval_amount) <- lift (summary form_data) ;;
      approval_title <-
        (if truthy title then Ret title
         else lift (get instance "serial_number" instance_code)) ;;
      forward target_email approval_name approval_title approval_amount form_json
  end.

(** [a.get(k1) or a.get(k2) or a.get("object", {}).get(k3)]. *)
Definition first_present (event_data : value) (k1 k2 k3 : string)
  : result value :=
  (a <- get event_data k1 PNone ;;
   if truthy a then Ok a
   else
     b <- get event_data k2 PNone ;;
     if truthy b then Ok b
     else
       obj <- get event_data "object" (PDict []) ;;
       get obj k3 PNone)%result.

(** What [handle_event] does once the type and status checks have let
    the event through. *)
Definition handle_approved (settings : Settings) (event_data : value)
  : prog unit :=
  instance_code <-
    lift (first_present event_data "instance_code" "approval_code" "instance_code") ;;
  if negb (truthy instance_code) then Ret tt
  else try_except (_process_approval settings instance_code) (fun e => Raise e).

(** [handle_event(event)]. *)
Definition handle_event (settings : Settings) (event : value) : prog unit :=
  header <- lift (get event "header" (PDict [])) ;;
  event_type <- lift (get header "event_type" (PStr "")) ;;
  skip <- lift (if truthy event_type
                then (found <- py_in "approval_instance" event_type ;;
                      Ok (negb found))%result
                else Ok false) ;;
  if (skip : bool) then Ret tt
  else
    event_data <- lift (get event "event" (PDict [])) ;;
    status <- lift (first_present event_data "status" "instance_status" "status") ;;
    if negb (eq_str status "APPROVED") then Ret tt
    else handle_approved settings event_data.

Close Scope prog_scope.

End Approval.

(** ** utils/crypto_utils.py *)

(** [bytes.decode()]: strict UTF-8, as the table of well-formed byte
    sequences of the Unicode standard gives it. *)
Definition in_range (lo hi : nat) (c : ascii) : bool :=
  ((lo <=? nat_of_ascii c) && (nat_of_ascii c <=? hi))%nat.

Fixpoint utf8_valid (s : string) : bool :=
  match s with
  | EmptyString => true
  | String a r1 =>
      if in_range 0 127 a then utf8_valid r1
      else
        match r1 with
        | EmptyString => false
        | String b r2 =>
            if in_range 194 223 a then in_range 128 191 b && utf8_valid r2
            else
              match r2 with
              | EmptyString => false
              | String c r3 =>
                  if (in_range 224 224 a && in_range 160 191 b)
                     || (in_range 225 236 a && in_range 128 191 b)
                     || (in_range 237 237 a && in_range 128 159 b)
                     || (in_range 238 239 a && in_range 128 191 b)
                  then in_range 128 191 c && utf8_valid r3
                  else
                    match r3 with
                    | EmptyString => false
                    | String d r4 =>
                        ((in_range 240 240 a && in_range 144 191 b)
                         || (in_range 241 243 a && in_range 128 191 b)
                         || (in_range 244 244 a && in_range 128 143 b))
                        && in_range 128 191 c && in_range 128 191 d
                        && utf8_valid r4
                    end
              end
        end
  end.

Definition decode (b : string) : result string :=
  if utf8_valid b then Ok b else Err UnicodeDecodeError.

(** [a ^ b] on bytes. *)
Definition xor_byte (a b : ascii) : ascii :=
  match a, b with
  | Ascii a0 a1 a2 a3 a4 a5 a6 a7, Ascii b0 b1 b2 b3 b4 b5 b6 b7 =>
      Ascii (xorb a0 b0) (xorb a1 b1) (xorb a2 b2) (xorb a3 b3)
            (xorb a4 b4) (xorb a5 b5) (xorb a6 b6) (xorb a7 b7)
  end.

(** [bytes(a ^ b for a, b in zip(x, y))]: as long as the shorter one. *)
Fixpoint zip_xor (x y : string) : string :=
  match x, y with
  | String a x', String b y' => String (xor_byte a b) (zip_xor x' y')
  | _, _ => EmptyString
  end.

(** [k * n] on bytes. *)
Fixpoint repeat_bytes (k : string) (n : nat) : string :=
  match n with
  | O => EmptyString
  | S n' => k ++ repeat_bytes k n'
  end.

(** [s[n:]] for a text whose first [n] characters are ASCII. *)
Fixpoint drop (n : nat) (s : string) : string :=
  match n, s with
  | S n', String _ r => drop n' r
  | _, _ => s
  end.

Section Crypto.

(** [_get_key()]: a SHA-256 digest, fixed for the process. *)
Variable key : string.

(** [base64.b64encode] and [base64.b64decode]; [None] stands for the
    error the decoder raises on text that is not Base64. *)
Variable b64encode : string -> string.
Variable b64decode : string -> option string.

(** [encrypt(plaintext)]: the key is repeated by the number of characters
    of the plaintext, the XOR runs over its UTF-8 bytes. *)
Definition encrypt (plaintext : string) : string :=
  let encrypted :=
    zip_xor plaintext
            (repeat_bytes key (py_len plaintext / String.length key + 1)) in
  "ENC:" ++ b64encode encrypted.

(** [decrypt(ciphertext)]. *)
Definition decrypt (ciphertext : string) : result string :=
  if negb (startswith ciphertext "ENC:") then Ok ciphertext
  else
    match b64decode (drop 4 ciphertext) with
    | None => Err ValueError
    | Some encrypted =>
        let decrypted :=
          zip_xor encrypted
                  (repeat_bytes key
                     (String.length encrypted / String.length key + 1)) in
        decode decrypted
    end.

End Crypto.

(** ** Library instances for closed scenarios

    The handlers are stated over any JSON decoder and any Base64 codec.
    To run them on concrete forms the scenarios use the decoder and codec
    below: JSON as RFC 8259 defines it, restricted to integers without
    fraction or exponent and to two-character escapes, with the two limits
    of the interpreter, and Base64 with the standard alphabet and
    padding. *)

Definition dquote : ascii := ascii_of_nat 34.
Definition backslash : ascii := ascii_of_nat 92.

Definition is_ws (c : ascii) : bool :=
  in_range 32 32 c || in_range 9 10 c || in_range 13 13 c.

Fixpoint skip_ws (s : string) : string :=
  match s with
  | String c r => if is_ws c then skip_ws r else s
  | EmptyString => s
  end.

Definition is_digit (c : ascii) : bool := in_range 48 57 c.

Fixpoint read_digits (s : string) (acc : Z) : Z * string :=
  match s with
  | String c r =>
      if is_digit c
      then read_digits r (10 * acc + Z.of_nat (nat_of_ascii c - 48))
      else (acc, s)
  | EmptyString => (acc, s)
  end.

(** The digits [int] converts, [sys.get_int_max_str_digits()] by
    default, and the containers that may be nested before the recursion
    limit is reached: what CPython 3.11 leaves at the top level of a
    script with its default limit of 1000. *)
Definition max_str_digits : nat := 4300.
Definition max_nesting : nat := 993.

(** An integer literal; a fraction or exponent after it is refused, and
    more digits than [int] converts raise [ValueError]. *)
Definition read_int (s : string) : result (Z * string) :=
  let '(neg, s1) :=
    match s with
    | String c r => if Ascii.eqb c "-"%char then (true, r) else (false, s)
    | EmptyString => (false, s)
    end in
  match s1 with
  | String c r =>
      if negb (is_digit c) then Err JSONDecodeError
      else
        let '(n, rest) :=
          if Ascii.eqb c "0"%char then (0%Z, r) else read_digits s1 0 in
        let refused :=
          match rest with
          | String d _ =>
              Ascii.eqb d "."%char || Ascii.eqb d "e"%char || Ascii.eqb d "E"%char
          | EmptyString => false
          end in
        if refused then Err JSONDecodeError
        else if (max_str_digits <? String.length s1 - String.length rest)%nat
             then Err ValueError
             else Ok (if neg then (- n)%Z else n, rest)
  | EmptyString => Err JSONDecodeError
  end.

Definition unescape (c : ascii) : option ascii :=
  if Ascii.eqb c dquote then Some dquote
  else if Ascii.eqb c backslash then Some backslash
  else if Ascii.eqb c "/"%char then Some "/"%char
  else if Ascii.eqb c "b"%char then Some (ascii_of_nat 8)
  else if Ascii.eqb c "f"%char then Some (ascii_of_nat 12)
  else if Ascii.eqb c "n"%char then Some (ascii_of_nat 10)
  else if Ascii.eqb c "r"%char then Some (ascii_of_nat 13)
  else if Ascii.eqb c "t"%char then Some (ascii_of_nat 9)
  else None.

(** The text after an opening quote, up to the closing one. *)
Fixpoint read_string (s : string) : option (string * string) :=
  match s with
  | EmptyString => None
  | String c r =>
      if Ascii.eqb c dquote then Some (EmptyString, r)
      else if Ascii.eqb c backslash then
        match r with
        | String e r' =>
            match unescape e, read_string r' with
            | Some ch, Some (t, rest) => Some (String ch t, rest)
            | _, _ => None
            end
        | EmptyString => None
        end
      else if in_range 0 31 c then None
      else
        match read_string r with
        | Some (t, rest) => Some (String c t, rest)
        | None => None
        end
  end.

(** [d[k] = v]: a key already present keeps its place. *)
Fixpoint dict_set (d : list (string * value)) (k : string) (v : value)
  : list (string * value) :=
  match d with
  | [] => [(k, v)]
  | (k', v') :: r =>
      if String.eqb k' k then (k, v) :: r else (k', v') :: dict_set r k v
  end.

(** A value; [nesting] is the number of containers that may still be
    entered. *)
Fixpoint read_value (fuel nesting : nat) (s : string) : result (value * string) :=
  match fuel with
  | O => Err JSONDecodeError
  | S fuel' =>
      match skip_ws s with
      | EmptyString => Err JSONDecodeError
      | String c r =>
          if Ascii.eqb c dquote then
            match read_string r with
            | Some (t, rest) => Ok (PStr t, rest)
            | None => Err JSONDecodeError
            end
          else if Ascii.eqb c "["%char then
            match nesting with
            | O => Err RecursionError
            | S nesting' =>
                match skip_ws r with
                | String c' r' =>
                    if Ascii.eqb c' "]"%char then Ok (PList [], r')
                    else
                      match read_elements fuel' nesting' r with
                      | Ok (l, rest) => Ok (PList l, rest)
                      | Err e => Err e
                      end
                | EmptyString => Err JSONDecodeError
                end
            end
          else if Ascii.eqb c "{"%char then
            match nesting with
            | O => Err RecursionError
            | S nesting' =>
                match skip_ws r with
                | String c' r' =>
                    if Ascii.eqb c' "}"%char then Ok (PDict [], r')
                    else
                      match read_members fuel' nesting' r with
                      | Ok (m, rest) =>
                          Ok (PDict (fold_left
                                       (fun d kv => dict_set d (fst kv) (snd kv))
                                       m []), rest)
                      | Err e => Err e
                      end
                | EmptyString => Err JSONDecodeError
                end
            end
          else if String.prefix "null" (String c r) then Ok (PNone, drop 4 (String c r))
          else if String.prefix "true" (String c r) then Ok (PBool true, drop 4 (String c r))
          else if String.prefix "false" (String c r) then Ok (PBool false, drop 5 (String c r))
          else
            match read_int (String c r) with
            | Ok (n, rest) => Ok (PInt n, rest)
            | Err e => Err e
            end
      end
  end
with read_elements (fuel nesting : nat) (s : string) : result (list value * string) :=
  match fuel with
  | O => Err JSONDecodeError
  | S fuel' =>
      match read_value fuel' nesting s with
      | Ok (v, r) =>
          match skip_ws r with
          | String c r' =>
              if Ascii.eqb c ","%char then
                match read_elements fuel' nesting r' with
                | Ok (l, rest) => Ok (v :: l, rest)
                | Err e => Err e
                end
              else if Ascii.eqb c "]"%char then Ok ([v], r')
              else Err JSONDecodeError
          | EmptyString => Err JSONDecodeError
          end
      | Err e => Err e
      end
  end
with read_members (fuel nesting : nat) (s : string)
  : result (list (string * value) * string) :=
  match fuel with
  | O => Err JSONDecodeError
  | S fuel' =>
      match skip_ws s with
      | String q r =>
          if negb (Ascii.eqb q dquote) then Err JSONDecodeError
          else
            match read_string r with
            | Some (k, r1) =>
                match skip_ws r1 with
                | String c r2 =>
                    if negb (Ascii.eqb c ":"%char) then Err JSONDecodeError
                    else
                      match read_value fuel' nesting r2 with
                      | Ok (v, r3) =>
                          match skip_ws r3 with
                          | String c' r4 =>
                              if Ascii.eqb c' ","%char then
                                match read_members fuel' nesting r4 with
                                | Ok (m, rest) => Ok ((k, v) :: m, rest)
                                | Err e => Err e
                                end
                              else if Ascii.eqb c' "}"%char then Ok ([(k, v)], r4)
                              else Err JSONDecodeError
                          | EmptyString => Err JSONDecodeError
                          end
                      | Err e => Err e
                      end
                | EmptyString => Err JSONDecodeError
                end
            | None => Err JSONDecodeError
            end
      | EmptyString => Err JSONDecodeError
      end
  end.

(** The whole text must be one value, blanks around it apart. *)
Definition scenario_decode (s : string) : result value :=
  match read_value (2 * String.length s + 2) max_nesting s with
  | Ok (v, rest) =>
      match skip_ws rest with
      | EmptyString => Ok v
      | String _ _ => Err JSONDecodeError
      end
  | Err e => Err e
  end.

Definition scenario_loads (s : string) : option value :=
  match scenario_decode s with
  | Ok v => Some v
  | Err _ => None
  end.

Definition scenario_error (s : string) : exn :=
  match scenario_decode s with
  | Ok _ => JSONDecodeError
  | Err e => e
  end.

(** The scenarios format text and integers only; a float, list or
    dictionary is never printed in them. *)
#[export] Instance scenario_runtime : PyRuntime := {|
  json_loads := scenario_loads;
  json_error := scenario_error;
  repr_compound := fun _ => "<object>"
|}.

(** [q s] is [s] between double quotes, as JSON writes text. *)
Definition q (s : string) : string :=
  String dquote (s ++ String dquote EmptyString).

(** *** Base64 *)

Definition sextet : Type := (bool * bool * bool * bool * bool * bool)%type.

Definition b64_alphabet : list ascii :=
  list_ascii_of_string
    "ABCDEFGHIJKLMNOPQRSTUVWXYZabcdefghijklmnopqrstuvwxyz0123456789+/".

Definition bit (b : bool) : nat := if b then 1 else 0.

(** The six bits, most significant first, as an index. *)
Definition sextet_index (x : sextet) : nat :=
  let '(b5, b4, b3, b2, b1, b0) := x in
  32 * bit b5 + 16 * bit b4 + 8 * bit b3 + 4 * bit b2 + 2 * bit b1 + bit b0.

Definition b64_char (x : sextet) : ascii :=
  nth (sextet_index x) b64_alphabet "A"%char.

Definition index_sextet (n : nat) : sextet :=
  (Nat.testbit n 5, Nat.testbit n 4, Nat.testbit n 3,
   Nat.testbit n 2, Nat.testbit n 1, Nat.testbit n 0).

Fixpoint index_of (c : ascii) (l : list ascii) (i : nat) : option nat :=
  match l with
  | [] => None
  | x :: r => if Ascii.eqb x c then Some i else index_of c r (S i)
  end.

Definition b64_value (c : ascii) : option sextet :=
  match index_of c b64_alphabet 0 with
  | Some i => Some (index_sextet i)
  | None => None
  end.

Definition pad : ascii := "="%char.

Fixpoint scenario_b64encode (s : string) : string :=
  match s with
  | EmptyString => EmptyString
  | String (Ascii a0 a1 a2 a3 a4 a5 a6 a7) EmptyString =>
      String (b64_char (a7, a6, a5, a4, a3, a2))
        (String (b64_char (a1, a0, false, false, false, false))
           (String pad (String pad EmptyString)))
  | String (Ascii a0 a1 a2 a3 a4 a5 a6 a7)
      (String (Ascii b0 b1 b2 b3 b4 b5 b6 b7) EmptyString) =>
      String (b64_char (a7, a6, a5, a4, a3, a2))
        (String (b64_char (a1, a0, b7, b6, b5, b4))
           (String (b64_char (b3, b2, b1, b0, false, false))
              (String pad EmptyString)))
  | String (Ascii a0 a1 a2 a3 a4 a5 a6 a7)
      (String (Ascii b0 b1 b2 b3 b4 b5 b6 b7)
         (String (Ascii c0 c1 c2 c3 c4 c5 c6 c7) rest)) =>
      String (b64_char (a7, a6, a5, a4, a3, a2))
        (String (b64_char (a1, a0, b7, b6, b5, b4))
           (String (b64_char (b3, b2, b1, b0, c7, c6))
              (String (b64_char (c5, c4, c3, c2, c1, c0))
                 (scenario_b64encode rest))))
  end.

Fixpoint scenario_b64decode (s : string) : option string :=
  match s with
  | EmptyString => Some EmptyString
  | String x1 (String x2 (String x3 (String x4 rest))) =>
      match b64_value x1, b64_value x2 with
      | Some (a7, a6, a5, a4, a3, a2), Some (a1, a0, b7, b6, b5, b4) =>
          let a := Ascii a0 a1 a2 a3 a4 a5 a6 a7 in
          match b64_value x3, b64_value x4 with
          | Some (b3, b2, b1, b0, c7, c6), Some (c5, c4, c3, c2, c1, c0) =>
              match scenario_b64decode rest with
              | Some t =>
                  Some (String a
                          (String (Ascii b0 b1 b2 b3 b4 b5 b6 b7)
                             (String (Ascii c0 c1 c2 c3 c4 c5 c6 c7) t)))
              | None => None
              end
          | Some (b3, b2, b1, b0, _, _), None =>
              if Ascii.eqb x4 pad && String.eqb rest ""
              then Some (String a (String (Ascii b0 b1 b2 b3 b4 b5 b6 b7) EmptyString))
              else None
          | None, None =>
              if Ascii.eqb x3 pad && Ascii.eqb x4 pad && String.eqb rest ""
              then Some (String a EmptyString)
              else None
          | None, Some _ => None
          end
      | _, _ => None
      end
  | _ => None
  end.

(** ** Reference notions and scenarios

    What the properties below compare the handlers with, and the forms,
    events and collaborators of the scenarios. *)

Definition control_type (d : list (string * value)) : value :=
  dict_get d "type" (PStr "").

Definition is_attachment_control (d : list (string * value)) : bool :=
  eq_str (control_type d) "attachment" || eq_str (control_type d) "attachmentV2".

(** The controls of a document that are not groups, at every nesting
    depth, in document order. *)
Fixpoint leaf_controls_fuel (fuel : nat) :
    list value -> list (list (string * value)) :=
  fix loop (controls : list value) :=
    match controls with
    | [] => []
    | control :: rest =>
        (match control with
        | PDict d =>
            if eq_str (control_type d) "fieldList" then
              match dict_get d "value" (PList []) with
              | PList rows =>
                  match fuel with
                  | O => []
                  | S fuel' =>
                      flat_map
                        (fun row =>
                           match row with
                           | PList row_controls =>
                               leaf_controls_fuel fuel' row_controls
                           | _ => []
                           end)
                        rows
                  end
              | _ => []
              end
            else [d]
        | _ => []
        end ++ loop rest)%list
    end.

Definition leaf_controls (controls : list value) : list (list (string * value)) :=
  leaf_controls_fuel (depth (PList controls)) controls.

(** The attachment-bearing controls at every depth, in document order. *)
Definition attachment_controls (controls : list value)
  : list (list (string * value)) :=
  filter is_attachment_control (leaf_controls controls).

(** What the decoder raises on the value of an attachment control, when
    it raises otherwise than by [JSONDecodeError]; and the first such
    exception among the attachment controls of a document. *)
Definition value_error {RT : PyRuntime} (d : list (string * value)) : option exn :=
  match dict_get d "value" PNone with
  | PStr s =>
      if String.eqb s "" then None
      else
        match json_loads s, json_error s with
        | Some _, _ | None, JSONDecodeError => None
        | None, e => Some e
        end
  | _ => None
  end.

Fixpoint first_error {RT : PyRuntime} (ds : list (list (string * value)))
  : option exn :=
  match ds with
  | [] => None
  | d :: rest =>
      match value_error d with
      | Some e => Some e
      | None => first_error rest
      end
  end.

Definition walk_error {RT : PyRuntime} (controls : list value) : option exn :=
  first_error (attachment_controls controls).

(** What one control adds to the accumulator, given the walk [rec] to use
    inside the rows of a group. *)
Definition control_step {RT : PyRuntime}
    (rec : list value -> list AttachmentInfo -> list AttachmentInfo)
    (control : value) (attachments : list AttachmentInfo) : list AttachmentInfo :=
  match control with
  | PDict d =>
      if eq_str (control_type d) "fieldList" then
        match dict_get d "value" (PList []) with
        | PList rows =>
            fold_left
              (fun acc row =>
                 match row with
                 | PList row_controls => rec row_controls acc
                 | _ => acc
                 end)
              rows attachments
        | _ => attachments
        end
      else if is_attachment_control d then resolve_control d attachments
      else attachments
  | _ => attachments
  end.

Definition resolved {RT : PyRuntime} (d : list (string * value))
  : list AttachmentInfo :=
  resolve_control d [].

(** The same for the walk with the exceptions of the decoder. *)
Definition control_step_raising {RT : PyRuntime}
    (rec : list value -> list AttachmentInfo -> result (list AttachmentInfo))
    (control : value) (attachments : list AttachmentInfo)
  : result (list AttachmentInfo) :=
  match control with
  | PDict d =>
      if eq_str (control_type d) "fieldList" then
        match dict_get d "value" (PList []) with
        | PList rows =>
            fold_left
              (fun acc row =>
                 match acc, row with
                 | Ok found, PList row_controls => rec row_controls found
                 | _, _ => acc
                 end)
              rows (Ok attachments)
        | _ => Ok attachments
        end
      else if is_attachment_control d then resolve_control_raising d attachments
      else Ok attachments
  | _ => Ok attachments
  end.

(** At least one of the two locators of a descriptor is non-empty. *)
Definition locatable (a : AttachmentInfo) : bool :=
  truthy (file_token a) || truthy (download_url a).

(** A group whose single row holds an attachment control with two files. *)
Definition nested_form : list value :=
  [ PDict [ ("name", PStr "items"); ("type", PStr "fieldList");
            ("value",
             PList [ PList [ PDict [ ("type", PStr "attachmentV2");
                                     ("value", PList [ PStr "http://a/1.pdf";
                                                       PStr "http://a/2.pdf" ]) ] ] ]) ] ].

(** The descriptor the resolver builds for a value that is one bare URL. *)
Definition bare_descriptor (url : string) : AttachmentInfo :=
  {| file_token := PStr "";
     name := PStr "attachment";
     mime_type := PStr "";
     content := None;
     download_url := PStr url |}.

(** Scenario 4 of the specification. *)
Definition scenario4_control : list (string * value) :=
  [ ("name", PStr "receipt"); ("type", PStr "attachmentV2");
    ("value", PStr "http://x/y.pdf") ].

(** Whether an entry of the files carries a token or a URL. *)
Definition entry_has_locator (file_info : value) : bool :=
  match file_info with
  | PStr _ => true
  | PDict d =>
      truthy (dict_get d "file_token" PNone) || truthy (dict_get d "token" PNone)
      || truthy (dict_get d "url" PNone) || truthy (dict_get d "download_url" PNone)
  | _ => false
  end.

(** A structured entry that names a file and carries neither token nor
    URL. *)
Definition unlocated_control : list (string * value) :=
  [ ("type", PStr "attachment");
    ("value", PList [ PDict [ ("name", PStr "a.pdf") ] ]) ].

Definition unlocated_descriptor : AttachmentInfo :=
  {| file_token := PStr "";
     name := PStr "a.pdf";
     mime_type := PStr "";
     content := None;
     download_url := PStr "" |}.

(** A control named "名称" of type [input]. *)
Definition is_title_control (f : value) : bool :=
  match f with
  | PDict d => eq_str (dict_get d "name" PNone) "名称"
               && eq_str (dict_get d "type" PNone) "input"
  | _ => false
  end.

(** A control named "金额" of type [amount]. *)
Definition is_amount_control (f : value) : bool :=
  match f with
  | PDict d => eq_str (dict_get d "name" PNone) "金额"
               && eq_str (dict_get d "type" PNone) "amount"
  | _ => false
  end.

Definition title_value (f : value) : value :=
  match f with
  | PDict d => dict_get d "value" (PStr "")
  | _ => PStr ""
  end.

(** The value of a monetary control with the currency of its [ext],
    "SEK" when it names none. *)
Definition amount_text {RT : PyRuntime} (f : value) : value :=
  match f with
  | PDict d =>
      let currency :=
        match dict_get d "ext" (PDict []) with
        | PDict e => dict_get e "currency" (PStr "SEK")
        | _ => PStr "SEK"
        end in
      PStr (py_str (dict_get d "value" (PStr "")) ++ " " ++ py_str currency)
  | _ => PStr ""
  end.

(** The title by the first-match rule of the specification. *)
Definition first_match_title (fields : list value) : value :=
  match find is_title_control fields with
  | Some f => title_value f
  | None => PStr ""
  end.

(** The title by the last matching control. *)
Definition last_match_title (fields : list value) : value :=
  match find is_title_control (rev fields) with
  | Some f => title_value f
  | None => PStr ""
  end.

Definition is_ok {A : Type} (r : result A) : bool :=
  match r with Ok _ => true | Err _ => false end.

(** A control the loop can read: a dictionary, whose summary side-data,
    when it is a group, is read without error. *)
Definition field_ok {RT : PyRuntime} (f : value) : bool :=
  match f with
  | PDict d =>
      if eq_str (dict_get d "type" PNone) "fieldList" then
        match dict_get d "ext" (PList []) with
        | PList items => is_ok (scan_summary items (PStr ""))
        | _ => true
        end
      else true
  | _ => false
  end.

Definition title_control (v : string) : value :=
  PDict [ ("name", PStr "名称"); ("type", PStr "input"); ("value", PStr v) ].

(** Two titles and two amounts, the second amount without currency. *)
Definition repeated_fields : list value :=
  [ title_control "Taxi";
    PDict [ ("name", PStr "金额"); ("type", PStr "amount"); ("value", PStr "100");
            ("ext", PDict [ ("currency", PStr "USD") ]) ];
    title_control "Train";
    PDict [ ("name", PStr "金额"); ("type", PStr "amount"); ("value", PStr "7") ] ].
















(** The event type of the header, the empty text when absent. *)
Definition envelope_event_type (event : value) : value :=
  match event with
  | PDict e =>
      match dict_get e "header" (PDict []) with
      | PDict h => dict_get h "event_type" (PStr "")
      | _ => PStr ""
      end
  | _ => PStr ""
  end.

Definition envelope_data (event : value) : value :=
  match event with
  | PDict e => dict_get e "event" (PDict [])
  | _ => PDict []
  end.

(** The status, read from [status], [instance_status] or
    [object.status]. *)
Definition envelope_status (event : value) : value :=
  match envelope_data event with
  | PDict ed =>
      py_or (dict_get ed "status" PNone)
        (py_or (dict_get ed "instance_status" PNone)
           match dict_get ed "object" (PDict []) with
           | PDict o => dict_get o "status" PNone
           | _ => PNone
           end)
  | _ => PNone
  end.

Definition marker_present (event_type : value) : bool :=
  match py_in "approval_instance" event_type with
  | Ok found => found
  | Err _ => false
  end.

(** The gate by the words of the specification. *)
Definition marker_gate (event : value) : bool :=
  marker_present (envelope_event_type event)
  && eq_str (envelope_status event) "APPROVED".

(** The gate of the handler: an absent or empty event type passes the
    type check. *)
Definition gate_open (event : value) : bool :=
  (negb (truthy (envelope_event_type event))
   || marker_present (envelope_event_type event))
  && eq_str (envelope_status event) "APPROVED".

(** An envelope of the documented shape: header, event and object are
    dictionaries and the event type is text. *)
Definition well_shaped (event : value) : bool :=
  match event with
  | PDict e =>
      match dict_get e "header" (PDict []), dict_get e "event" (PDict []) with
      | PDict h, PDict ed =>
          match dict_get h "event_type" (PStr ""), dict_get ed "object" (PDict []) with
          | PStr _, PDict _ => true
          | _, _ => false
          end
      | _, _ => false
      end
  | _ => false
  end.

Definition makes_call {A : Type} (p : prog A) : Prop :=
  match p with
  | Call _ _ => True
  | _ => False
  end.

Definition no_settings : Settings :=
  {| email_费用报销test := "";
     email_付款test := "";
     email_费用报销 := "";
     email_付款_瑞典对公_shic := "" |}.

Definition envelope (event_type : option string) (status : string) : value :=
  PDict [ ("header",
           PDict (("event_id", PStr "e-1")
                  :: match event_type with
                     | Some t => [ ("event_type", PStr t) ]
                     | None => []
                     end));
          ("event", PDict [ ("status", PStr status);
                            ("instance_code", PStr "INST-1") ]) ].

(** The URL the loop uses for an attachment. *)
Definition attachment_url (token_to_url : value -> value) (a : AttachmentInfo)
  : value :=
  if truthy (download_url a) then download_url a else token_to_url (file_token a).

(** The URL can be determined: a direct one, or a token fit for a
    dictionary lookup. *)
Definition resolvable (a : AttachmentInfo) : bool :=
  truthy (download_url a) || hashable (file_token a).

(** The attachments that have a URL, each with it. *)
Definition targets (token_to_url : value -> value) (attachments : list AttachmentInfo)
  : list (AttachmentInfo * value) :=
  flat_map (fun a =>
              let url := attachment_url token_to_url a in
              if truthy url then [(a, url)] else [])
           attachments.

(** The attachments whose own download answered with content. *)
Definition successes (outcomes : list (AttachmentInfo * value * result string))
  : list AttachmentInfo :=
  flat_map (fun o =>
              match snd o with
              | Ok c => [set_content (fst (fst o)) c]
              | Err _ => []
              end)
           outcomes.

Definition download_log (outcomes : list (AttachmentInfo * value * result string))
  : list entry :=
  map (fun o => Entry (download_file (snd (fst o))) (snd o)) outcomes.

Definition is_send (e : entry) : bool :=
  match e with
  | Entry (send_with_attachments _ _ _ _) _ => true
  | Entry _ _ => false
  end.

(** The attachments whose URL has to be asked for. *)
Definition needs_lookup (a : AttachmentInfo) : bool :=
  truthy (file_token a) && negb (truthy (download_url a)).

(** The outcome of resolving the file tokens of a batch: the mapping (by
    its [get]), the world and the call made, if any. *)
Definition url_resolution {W : Type} (h : handler W)
    (attachments : list AttachmentInfo) (w : W)
  : result (value -> value) * W * list entry :=
  match map file_token (filter needs_lookup attachments) with
  | [] => (Ok (fun _ => PNone), w, [])
  | tok :: toks =>
      let '(r, w1) := h _ (get_file_download_urls (tok :: toks)) w in
      (r, w1, [Entry (get_file_download_urls (tok :: toks)) r])
  end.

Definition has_content (a : AttachmentInfo) : bool :=
  match content a with Some _ => true | None => false end.

(** A call of the mail sender that carries a non-empty batch of
    downloaded attachments; any other call. *)
Definition send_ok (e : entry) : bool :=
  match e with
  | Entry (send_with_attachments _ _ _ atts) _ =>
      match atts with [] => false | _ :: _ => forallb has_content atts end
  | Entry _ _ => true
  end.

(** Collaborators for the scenarios: the world counts the calls; one
    URL cannot be downloaded, one token is unknown. *)
Definition scenario_urls (token : value) : value :=
  if eq_str token "tok-2" then PStr "http://files/bad"
  else if eq_str token "tok-3" then PStr "http://files/3.pdf"
  else PNone.

Definition scenario_handler : handler nat :=
  fun R c w =>
    match c in call R return result R * nat with
    | get_approval_instance _ => (Err (RemoteError "no instance"), S w)
    | get_file_download_urls _ => (Ok scenario_urls, S w)
    | download_file url =>
        (if eq_str url "http://files/bad" then Err (RemoteError "404")
         else Ok "%PDF", S w)
    | send_with_attachments _ _ _ _ => (Ok tt, S w)
    end.

Definition descriptor (token url : string) : AttachmentInfo :=
  {| file_token := PStr token;
     name := PStr "file";
     mime_type := PStr "";
     content := None;
     download_url := PStr url |}.

Definition scenario_batch : list AttachmentInfo :=
  [ descriptor "" "http://files/1.pdf"; descriptor "tok-2" "";
    descriptor "tok-3" ""; descriptor "tok-4" "" ].

Definition bad_form : value :=
  PStr ("[{" ++ q "type" ++ ":" ++ q "attachmentV2" ++ ","
        ++ q "value" ++ ":" ++ q "http://files/bad" ++ "}]").

(** [s[:n]] on bytes. *)
Fixpoint take (n : nat) (s : string) : string :=
  match n, s with
  | S n', String c r => String c (take n' r)
  | _, _ => EmptyString
  end.


Definition long_number_form : string := "[" ++ repeat_bytes "9" 4301.

(** Seventeen two-byte characters: 34 bytes of UTF-8. *)
Definition long_text : string := "ééééééééééééééééé".

Definition scenario_key : string := "0123456789abcdef0123456789abcdef".

(** An approved payment: title, amount and one receipt behind a direct
    URL, as the API client would return it. *)
Definition json_object (members : list (string * string)) : string :=
  "{" ++ String.concat "," (map (fun kv => q (fst kv) ++ ":" ++ snd kv) members) ++ "}".

Definition payment_form : string :=
  "[" ++ json_object [ ("name", q "名称"); ("type", q "input"); ("value", q "Taxi") ]
  ++ "," ++ json_object [ ("name", q "金额"); ("type", q "amount"); ("value", q "100");
                          ("ext", json_object [ ("currency", q "USD") ]) ]
  ++ "," ++ json_object [ ("name", q "附件"); ("type", q "attachmentV2");
                          ("value", "[" ++ q "http://files/1.pdf" ++ "]");
                          ("ext", q "receipt.pdf") ]
  ++ "]".

Definition payment_instance (approval_name : string) : value :=
  PDict [ ("approval_name", PStr approval_name); ("serial_number", PStr "202401010001");
          ("form", PStr payment_form) ].

Definition payment_settings : Settings :=
  {| email_费用报销test := "";
     email_付款test := "pay@example.com";
     email_费用报销 := "";
     email_付款_瑞典对公_shic := "" |}.

Definition payment_handler (approval_name : string) : handler nat :=
  fun R c w =>
    match c in call R return result R * nat with
    | get_approval_instance _ => (Ok (payment_instance approval_name), S w)
    | get_file_download_urls _ => (Ok (fun _ => PNone), S w)
    | download_file _ => (Ok "%PDF", S w)
    | send_with_attachments _ _ _ _ => (Ok tt, S w)
    end.

Definition receipt : AttachmentInfo :=
  {| file_token := PStr "";
     name := PStr "receipt.pdf";
     mime_type := PStr "";
     content := Some "%PDF";
     download_url := PStr "http://files/1.pdf" |}.

(** ** Further code of the services

    The functions of the cited files that the properties above do not
    reach, with what the further properties need to speak of them. *)

(** *** services/attachment.py: the e-mail field *)

Section EmailField.
Context {RT : PyRuntime}.

(** What the value of a control with the wanted name decides:
    [Ok (Some r)] stands for [return r], [Ok None] for going on with the
    loop, and [Err e] for an exception of the decoder that the [except]
    clause does not catch. *)
Definition email_decision (val : value) : result (option string) :=
  match val with
  | PStr s =>
      let looks_like_email :=
        Ok (if contains "@" s then Some (strip s) else None) in
      match json_loads s with
      | Some (PList (first :: _)) => Ok (Some (py_str first))
      | Some (PStr parsed) => Ok (Some parsed)
      | Some _ => looks_like_email
      | None =>
          match json_error s with
          | JSONDecodeError => looks_like_email
          | e => Err e
          end
      end
  | PList (first :: _) => Ok (Some (py_str first))
  | _ => Ok None
  end.

(** [for control in form_data] of [extract_email_from_form]. *)
Fixpoint email_loop (form_data : list value) (email_field_name default_email : string)
  : result string :=
  match form_data with
  | [] => Ok default_email
  | control :: rest =>
      rbind (get control "name" (PStr "")) (fun n =>
      if eq_str n email_field_name then
        rbind (get control "value" (PStr "")) (fun val =>
        rbind (email_decision val) (fun decided =>
        match decided with
        | Some r => Ok r
        | None => email_loop rest email_field_name default_email
        end))
      else email_loop rest email_field_name default_email)
  end.

(** [extract_email_from_form(form_json, email_field_name, default_email)]:
    [JSONDecodeError] on the form text gives the default, any other
    exception of the decoder comes out. *)
Definition extract_email_from_form (form_json email_field_name default_email : string)
  : result string :=
  match json_loads form_json with
  | None =>
      match json_error form_json with
      | JSONDecodeError => Ok default_email
      | e => Err e
      end
  | Some form_data =>
      rbind (py_iter form_data) (fun controls =>
      email_loop controls email_field_name default_email)
  end.

End EmailField.

(** A decoded value that is neither a selection with an option nor a
    string. *)
Definition other_json (v : value) : bool :=
  match v with
  | PList (_ :: _) | PStr _ => false
  | _ => true
  end.

(** A value that settles no address: it is neither a list with an
    element nor text; or it is text without an "@" that the decoder
    refuses by [JSONDecodeError] or decodes to something that is neither
    a selection with an option nor a string. *)
Definition settles_nothing {RT : PyRuntime} (val : value) : bool :=
  match val with
  | PStr s =>
      negb (contains "@" s)
      && match json_loads s with
         | Some v => other_json v
         | None => match json_error s with JSONDecodeError => true | _ => false end
         end
  | PList (_ :: _) => false
  | _ => true
  end.

(** A control that does not settle the e-mail address: a dictionary that
    is not named as wanted, or whose value settles nothing. *)
Definition email_passes {RT : PyRuntime} (email_field_name : string) (control : value)
  : bool :=
  match control with
  | PDict d =>
      if eq_str (dict_get d "name" (PStr "")) email_field_name
      then settles_nothing (dict_get d "value" (PStr ""))
      else true
  | _ => false
  end.

(** [s] between escaped double quotes, as a JSON string holds quoted
    text. *)
Definition escaped (s : string) : string :=
  String backslash (String dquote (s ++ String backslash (String dquote EmptyString))).

(** A form whose second control holds a selection as JSON text. *)
Definition selection_form : string :=
  "[" ++ json_object [ ("name", q "名称"); ("value", q "Taxi") ]
  ++ "," ++ json_object
              [ ("name", q "收件人");
                ("value", q ("[" ++ escaped "pay@example.com" ++ ","
                             ++ escaped "second@example.com" ++ "]")) ]
  ++ "," ++ json_object [ ("name", q "收件人"); ("value", q "late@example.com") ]
  ++ "]".

(** A form whose second control holds an address between blanks. *)
Definition padded_form : string :=
  "[" ++ json_object [ ("name", q "名称"); ("value", q "Taxi") ]
  ++ "," ++ json_object [ ("name", q "收件人"); ("value", q " pay@example.com ") ]
  ++ "," ++ json_object [ ("name", q "收件人"); ("value", q "late@example.com") ]
  ++ "]".

Definition named_control (n : string) (val : value) : value :=
  PDict [ ("name", PStr n); ("type", PStr "input"); ("value", val) ].

(** *** Reference notions for the resolver *)

(** The descriptors of the entries of [files], each resolved at its own
    position, counted from [i]. *)
Definition indexed_descriptors (names : list value) (i : nat) (files : list value)
  : list AttachmentInfo :=
  flat_map (fun jf => match file_descriptor names (fst jf) (snd jf) with
                      | Some a => [a]
                      | None => []
                      end)
           (combine (seq i (List.length files)) files).

(** Text that starts with "http". *)
Definition is_url_text (f : value) : bool :=
  match f with
  | PStr u => startswith u "http"
  | _ => false
  end.

(** The controls of the rows of a group, rows that are not lists left
    out. *)
Definition row_controls (rows : list value) : list value :=
  flat_map (fun row => match row with PList cs => cs | _ => [] end) rows.

(** *** Reference notions for downloads and events *)

(** The instance code of an envelope, read from [instance_code],
    [approval_code] or [object.instance_code]. *)
Definition envelope_instance_code (event : value) : value :=
  match envelope_data event with
  | PDict ed =>
      py_or (dict_get ed "instance_code" PNone)
        (py_or (dict_get ed "approval_code" PNone)
           match dict_get ed "object" (PDict []) with
           | PDict o => dict_get o "instance_code" PNone
           | _ => PNone
           end)
  | _ => PNone
  end.

(** The place of a call in the course of an event. *)
Definition rank (e : entry) : nat :=
  match e with
  | Entry (get_approval_instance _) _ => 0
  | Entry (get_file_download_urls _) _ => 1
  | Entry (download_file _) _ => 2
  | Entry (send_with_attachments _ _ _ _) _ => 3
  end.

(** The calls come by rising rank, downloads alone may repeat; [next] is
    the least rank still allowed. *)
Fixpoint in_order (next : nat) (log : list entry) : bool :=
  match log with
  | [] => true
  | e :: rest =>
      (next <=? rank e)%nat
      && in_order (if (rank e =? 2)%nat then 2 else S (rank e)) rest
  end.

(** The arguments of a call of the mail sender. *)
Definition send_args (e : entry)
  : option (string * string * string * list AttachmentInfo) :=
  match e with
  | Entry (send_with_attachments to_email subject body attachments) _ =>
      Some (to_email, subject, body, attachments)
  | Entry _ _ => None
  end.

(** The subject and body [_process_approval] writes. *)
Definition mail_subject (approval_name approval_title : string) : string :=
  "[" ++ approval_name ++ "]-" ++ approval_title.

Definition mail_body (approval_name approval_title approval_amount : string)
    (count : nat) : string :=
  "审批已通过" ++ newline ++ newline ++
  "审批类型: " ++ approval_name ++ newline ++
  "审批标题: " ++ approval_title ++ newline ++
  "审批金额: " ++ approval_amount ++ newline ++
  "附件数量: " ++ decimal count ++ newline.

(** What an instance is mailed as: recipient, title and amount, when the
    category is mapped and the form can be read. *)
Definition mail_plan {RT : PyRuntime} (settings : Settings)
    (instance : list (string * value)) (instance_code : value)
  : option (string * value * value) :=
  match _get_target_email settings (dict_get instance "approval_name" (PStr "")),
        rbind (loads (dict_get instance "form" (PStr "[]"))) summary with
  | Ok (Some target_email), Ok (title, amount) =>
      Some (target_email,
            if truthy title then title
            else dict_get instance "serial_number" instance_code,
            amount)
  | _, _ => None
  end.

(** A control the aggregator has no rule for: a dictionary that is
    neither the title, nor the amount, nor a group. *)
Definition is_plain_control (f : value) : bool :=
  match f with
  | PDict d =>
      negb (is_title_control f) && negb (is_amount_control f)
      && negb (eq_str (dict_get d "type" PNone) "fieldList")
  | _ => false
  end.

(** [str.isascii()]. *)
Fixpoint isascii (s : string) : bool :=
  match s with
  | EmptyString => true
  | String c r => in_range 0 127 c && isascii r
  end.

(** The validator [decrypt_secret] of [Settings] (config.py), which the
    application secret and the SMTP password pass through before they are
    stored. *)
Definition decrypt_secret (key : string) (b64decode : string -> option string)
    (v : value) : result value :=
  match v with
  | PStr s =>
      if startswith s "ENC:"
      then rbind (decrypt key b64decode s) (fun p => Ok (PStr p))
      else Ok v
  | _ => Ok v
  end.

(** ** services/email_sender.py *)

Module EmailSender.

(** The fields of an [EmailSender]. *)
Record t : Type := {
  host : string;
  port : Z;
  username : string;
  password : string;
  from_email : string
}.

(** The parts of the multipart message: the text of the body, or a file
    with its payload and the [filename] of its [Content-Disposition]. *)
Inductive part : Type :=
| MIMEText (body : string)
| MIMEBase (payload : string) (filename : string).

Record message : Type := {
  From : string;
  To : string;
  Subject : string;
  parts : list part
}.

(** A call of [aiosmtplib.send] with the keyword arguments given;
    [None] is an argument left out. *)
Record smtp_send : Type := {
  msg : message;
  hostname : string;
  smtp_port : Z;
  smtp_username : string;
  smtp_password : string;
  start_tls : option bool;
  use_tls : option bool
}.

Section Sender.

(** [Header(s, "utf-8").encode()] on a text. *)
Variable header_encode : string -> string.

(** [Header(attachment.name, "utf-8").encode()]: [None] makes an empty
    header, a value that is neither text nor [None] has no [decode]. *)
Definition encoded_name (name : value) : result string :=
  match name with
  | PStr s => Ok (header_encode s)
  | PNone => Ok ""
  | _ => Err AttributeError
  end.

(** [for attachment in attachments] on the parts attached so far. *)
Fixpoint attach_files (attachments : list AttachmentInfo) (attached : list part)
  : result (list part) :=
  match attachments with
  | [] => Ok attached
  | attachment :: rest =>
      match content attachment with
      | None => attach_files rest attached
      | Some payload =>
          (filename <- encoded_name (name attachment) ;;
           attach_files rest (attached ++ [ MIMEBase payload filename ])%list)%result
      end
  end.

(** [send_with_attachments(to_email, subject, body, attachments)], up to
    the call of [aiosmtplib.send] it ends with. *)
Definition send_with_attachments (self : t) (to_email subject body : string)
    (attachments : list AttachmentInfo) : result smtp_send :=
  (attached <- attach_files attachments [ MIMEText body ] ;;
   let m := {| From := from_email self; To := to_email; Subject := subject;
               parts := attached |} in
   if (port self =? 587)%Z
   then Ok {| msg := m; hostname := host self; smtp_port := port self;
              smtp_username := username self; smtp_password := password self;
              start_tls := Some true; use_tls := None |}
   else Ok {| msg := m; hostname := host self; smtp_port := port self;
              smtp_username := username self; smtp_password := password self;
              start_tls := None; use_tls := Some true |})%result.

End Sender.

End EmailSender.

(** A name the mail sender can put in a header. *)
Definition name_encodable (a : AttachmentInfo) : bool :=
  match name a with
  | PStr _ | PNone => true
  | _ => false
  end.

(** The file part of a descriptor with content. *)
Definition file_part (header_encode : string -> string) (a : AttachmentInfo)
  : EmailSender.part :=
  EmailSender.MIMEBase
    match content a with Some c => c | None => "" end
    match name a with PStr s => header_encode s | _ => "" end.

(** A sender and a header encoding for the scenarios. *)
Definition scenario_sender : EmailSender.t :=
  {| EmailSender.host := "smtp.example.com";
     EmailSender.port := 465;
     EmailSender.username := "bot";
     EmailSender.password := "s3cret";
     EmailSender.from_email := "bot@example.com" |}.

(** [Header(s, "utf-8").encode()] as the library computes it for a name
    of one line whose encoded word fits the header line (66 characters
    after the charset): the shorter of the Q and the Base64 encoding of
    the UTF-8 bytes, Q when they are as long.  Longer names, which the
    library folds over several lines, do not occur in the scenarios. *)
Definition q_safe (c : ascii) : bool :=
  in_range 48 57 c || in_range 65 90 c || in_range 97 122 c
  || in_range 45 45 c || in_range 33 33 c || in_range 42 43 c || in_range 47 47 c.

Definition hex_digit (n : nat) : ascii :=
  ascii_of_nat (if (n <? 10)%nat then 48 + n else 55 + n).

Definition q_byte (c : ascii) : string :=
  if q_safe c then String c EmptyString
  else if in_range 32 32 c then "_"
  else String "="%char
         (String (hex_digit (nat_of_ascii c / 16))
            (String (hex_digit (nat_of_ascii c mod 16)) EmptyString)).

Fixpoint q_encode (s : string) : string :=
  match s with
  | EmptyString => EmptyString
  | String c r => q_byte c ++ q_encode r
  end.

Definition scenario_header (s : string) : string :=
  match s with
  | EmptyString => EmptyString
  | String _ _ =>
      if ((String.length s + 2) / 3 * 4 <? String.length (q_encode s))%nat
      then "=?utf-8?b?" ++ scenario_b64encode s ++ "?="
      else "=?utf-8?q?" ++ q_encode s ++ "?="
  end.

(** ** services/feishu_client.py *)

Module FeishuClient.

(** What a method of the client raises: an exception of [exn], where
    [Exception(msg)] is [RemoteError msg], or [KeyError]. *)
Inductive error : Type :=
| Raised (e : exn)
| KeyError (key : string).

Inductive outcome (A : Type) : Type :=
| Returns (a : A)
| Raises (e : error).

Arguments Returns {A} a.
Arguments Raises {A} e.

Definition obind {A B : Type} (o : outcome A) (k : A -> outcome B) : outcome B :=
  match o with
  | Returns a => k a
  | Raises e => Raises e
  end.

Definition of_result {A : Type} (r : result A) : outcome A :=
  match r with
  | Ok a => Returns a
  | Err e => Raises (Raised e)
  end.

(** A method of the client: it ends at once, or awaits [_request] one
    time, with the method, the path and the [params] given if any, and goes
    on with what [_request] returned or raised. *)
Inductive plan (A : Type) : Type :=
| Done (r : outcome A)
| Request (method path : string) (params : option (list (string * string)))
    (k : outcome value -> outcome A).

Arguments Done {A} r.
Arguments Request {A} method path params k.

(** [v != 0]. *)
Definition ne_zero (v : value) : bool :=
  match v with
  | PInt z => negb (z =? 0)%Z
  | PBool b => b
  | PFloat (S754_zero _) => false
  | _ => true
  end.

(** [v[k]] for a text key. *)
Definition subscript (v : value) (k : string) : outcome value :=
  match v with
  | PDict d =>
      match lookup k d with
      | Some x => Returns x
      | None => Raises (KeyError k)
      end
  | _ => Raises (Raised TypeError)
  end.

(** The items of [sep.join(items)]: every one must be text. *)
Fixpoint join_items (items : list value) : result (list string) :=
  match items with
  | [] => Ok []
  | PStr s :: rest => rbind (join_items rest) (fun l => Ok (s :: l))
  | _ :: _ => Err TypeError
  end.

Section Client.

Context {RT : PyRuntime}.

(** [if result.get("code") != 0: raise Exception(f"{what}{result.get('msg')}")] *)
Definition check_code (what : string) (result : value) : outcome unit :=
  obind (of_result (get result "code" PNone)) (fun code =>
  if ne_zero code
  then obind (of_result (get result "msg" PNone)) (fun msg =>
         Raises (Raised (RemoteError (what ++ py_str msg))))
  else Returns tt).

(** [get_approval_instance] after its request. *)
Definition instance_of_response (response : outcome value) : outcome value :=
  obind response (fun result =>
  obind (check_code "Failed to get approval instance: " result) (fun _ =>
  subscript result "data")).

(** [get_approval_instance(instance_code)]. *)
Definition get_approval_instance (instance_code : value) : plan value :=
  Request "GET" ("/approval/v4/instances/" ++ py_str instance_code) None
    instance_of_response.

(** The dictionary comprehension of [get_file_download_urls]: the
    insertions, in order; in the dictionary a later insertion under an
    equal key replaces the value of an earlier one. *)
Fixpoint url_items (items : list value) (inserted : list (value * value))
  : outcome (list (value * value)) :=
  match items with
  | [] => Returns inserted
  | item :: rest =>
      obind (subscript item "file_token") (fun k =>
      obind (subscript item "tmp_download_url") (fun v =>
      if hashable k then url_items rest (inserted ++ [ (k, v) ])%list
      else Raises (Raised TypeError)))
  end.

(** [get_file_download_urls] after its request. *)
Definition urls_of_response (response : outcome value)
  : outcome (list (value * value)) :=
  obind response (fun result =>
  obind (check_code "Failed to get download URLs: " result) (fun _ =>
  obind (of_result (get result "data" (PDict []))) (fun data =>
  obind (of_result (get data "tmp_download_urls" (PList []))) (fun urls =>
  obind (of_result (py_iter urls)) (fun items =>
  url_items items []))))).

(** [get_file_download_urls(file_tokens)]. *)
Definition get_file_download_urls (file_tokens : list value)
  : plan (list (value * value)) :=
  match file_tokens with
  | [] => Done (Returns [])
  | _ :: _ =>
      match join_items file_tokens with
      | Err e => Done (Raises (Raised e))
      | Ok texts =>
          Request "GET" "/drive/v1/medias/batch_get_tmp_download_url"
            (Some [ ("file_tokens", String.concat "," texts) ])
            urls_of_response
      end
  end.

End Client.

(** [mapping.get(token)] for a text token on the insertions of the
    comprehension. *)
Fixpoint get_text (inserted : list (value * value)) (token : string) : value :=
  match inserted with
  | [] => PNone
  | (k, v) :: rest =>
      if existsb (fun kv => eq_str (fst kv) token) rest then get_text rest token
      else if eq_str k token then v else PNone
  end.

End FeishuClient.

(** An item of the response that names a file token and its URL. *)
Definition url_item_ok (item : value) : bool :=
  match item with
  | PDict d =>
      match lookup "file_token" d, lookup "tmp_download_url" d with
      | Some k, Some _ => hashable k
      | _, _ => false
      end
  | _ => false
  end.

(** The URL the last item for a token gives. *)
Definition last_url (items : list value) (token : string) : value :=
  match find (fun item =>
                match item with
                | PDict d => eq_str (dict_get d "file_token" PNone) token
                | _ => false
                end) (rev items) with
  | Some (PDict d) => dict_get d "tmp_download_url" PNone
  | _ => PNone
  end.


(** * Properties *)

(** ** The attachment walk *)

Section AttachmentFacts.

Context {RT : PyRuntime}.

Lemma collect_files_app names files : forall i acc,
  collect_files names i files acc = (acc ++ collect_files names i files [])%list.
Proof.
  induction files as [|f files IH]; intros i acc; simpl.
  - now rewrite app_nil_r.
  - destruct (file_descriptor names i f) as [a|]; [|apply IH].
    rewrite IH, (IH (S i) [a]). now rewrite app_assoc.
Qed.

Lemma resolve_control_app d acc :
  resolve_control d acc = (acc ++ resolve_control d [])%list.
Proof.
  unfold resolve_control.
  destruct (truthy (dict_get d "value" PNone)); simpl;
    [|now rewrite app_nil_r].
  destruct (dict_get d "value" PNone); try apply collect_files_app.
  destruct (json_loads s); [apply collect_files_app|].
  destruct (startswith s "http"); [reflexivity | now rewrite app_nil_r].
Qed.

Lemma extract_fuel_nil fuel acc : extract_fuel fuel [] acc = acc.
Proof. destruct fuel; reflexivity. Qed.

Lemma extract_fuel_cons fuel control rest acc :
  extract_fuel fuel (control :: rest) acc =
  extract_fuel fuel rest
    (control_step (match fuel with
                   | O => fun _ a => a
                   | S fuel' => extract_fuel fuel'
                   end) control acc).
Proof.
  destruct fuel; simpl; unfold control_step, is_attachment_control, control_type.
  - f_equal. destruct control; try reflexivity.
    destruct (eq_str (dict_get items "type" (PStr "")) "fieldList"); [|reflexivity].
    destruct (dict_get items "value" (PList [])); try reflexivity.
    induction items0 as [|r rows IH]; simpl; [reflexivity|].
    destruct r; assumption.
  - reflexivity.
Qed.

End AttachmentFacts.

(** *** The fuel is never exhausted *)

Lemma depth_in x l : In x l -> depth x < depth (PList l).
Proof.
  simpl. induction l as [|y l IH]; simpl; [easy|].
  intros [->|H]; [lia|]. specialize (IH H). lia.
Qed.

Lemma depth_lookup k d v : lookup k d = Some v -> depth v < depth (PDict d).
Proof.
  simpl. induction d as [|[k' v'] d IH]; simpl; [discriminate|].
  destruct (String.eqb k' k).
  - intros [= ->]. lia.
  - intros H. specialize (IH H). lia.
Qed.

Lemma depth_tail x l : depth (PList l) <= depth (PList (x :: l)).
Proof. simpl. lia. Qed.

Lemma fold_left_ext_in {A B : Type} (f g : A -> B -> A) l :
  (forall a x, In x l -> f a x = g a x) ->
  forall a, fold_left f l a = fold_left g l a.
Proof.
  induction l as [|x l IH]; intros H a; simpl; [reflexivity|].
  rewrite (H a x (or_introl eq_refl)). apply IH.
  intros a' y Hy. apply H. now right.
Qed.

Section Fuel.

Context {RT : PyRuntime}.

Lemma control_step_ext rec1 rec2 control acc :
  (forall row_controls a,
     depth (PList row_controls) + 2 <= depth control ->
     rec1 row_controls a = rec2 row_controls a) ->
  control_step rec1 control acc = control_step rec2 control acc.
Proof.
  intros H. destruct control as [| | | | |l|d]; try reflexivity.
  unfold control_step.
  destruct (eq_str (control_type d) "fieldList"); [|reflexivity].
  unfold dict_get. destruct (lookup "value" d) as [v|] eqn:E; [|reflexivity].
  destruct v as [| | | | |rows|]; try reflexivity.
  apply fold_left_ext_in. intros a row Hrow.
  destruct row as [| | | | |cs|]; try reflexivity.
  apply H. apply depth_lookup in E. apply depth_in in Hrow. lia.
Qed.

Lemma extract_fuel_enough : forall f1 f2 controls acc,
  depth (PList controls) <= f1 -> depth (PList controls) <= f2 ->
  extract_fuel f1 controls acc = extract_fuel f2 controls acc.
Proof.
  induction f1 as [|f1 IH]; intros f2 controls acc H1 H2.
  - simpl in H1. lia.
  - destruct f2 as [|f2]; [simpl in H2; lia|].
    revert acc. induction controls as [|c rest IHc]; intros acc.
    + now rewrite !extract_fuel_nil.
    + rewrite !extract_fuel_cons.
      pose proof (depth_tail c rest) as Ht.
      rewrite (control_step_ext (extract_fuel f1) (extract_fuel f2)).
      * apply IHc; lia.
      * intros cs a Hd.
        assert (depth c < depth (PList (c :: rest)))
          by (apply depth_in; now left).
        apply IH; lia.
Qed.

(** The walk satisfies the recursive equations of the source. *)
Lemma extract_recursive_nil acc : _extract_attachments_recursive [] acc = acc.
Proof. reflexivity. Qed.

Lemma extract_recursive_cons control rest acc :
  _extract_attachments_recursive (control :: rest) acc =
  _extract_attachments_recursive rest
    (control_step _extract_attachments_recursive control acc).
Proof.
  unfold _extract_attachments_recursive.
  remember (depth (PList (control :: rest))) as n eqn:En.
  destruct n as [|n]; [simpl in En; lia|].
  rewrite extract_fuel_cons.
  pose proof (depth_tail control rest) as Ht.
  rewrite (control_step_ext (extract_fuel n)
             (fun cs => extract_fuel (depth (PList cs)) cs)).
  - apply extract_fuel_enough; lia.
  - intros cs a Hd.
    assert (depth control < depth (PList (control :: rest)))
      by (apply depth_in; now left).
    apply extract_fuel_enough; lia.
Qed.

End Fuel.

(** *** The walk as a concatenation over the attachment controls *)

Lemma lookup_dict_set_other d k v k' :
  k <> k' -> lookup k' (dict_set d k v) = lookup k' d.
Proof.
  intros Hk. induction d as [|[k0 v0] d IH]; simpl.
  - destruct (String.eqb_spec k k'); [contradiction | reflexivity].
  - destruct (String.eqb_spec k0 k) as [->|Hne]; simpl.
    + destruct (String.eqb_spec k k'); [contradiction | reflexivity].
    + now rewrite IH.
Qed.

Lemma eq_str_true v s : eq_str v s = true -> v = PStr s.
Proof.
  destruct v; simpl; try discriminate.
  intros H. apply String.eqb_eq in H. now subst.
Qed.

Lemma truthy_py_or a b : truthy (py_or a b) = truthy a || truthy b.
Proof. unfold py_or. destruct (truthy a) eqn:E; simpl; [exact E | reflexivity]. Qed.

Lemma py_or_falsy a b : truthy (py_or (py_or a b) (PStr "")) = false ->
  py_or (py_or a b) (PStr "") = PStr "".
Proof.
  unfold py_or. destruct (truthy a) eqn:Ea.
  - rewrite Ea. congruence.
  - destruct (truthy b) eqn:Eb; [congruence | reflexivity].
Qed.

Section WalkFacts.

Context {RT : PyRuntime}.

Lemma leaf_controls_fuel_cons fuel control rest :
  leaf_controls_fuel fuel (control :: rest) =
  (match control with
   | PDict d =>
       if eq_str (control_type d) "fieldList" then
         match dict_get d "value" (PList []) with
         | PList rows =>
             flat_map
               (fun row =>
                  match row with
                  | PList row_controls =>
                      match fuel with
                      | O => []
                      | S fuel' => leaf_controls_fuel fuel' row_controls
                      end
                  | _ => []
                  end)
               rows
         | _ => []
         end
       else [d]
   | _ => []
   end ++ leaf_controls_fuel fuel rest)%list.
Proof.
  destruct fuel; simpl; [|reflexivity].
  f_equal. destruct control; try reflexivity.
  destruct (eq_str (control_type items) "fieldList"); [|reflexivity].
  destruct (dict_get items "value" (PList [])); try reflexivity.
  induction items0 as [|r rows IH]; simpl; [reflexivity|].
  destruct r; assumption.
Qed.

Lemma extract_fuel_spec : forall fuel controls acc,
  extract_fuel fuel controls acc =
  (acc ++ flat_map resolved
            (filter is_attachment_control (leaf_controls_fuel fuel controls)))%list.
Proof.
  induction fuel as [|fuel IH]; intros controls;
    induction controls as [|c rest IHc]; intros acc;
    rewrite ?extract_fuel_nil; try (simpl; now rewrite app_nil_r);
    rewrite extract_fuel_cons, IHc, leaf_controls_fuel_cons,
      filter_app, flat_map_app, app_assoc; f_equal;
    (destruct c as [| | | | |l|d]; simpl; try (now rewrite app_nil_r);
     destruct (eq_str (control_type d) "fieldList") eqn:Eg;
     [ destruct (dict_get d "value" (PList [])) as [| | | | |rows|];
       simpl; try (now rewrite app_nil_r)
     | simpl; destruct (is_attachment_control d); simpl;
       [ rewrite app_nil_r; apply resolve_control_app
       | now rewrite app_nil_r ] ]).
  - revert acc. induction rows as [|r rows IHr]; intros acc; simpl;
      [now rewrite app_nil_r|].
    rewrite IHr. now destruct r.
  - revert acc. induction rows as [|r rows IHr]; intros acc; simpl;
      [now rewrite app_nil_r|].
    rewrite IHr, filter_app, flat_map_app, app_assoc. f_equal.
    destruct r as [| | | | |cs|]; simpl; try (now rewrite app_nil_r).
    apply IH.
Qed.


End WalkFacts.

Lemma walk_concatenation {RT : PyRuntime} controls acc :
  _extract_attachments_recursive controls acc =
  (acc ++ flat_map resolved (attachment_controls controls))%list.
Proof. apply extract_fuel_spec. Qed.


(** The reference flattening, too, reaches every depth: it satisfies its
    recursive equations whatever the nesting. *)
Lemma leaf_controls_fuel_enough : forall f1 f2 controls,
  depth (PList controls) <= f1 -> depth (PList controls) <= f2 ->
  leaf_controls_fuel f1 controls = leaf_controls_fuel f2 controls.
Proof.
  induction f1 as [|f1 IH]; intros f2 controls H1 H2.
  - simpl in H1. lia.
  - destruct f2 as [|f2]; [simpl in H2; lia|].
    induction controls as [|c rest IHc]; [reflexivity|].
    rewrite !leaf_controls_fuel_cons.
    pose proof (depth_tail c rest) as Ht.
    rewrite IHc by lia. f_equal.
    destruct c as [| | | | |l|d]; try reflexivity.
    destruct (eq_str (control_type d) "fieldList"); [|reflexivity].
    unfold dict_get. destruct (lookup "value" d) as [v|] eqn:E; [|reflexivity].
    destruct v as [| | | | |rows|]; try reflexivity.
    assert (Hd : depth (PDict d) < depth (PList (PDict d :: rest)))
      by (apply depth_in; now left).
    apply depth_lookup in E.
    assert (Hrows : forall row, In row rows -> depth row + 2 <= f1 /\ depth row + 2 <= f2).
    { intros row Hrow. apply depth_in in Hrow. lia. }
    clear E. induction rows as [|r rows IHr]; simpl; [reflexivity|].
    rewrite IHr by (intros; apply Hrows; now right). f_equal.
    destruct r as [| | | | |cs|]; try reflexivity.
    destruct (Hrows (PList cs) (or_introl eq_refl)). apply IH; lia.
Qed.

Lemma leaf_controls_cons control rest :
  leaf_controls (control :: rest) =
  (match control with
   | PDict d =>
       if eq_str (control_type d) "fieldList" then
         match dict_get d "value" (PList []) with
         | PList rows =>
             flat_map (fun row => match row with
                                  | PList row_controls => leaf_controls row_controls
                                  | _ => []
                                  end) rows
         | _ => []
         end
       else [d]
   | _ => []
   end ++ leaf_controls rest)%list.
Proof.
  unfold leaf_controls. rewrite leaf_controls_fuel_cons.
  pose proof (depth_tail control rest) as Ht.
  rewrite (leaf_controls_fuel_enough _ (depth (PList rest)) rest) by lia.
  f_equal.
  destruct control as [| | | | |l|d]; try reflexivity.
  destruct (eq_str (control_type d) "fieldList"); [|reflexivity].
  unfold dict_get. destruct (lookup "value" d) as [v|] eqn:E; [|reflexivity].
  destruct v as [| | | | |rows|]; try reflexivity.
  assert (Hd : depth (PDict d) < depth (PList (PDict d :: rest)))
    by (apply depth_in; now left).
  apply depth_lookup in E.
  remember (depth (PList (PDict d :: rest))) as n eqn:En.
  assert (Hrows : forall row, In row rows -> depth row + 3 <= n).
  { intros row Hrow. apply depth_in in Hrow. lia. }
  clear E En. destruct n as [|n]; [lia|].
  induction rows as [|r rows IHr]; cbn [flat_map]; [reflexivity|].
  rewrite IHr by (intros; apply Hrows; now right). f_equal.
  destruct r as [| | | | |cs|]; try reflexivity.
  pose proof (Hrows (PList cs) (or_introl eq_refl)).
  apply leaf_controls_fuel_enough; lia.
Qed.



(** ** The attachment resolver *)

Lemma startswith_http_truthy s : startswith s "http" = true -> truthy (PStr s) = true.
Proof. destruct s; [discriminate | reflexivity]. Qed.

Lemma attachment_control_not_group d :
  is_attachment_control d = true -> eq_str (control_type d) "fieldList" = false.
Proof.
  unfold is_attachment_control. intros H. apply orb_true_iff in H.
  destruct H as [H|H]; apply eq_str_true in H; now rewrite H.
Qed.

(** C3, as amended.  An attachment control whose value is a bare URL text
    that does not decode as JSON resolves to exactly one descriptor, with
    the fixed name "attachment", an empty fileToken and the text as
    downloadUrl, whatever its ext; the numbered name is not used on this
    path. *)
Theorem bare_url_descriptor {RT : PyRuntime} (d : list (string * value))
    (url : string) (acc : list AttachmentInfo) :
  is_attachment_control d = true ->
  dict_get d "value" PNone = PStr url ->
  json_loads url = None ->
  startswith url "http" = true ->
  _extract_attachments_recursive [PDict d] acc = (acc ++ [bare_descriptor url])%list.
Proof.
  intros Hty Hval Hbad Hhttp.
  rewrite extract_recursive_cons, extract_recursive_nil.
  unfold control_step. rewrite (attachment_control_not_group d Hty), Hty.
  unfold resolve_control. rewrite Hval, (startswith_http_truthy url Hhttp).
  simpl. now rewrite Hbad, Hhttp.
Qed.

Lemma bare_url_descriptor_witness :
  _extract_attachments_recursive [PDict scenario4_control] [] =
  [ bare_descriptor "http://x/y.pdf" ].
Proof.
  apply (@bare_url_descriptor scenario_runtime scenario4_control
           "http://x/y.pdf" []); reflexivity.
Defined.

(** C3 as stated fails on scenario 4: the descriptor is not named
    "attachment_1". *)
Lemma scenario4_name_counterexample :
  ~ (exists a,
       _extract_attachments_recursive [PDict scenario4_control] [] = [a]
       /\ name a = PStr "attachment_1"
       /\ download_url a = PStr "http://x/y.pdf"
       /\ file_token a = PStr "").
Proof.
  intros (a & H & Hn & _). vm_compute in H. injection H as <-.
  discriminate Hn.
Qed.

Lemma file_descriptor_locator names i file_info a :
  file_descriptor names i file_info = Some a ->
  content a = None
  /\ locatable a = entry_has_locator file_info
  /\ (truthy (file_token a) = false -> file_token a = PStr "")
  /\ (truthy (download_url a) = false -> download_url a = PStr "").
Proof.
  unfold file_descriptor, locatable.
  destruct file_info as [| | | |s| |d]; try discriminate.
  - destruct (startswith s "http") eqn:E; [|discriminate].
    intros [= <-]. simpl. apply startswith_http_truthy in E. simpl in E.
    rewrite E. repeat split; discriminate.
  - intros [= <-]. cbn [file_token download_url content entry_has_locator].
    split; [reflexivity|]. split; [|split; apply py_or_falsy].
    rewrite !truthy_py_or. cbn [truthy String.eqb negb]. rewrite !orb_false_r.
    now rewrite orb_assoc.
Qed.

Lemma In_collect_files names a files : forall i acc,
  In a (collect_files names i files acc) ->
  In a acc \/ exists j file_info, file_descriptor names j file_info = Some a.
Proof.
  induction files as [|f files IH]; intros i acc; simpl; [now left|].
  intros H. apply IH in H. destruct H as [H|H]; [|now right].
  destruct (file_descriptor names i f) as [b|] eqn:E; [|now left].
  apply in_app_or in H. destruct H as [H|[<-|[]]]; [now left|].
  right. now exists i, f.
Qed.

Lemma In_resolved {RT : PyRuntime} d a :
  In a (resolved d) ->
  (exists names j file_info, file_descriptor names j file_info = Some a)
  \/ (exists url, startswith url "http" = true /\ a = bare_descriptor url).
Proof.
  unfold resolved, resolve_control.
  destruct (truthy (dict_get d "value" PNone)); simpl; [|easy].
  assert (Hc : forall names files,
             In a (collect_files names 0 files []) ->
             exists names j file_info, file_descriptor names j file_info = Some a).
  { intros names files H. apply In_collect_files in H.
    destruct H as [[]|(j & fi & H)]. now exists names, j, fi. }
  destruct (dict_get d "value" PNone); try (intros H; left; eapply Hc; exact H).
  destruct (json_loads s); [intros H; left; eapply Hc; exact H|].
  destruct (startswith s "http") eqn:E; [|easy].
  intros [<-|[]]. right. now exists s.
Qed.

(** C4, as amended.  Every descriptor the resolver produces has its
    content absent, and each of fileToken and downloadUrl is either
    non-empty or the empty text.  A descriptor built from one entry has a
    non-empty locator exactly when the entry is a URL text or a structured
    entry with a non-empty [file_token], [token], [url] or [download_url];
    for a structured entry without them both locators are empty. *)
Theorem descriptor_construction {RT : PyRuntime} :
  (forall controls a,
     In a (_extract_attachments_recursive controls []) ->
     content a = None
     /\ (truthy (file_token a) = false -> file_token a = PStr "")
     /\ (truthy (download_url a) = false -> download_url a = PStr ""))
  /\ (forall names i file_info a,
        file_descriptor names i file_info = Some a ->
        content a = None /\ locatable a = entry_has_locator file_info).
Proof.
  split.
  - intros controls a H.
    rewrite walk_concatenation in H. simpl in H. apply in_flat_map in H.
    destruct H as (d & _ & H). apply In_resolved in H.
    destruct H as [(names & j & fi & H)|(url & Hu & ->)].
    + apply file_descriptor_locator in H. tauto.
    + split; [reflexivity|]. simpl.
      apply startswith_http_truthy in Hu. simpl in Hu. rewrite Hu.
      split; [reflexivity | discriminate].
  - intros names i fi a H. apply file_descriptor_locator in H. tauto.
Qed.

Lemma descriptor_construction_witness :
  In unlocated_descriptor (_extract_attachments_recursive [PDict unlocated_control] [])
  /\ content unlocated_descriptor = None
  /\ locatable unlocated_descriptor
     = entry_has_locator (PDict [ ("name", PStr "a.pdf") ]).
Proof.
  destruct (@descriptor_construction scenario_runtime) as [Hall Hentry].
  assert (Hin : In unlocated_descriptor
                  (_extract_attachments_recursive [PDict unlocated_control] []))
    by (left; reflexivity).
  split; [exact Hin|].
  split; [exact (proj1 (Hall _ _ Hin))|].
  exact (proj2 (Hentry [] 0 (PDict [ ("name", PStr "a.pdf") ])
                  unlocated_descriptor eq_refl)).
Defined.

(** C4 as stated fails: the descriptor of a structured entry without
    token and URL has both locators empty when it is constructed. *)
Lemma locator_invariant_counterexample :
  ~ Forall (fun a => locatable a = true)
      (_extract_attachments_recursive [PDict unlocated_control] []).
Proof.
  intros H. vm_compute in H. inversion H as [|a l Ha Hl]. discriminate Ha.
Qed.

(** *** The walk and the exceptions of the decoder *)

Section RaisingWalk.

Context {RT : PyRuntime}.

Lemma first_error_app l1 l2 :
  first_error (l1 ++ l2)
  = match first_error l1 with
    | Some e => Some e
    | None => first_error l2
    end.
Proof.
  induction l1 as [|d l1 IH]; [reflexivity|]. cbn [app first_error].
  now destruct (value_error d).
Qed.

Lemma resolve_control_raising_spec d acc :
  resolve_control_raising d acc
  = match value_error d with
    | Some e => Err e
    | None => Ok (resolve_control d acc)
    end.
Proof.
  unfold resolve_control_raising, resolve_control, value_error.
  destruct (dict_get d "value" PNone) as [|b|z|f|s|l|m];
    try (now destruct (negb (truthy _))).
  cbn [truthy]. destruct (String.eqb s ""); cbn [negb]; [reflexivity|].
  destruct (json_loads s); [reflexivity|]. now destruct (json_error s).
Qed.

Lemma rows_raising_err
    (rec : list value -> list AttachmentInfo -> result (list AttachmentInfo))
    rows e :
  fold_left
    (fun acc row =>
       match acc, row with
       | Ok found, PList row_controls => rec row_controls found
       | _, _ => acc
       end)
    rows (Err e) = Err e.
Proof. induction rows as [|r rows IH]; [reflexivity | exact IH]. Qed.

Lemma control_step_raising_spec
    (rec_r : list value -> list AttachmentInfo -> result (list AttachmentInfo))
    (rec_p : list value -> list AttachmentInfo -> list AttachmentInfo)
    (rec_l : list value -> list (list (string * value))) :
  (forall controls acc,
     rec_r controls acc
     = match first_error (filter is_attachment_control (rec_l controls)) with
       | Some e => Err e
       | None => Ok (rec_p controls acc)
       end) ->
  forall c acc,
    control_step_raising rec_r c acc
    = match
        first_error
          (filter is_attachment_control
             match c with
             | PDict d =>
                 if eq_str (control_type d) "fieldList" then
                   match dict_get d "value" (PList []) with
                   | PList rows =>
                       flat_map
                         (fun row =>
                            match row with
                            | PList row_controls => rec_l row_controls
                            | _ => []
                            end)
                         rows
                   | _ => []
                   end
                 else [d]
             | _ => []
             end)
      with
      | Some e => Err e
      | None => Ok (control_step rec_p c acc)
      end.
Proof.
  intros Hrec c acc. destruct c as [|b|z|f|s|l|d]; try reflexivity.
  unfold control_step_raising, control_step.
  destruct (eq_str (control_type d) "fieldList").
  - destruct (dict_get d "value" (PList [])) as [|b|z|f|s|rows|m]; try reflexivity.
    revert acc. induction rows as [|r rows IH]; intros acc; [reflexivity|].
    cbn [fold_left flat_map]. rewrite filter_app, first_error_app.
    destruct r as [|b|z|f|s|rc|m]; try apply IH.
    rewrite Hrec.
    destruct (first_error (filter is_attachment_control (rec_l rc))) as [e|].
    + apply rows_raising_err.
    + apply IH.
  - cbn [filter]. destruct (is_attachment_control d); [|reflexivity].
    rewrite resolve_control_raising_spec. cbn [first_error].
    now destruct (value_error d).
Qed.

Lemma extract_fuel_raising_cons fuel control rest acc :
  extract_fuel_raising fuel (control :: rest) acc
  = match
      control_step_raising
        (match fuel with
         | O => fun _ a => Ok a
         | S fuel' => extract_fuel_raising fuel'
         end) control acc
    with
    | Ok found => extract_fuel_raising fuel rest found
    | Err e => Err e
    end.
Proof.
  destruct fuel; simpl;
    unfold control_step_raising, is_attachment_control, control_type.
  - destruct control; try reflexivity.
    destruct (eq_str (dict_get items "type" (PStr "")) "fieldList"); [|reflexivity].
    destruct (dict_get items "value" (PList [])); try reflexivity.
    assert (H : fold_left
                  (fun (acc0 : result (list AttachmentInfo)) (row : value) =>
                     match acc0, row with
                     | Ok found, PList _ => Ok found
                     | _, _ => acc0
                     end) items0 (Ok acc) = Ok acc).
    { induction items0 as [|r rows IH]; simpl; [reflexivity|].
      destruct r; assumption. }
    now rewrite H.
  - reflexivity.
Qed.

Lemma extract_fuel_raising_spec : forall fuel controls acc,
  extract_fuel_raising fuel controls acc
  = match
      first_error (filter is_attachment_control (leaf_controls_fuel fuel controls))
    with
    | Some e => Err e
    | None => Ok (extract_fuel fuel controls acc)
    end.
Proof.
  induction fuel as [|fuel IH]; intros controls;
    induction controls as [|c rest IHc]; intros acc;
    try (simpl; reflexivity);
    rewrite extract_fuel_raising_cons, extract_fuel_cons, leaf_controls_fuel_cons,
      filter_app, first_error_app.
  - rewrite (control_step_raising_spec (fun _ a => Ok a) (fun _ a => a) (fun _ => []));
      [|reflexivity].
    match goal with
    | |- context [first_error (filter is_attachment_control ?l)] =>
        destruct (first_error (filter is_attachment_control l))
    end; [reflexivity | apply IHc].
  - rewrite (control_step_raising_spec (extract_fuel_raising fuel)
               (extract_fuel fuel) (leaf_controls_fuel fuel) IH).
    match goal with
    | |- context [first_error (filter is_attachment_control ?l)] =>
        destruct (first_error (filter is_attachment_control l))
    end; [reflexivity | apply IHc].
Qed.

(** The walk raises what the decoder raises on the first attachment
    control whose value it cannot take, and otherwise returns what
    [_extract_attachments_recursive] gives. *)
Lemma walk_raising_spec controls acc :
  walk_raising controls acc
  = match walk_error controls with
    | Some e => Err e
    | None => Ok (_extract_attachments_recursive controls acc)
    end.
Proof. apply extract_fuel_raising_spec. Qed.

End RaisingWalk.



(** ** The category router *)

Lemma assoc_attrs_exact k a :
  assoc k APPROVAL_EMAIL_ATTRS = Some a <-> In (k, a) APPROVAL_EMAIL_ATTRS.
Proof.
  unfold APPROVAL_EMAIL_ATTRS. cbn [assoc In]. split.
  - repeat (match goal with
            | |- context [String.eqb ?x k] => destruct (String.eqb_spec x k)
            end; [intros [= <-]; subst; tauto|]; cbv iota).
    discriminate.
  - intros H.
    repeat (destruct H as [[= <- <-]|H]; [now vm_compute|]).
    destruct H.
Qed.

Lemma assoc_attrs_nonempty k a :
  assoc k APPROVAL_EMAIL_ATTRS = Some a -> String.eqb a "" = false.
Proof.
  intros H. apply assoc_attrs_exact in H. cbn [APPROVAL_EMAIL_ATTRS In] in H.
  repeat (destruct H as [[= <- <-]|H]; [reflexivity|]). destruct H.
Qed.

(** C9.  Routing a category name is total and is an exact-text lookup in
    the mapping; it answers absent exactly when the name has no mapping or
    the mapped setting holds the empty text, and the caller sees the same
    [None] in both cases.  Otherwise it answers the configured address. *)
Theorem category_router_total (settings : Settings) (approval_name : string) :
  exists r,
    _get_target_email settings (PStr approval_name) = Ok r
    /\ (r = None <->
        (forall attr_name, ~ In (approval_name, attr_name) APPROVAL_EMAIL_ATTRS)
        \/ (exists attr_name,
              In (approval_name, attr_name) APPROVAL_EMAIL_ATTRS
              /\ getattr settings attr_name "" = ""))
    /\ (forall email,
          r = Some email ->
          email <> ""
          /\ exists attr_name,
               In (approval_name, attr_name) APPROVAL_EMAIL_ATTRS
               /\ getattr settings attr_name "" = email).
Proof.
  exists (target_email_of settings approval_name). split; [reflexivity|].
  unfold target_email_of.
  destruct (assoc approval_name APPROVAL_EMAIL_ATTRS) as [attr|] eqn:E.
  - rewrite (assoc_attrs_nonempty _ _ E).
    pose proof (proj1 (assoc_attrs_exact _ _) E) as Hin.
    destruct (String.eqb_spec (getattr settings attr "") "") as [He|He]; split.
    + split; [intros _; right; now exists attr | reflexivity].
    + discriminate.
    + split; [discriminate|]. intros [Hno|(attr' & Hin' & Hempty)].
      * destruct (Hno attr Hin).
      * apply assoc_attrs_exact in Hin'. congruence.
    + intros email [= <-]. split; [exact He | now exists attr].
  - split.
    + split; [|reflexivity]. intros _. left. intros attr Hin.
      apply assoc_attrs_exact in Hin. congruence.
    + discriminate.
Qed.

(** ** The field aggregator *)

Lemma find_last {A : Type} (p : A -> bool) x l :
  find p (rev (x :: l)) =
  match find p (rev l) with
  | Some y => Some y
  | None => if p x then Some x else None
  end.
Proof.
  simpl. induction (rev l) as [|y r IH]; simpl; [reflexivity|].
  destruct (p y); [reflexivity | exact IH].
Qed.

Section AggregatorFacts.

Context {RT : PyRuntime}.

Lemma scan_summary_ok_any items : forall a a',
  is_ok (scan_summary items a) = is_ok (scan_summary items a').
Proof.
  induction items as [|item items IH]; intros a a'; simpl; [reflexivity|].
  destruct (get item "type" PNone) as [ty|]; simpl; [|reflexivity].
  destruct (eq_str ty "amount"); [|apply IH].
  destruct (get item "sumItems" (PStr "")) as [si|]; simpl; [|reflexivity].
  destruct (truthy si); reflexivity.
Qed.

(** One turn of the loop on a readable control. *)
Lemma field_step_ok t0 a0 f :
  field_ok f = true ->
  exists t1 a1,
    field_step (t0, a0) f = Ok (t1, a1)
    /\ t1 = (if is_title_control f then title_value f else t0)
    /\ (is_amount_control f = true -> a1 = amount_text f)
    /\ (is_amount_control f = false -> truthy a0 = true -> a1 = a0).
Proof.
  destruct f as [| | | | | |d]; try discriminate.
  unfold field_ok, field_step, is_title_control, is_amount_control,
    title_value, amount_text, get, rbind.
  destruct (eq_str (dict_get d "name" PNone) "名称"
            && eq_str (dict_get d "type" PNone) "input") eqn:Et.
  - intros _. do 2 eexists. split; [reflexivity|]. split; [reflexivity|].
    apply andb_true_iff in Et. destruct Et as [Et _].
    apply eq_str_true in Et. rewrite Et. simpl. split; [discriminate|reflexivity].
  - destruct (eq_str (dict_get d "name" PNone) "金额"
              && eq_str (dict_get d "type" PNone) "amount") eqn:Ea.
    + intros _. do 2 eexists. split; [reflexivity|]. split; [reflexivity|].
      split; [reflexivity | discriminate].
    + destruct (eq_str (dict_get d "type" PNone) "fieldList") eqn:Eg; simpl.
      * destruct (truthy a0) eqn:Ha; simpl.
        -- intros _. do 2 eexists. repeat split; try reflexivity; discriminate.
        -- destruct (dict_get d "ext" (PList [])) as [| | | | |items|];
             try (intros _; do 2 eexists; repeat split; try reflexivity; discriminate).
           rewrite (scan_summary_ok_any items (PStr "") a0).
           destruct (scan_summary items a0) as [a1|]; [|discriminate].
           intros _. exists t0, a1. repeat split; discriminate.
      * intros _. do 2 eexists. repeat split; try reflexivity; discriminate.
Qed.

Lemma amount_text_truthy f :
  is_amount_control f = true -> truthy (amount_text f) = true.
Proof.
  destruct f as [| | | | | |d]; try discriminate. intros _.
  unfold amount_text. cbn [truthy].
  destruct (py_str (dict_get d "value" (PStr ""))); reflexivity.
Qed.

Lemma fields_loop_last_match fields : forall t0 a0,
  Forall (fun f => field_ok f = true) fields ->
  exists t a,
    fields_loop fields (t0, a0) = Ok (t, a)
    /\ t = match find is_title_control (rev fields) with
           | Some f => title_value f
           | None => t0
           end
    /\ (forall f, find is_amount_control (rev fields) = Some f -> a = amount_text f)
    /\ (find is_amount_control (rev fields) = None -> truthy a0 = true -> a = a0).
Proof.
  induction fields as [|f fields IH]; intros t0 a0 Hok.
  - exists t0, a0. repeat split; solve [discriminate | reflexivity].
  - inversion Hok as [|? ? Hf Hrest]; subst.
    destruct (field_step_ok t0 a0 f Hf) as (t1 & a1 & Hs & Ht1 & Ha1 & Hk1).
    destruct (IH t1 a1 Hrest) as (t & a & Hl & Ht & Ha & Hk).
    exists t, a. cbn [fields_loop]. rewrite Hs. cbn [rbind].
    split; [exact Hl|]. rewrite !find_last. split; [|split].
    + rewrite Ht. destruct (find is_title_control (rev fields)); [reflexivity|].
      rewrite Ht1. now destruct (is_title_control f).
    + intros g Hg. destruct (find is_amount_control (rev fields)) as [g'|] eqn:E.
      * apply Ha. exact Hg.
      * destruct (is_amount_control f) eqn:Ef; [|discriminate].
        injection Hg as <-. rewrite (Hk eq_refl).
        -- now apply Ha1.
        -- rewrite (Ha1 eq_refl). now apply amount_text_truthy.
    + intros Hn Hta. destruct (find is_amount_control (rev fields)); [discriminate|].
      destruct (is_amount_control f) eqn:Ef; [discriminate|].
      rewrite (Hk eq_refl); [now apply Hk1|]. now rewrite (Hk1 eq_refl Hta).
Qed.

End AggregatorFacts.

(** C1, as amended.  On a form of readable controls the loop ends, and
    the title is the value of the LAST control named "名称" of type
    [input], the empty text when there is none; when some control is
    named "金额" with type [amount], the amount is that of the LAST such
    control, its value and currency.  Earlier matching controls do not
    change the result. *)
Theorem last_match_rule {RT : PyRuntime} (fields : list value) :
  Forall (fun f => field_ok f = true) fields ->
  exists amount,
    summary (PList fields) = Ok (last_match_title fields, amount)
    /\ (forall f, find is_amount_control (rev fields) = Some f ->
                  amount = amount_text f).
Proof.
  intros Hok.
  destruct (fields_loop_last_match fields (PStr "") (PStr "") Hok)
    as (t & a & Hl & Ht & Ha & _).
  exists a. unfold summary, last_match_title. cbn [py_iter rbind].
  rewrite Hl, Ht. split; [reflexivity | exact Ha].
Qed.

Lemma last_match_rule_witness :
  exists amount,
    summary (PList repeated_fields) = Ok (PStr "Train", amount)
    /\ (forall f, find is_amount_control (rev repeated_fields) = Some f ->
                  amount = amount_text f).
Proof.
  apply (@last_match_rule scenario_runtime repeated_fields).
  repeat constructor.
Defined.

(** C1 as stated fails: with two title controls the title is the value of
    the second, not of the first. *)
Lemma first_match_title_counterexample :
  exists t a,
    summary (PList [ title_control "Taxi"; title_control "Train" ]) = Ok (t, a)
    /\ t <> first_match_title [ title_control "Taxi"; title_control "Train" ].
Proof.
  exists (PStr "Train"), (PStr ""). split; [reflexivity|].
  vm_compute. discriminate.
Qed.

(** *** Amount from the summary of a group *)

Section SummaryFacts.

Context {RT : PyRuntime}.



End SummaryFacts.

Section GroupAmount.

Context {RT : PyRuntime}.











End GroupAmount.




(** ** The event gate *)

Section GateFacts.

Context {RT : PyRuntime}.

(** The handler on an envelope of the documented shape. *)
Lemma handle_event_well_shaped settings event :
  well_shaped event = true ->
  handle_event settings event =
  if gate_open event then handle_approved settings (envelope_data event) else Ret tt.
Proof.
  unfold well_shaped, gate_open, envelope_status, envelope_event_type, envelope_data.
  destruct event as [| | | | | |e]; try discriminate.
  unfold handle_event. cbn [get lift bind].
  destruct (dict_get e "header" (PDict [])) as [| | | | | |h]; try discriminate.
  destruct (dict_get e "event" (PDict [])) as [| | | | | |ed]; try discriminate.
  cbn [get lift bind].
  destruct (dict_get h "event_type" (PStr "")) as [| | | |t| |]; try discriminate.
  destruct (dict_get ed "object" (PDict [])) as [| | | | | |o] eqn:Eo; try discriminate.
  intros _. unfold marker_present. cbn [py_in rbind].
  assert (Hst : first_present (PDict ed) "status" "instance_status" "status"
                = Ok (py_or (dict_get ed "status" PNone)
                        (py_or (dict_get ed "instance_status" PNone)
                               (dict_get o "status" PNone)))).
  { unfold first_present, get, rbind, py_or. rewrite Eo.
    destruct (truthy (dict_get ed "status" PNone)); [reflexivity|].
    destruct (truthy (dict_get ed "instance_status" PNone)); reflexivity. }
  destruct (truthy (PStr t)); cbn [negb orb].
  - destruct (contains "approval_instance" t); cbn [lift bind negb andb].
    + rewrite Hst. cbn [lift bind].
      now destruct (eq_str _ "APPROVED").
    + reflexivity.
  - cbn [lift bind]. rewrite Hst. cbn [lift bind andb].
    now destruct (eq_str _ "APPROVED").
Qed.

Lemma handle_event_call_gate settings event :
  makes_call (handle_event settings event) -> gate_open event = true.
Proof.
  unfold gate_open, envelope_status, envelope_event_type, envelope_data.
  destruct event as [| | | | | |e]; try (intros []).
  unfold handle_event. cbn [get lift bind].
  destruct (dict_get e "header" (PDict [])) as [| | | | | |h]; try (intros []).
  cbn [get lift bind].
  set (et := dict_get h "event_type" (PStr "")).
  assert (Hskip : forall b : bool,
            makes_call
              (bind (lift (Ok b)) (fun skip : bool =>
                 if skip then Ret tt
                 else
                   bind (lift (get (PDict e) "event" (PDict []))) (fun event_data =>
                   bind (lift (first_present event_data "status" "instance_status" "status"))
                     (fun status =>
                        if negb (eq_str status "APPROVED") then Ret tt
                        else handle_approved settings event_data)))) ->
            b = false
            /\ eq_str
                 match dict_get e "event" (PDict []) with
                 | PDict ed =>
                     py_or (dict_get ed "status" PNone)
                       (py_or (dict_get ed "instance_status" PNone)
                          match dict_get ed "object" (PDict []) with
                          | PDict o => dict_get o "status" PNone
                          | _ => PNone
                          end)
                 | _ => PNone
                 end "APPROVED" = true).
  { intros b. destruct b; cbn [lift bind get]; [intros []|].
    destruct (dict_get e "event" (PDict [])) as [| | | | | |ed];
      unfold first_present; cbn [get rbind lift bind]; try (intros []).
    unfold py_or.
    destruct (truthy (dict_get ed "status" PNone)); cbn [lift bind].
    - destruct (eq_str (dict_get ed "status" PNone) "APPROVED");
        cbn [negb]; [now split | intros []].
    - destruct (truthy (dict_get ed "instance_status" PNone)); cbn [lift bind].
      + destruct (eq_str (dict_get ed "instance_status" PNone) "APPROVED");
          cbn [negb]; [now split | intros []].
      + destruct (dict_get ed "object" (PDict [])) as [| | | | | |o];
          cbn [get rbind lift bind]; try (intros []).
        destruct (eq_str (dict_get o "status" PNone) "APPROVED");
          cbn [negb]; [now split | intros []]. }
  unfold marker_present.
  destruct (truthy et) eqn:Et; cbn [negb orb].
  - destruct (py_in "approval_instance" et) as [found|]; cbn [rbind lift bind];
      [|intros []].
    intros H. apply Hskip in H. destruct H as [Hf Hs].
    apply negb_false_iff in Hf. now rewrite Hf, Hs.
  - intros H. apply Hskip in H. now destruct H as [_ ->].
Qed.

End GateFacts.

(** C5, as amended.  Whenever handling an event reaches a collaborator,
    the header event type is absent, empty or contains the
    "approval_instance" marker, and the status read from [status],
    [instance_status] or [object.status] is "APPROVED".  On an envelope of
    the documented shape the converse holds: such an event goes on to the
    instance-code step, and every other event is skipped, returning
    normally without any call. *)
Theorem event_gate {RT : PyRuntime} (settings : Settings) (event : value) :
  (makes_call (handle_event settings event) -> gate_open event = true)
  /\ (well_shaped event = true ->
      (gate_open event = true ->
       handle_event settings event = handle_approved settings (envelope_data event))
      /\ (gate_open event = false -> handle_event settings event = Ret tt)).
Proof.
  split; [apply handle_event_call_gate|].
  intros Hw. rewrite (handle_event_well_shaped settings event Hw).
  split; intros ->; reflexivity.
Qed.

Lemma event_gate_witness :
  handle_event no_settings (envelope (Some "approval_instance") "PENDING") = Ret tt
  /\ handle_event no_settings (envelope (Some "approval_task") "APPROVED") = Ret tt
  /\ handle_event no_settings (envelope (Some "approval_instance") "APPROVED")
     = handle_approved no_settings
         (envelope_data (envelope (Some "approval_instance") "APPROVED")).
Proof.
  split; [|split].
  - exact (proj2 (proj2 (@event_gate scenario_runtime no_settings
                           (envelope (Some "approval_instance") "PENDING")) eq_refl)
             eq_refl).
  - exact (proj2 (proj2 (@event_gate scenario_runtime no_settings
                           (envelope (Some "approval_task") "APPROVED")) eq_refl)
             eq_refl).
  - exact (proj1 (proj2 (@event_gate scenario_runtime no_settings
                           (envelope (Some "approval_instance") "APPROVED")) eq_refl)
             eq_refl).
Defined.

(** C5 as stated fails: an approved event whose header names no event
    type carries no marker, and yet the handler goes on to fetch the
    instance. *)
Lemma event_gate_counterexample :
  marker_gate (envelope None "APPROVED") = false
  /\ makes_call (handle_event no_settings (envelope None "APPROVED")).
Proof. split; [reflexivity | exact I]. Qed.

(** ** Downloads *)

Section DownloadFacts.

Context {W : Type} (h : handler W).

Lemma run_bind {A B : Type} (p : prog A) (k : A -> prog B) : forall w,
  run h (bind p k) w =
  match run h p w with
  | (Ok a, w1, log1) =>
      let '(out, w2, log2) := run h (k a) w1 in (out, w2, (log1 ++ log2)%list)
  | (Err e, w1, log1) => (Err e, w1, log1)
  end.
Proof.
  induction p as [a|e|R c k' IH]; intros w; cbn [bind run].
  - now destruct (run h (k a) w) as [[out w2] log2].
  - reflexivity.
  - destruct (h R c w) as [r w1]. rewrite IH.
    destruct (run h (k' r) w1) as [[[a|e] w2] log1]; [|reflexivity].
    now destruct (run h (k a) w2) as [[out w3] log2].
Qed.

(** Every attachment with a URL is attempted once, in order, whatever
    happened to the ones before it, and the batch returned holds exactly
    those whose own attempt succeeded. *)
Lemma download_loop_isolated token_to_url attachments :
  Forall (fun a => resolvable a = true) attachments ->
  forall downloaded w,
  exists replies w',
    List.length replies = List.length (targets token_to_url attachments)
    /\ run h (download_loop token_to_url attachments downloaded) w
       = (Ok (downloaded
              ++ successes (combine (targets token_to_url attachments) replies))%list,
          w',
          download_log (combine (targets token_to_url attachments) replies)).
Proof.
  induction 1 as [|a rest Ha _ IH]; intros downloaded w.
  - exists [], w. split; [reflexivity|]. cbn. now rewrite app_nil_r.
  - unfold targets. cbn [flat_map download_loop].
    fold (targets token_to_url rest).
    assert (Hurl : (if truthy (download_url a)
                    then Ret (download_url a)
                    else if hashable (file_token a)
                         then Ret (token_to_url (file_token a))
                         else Raise TypeError)
                   = Ret (attachment_url token_to_url a)).
    { unfold attachment_url, resolvable in *.
      destruct (truthy (download_url a)); [reflexivity|].
      cbn [orb] in Ha. now rewrite Ha. }
    rewrite Hurl. cbn [bind].
    destruct (truthy (attachment_url token_to_url a)); cbn [negb app].
    + cbn [await try_except bind run].
      destruct (h string (download_file (attachment_url token_to_url a)) w)
        as [r w1] eqn:Ecall.
      destruct r as [c|e]; cbn [lift bind try_except].
      * destruct (IH (downloaded ++ [set_content a c])%list w1)
          as (replies & w' & Hlen & Hrun).
        exists (Ok c :: replies), w'. cbn [List.length combine]. split; [now f_equal|].
        rewrite Hrun. unfold successes, download_log.
        cbn [flat_map map fst snd app]. now rewrite <- app_assoc.
      * destruct (IH downloaded w1) as (replies & w' & Hlen & Hrun).
        exists (Err e :: replies), w'. cbn [List.length combine]. split; [now f_equal|].
        rewrite Hrun. reflexivity.
    + apply IH.
Qed.

(** The download step never calls the mail sender. *)
Lemma download_loop_no_send token_to_url attachments : forall downloaded w,
  existsb is_send (snd (run h (download_loop token_to_url attachments downloaded) w))
  = false.
Proof.
  induction attachments as [|a rest IH]; intros downloaded w; [reflexivity|].
  assert (Hcall : forall u,
            existsb is_send
              (snd (run h
                      (bind
                         (try_except
                            (bind (await (download_file u))
                               (fun c => Ret (downloaded ++ [set_content a c])%list))
                            (fun _ => Ret downloaded))
                         (fun downloaded' => download_loop token_to_url rest downloaded'))
                      w)) = false).
  { intros u. cbn [await try_except bind run].
    destruct (h string (download_file u) w) as [[c|e] w1];
      cbn [lift bind try_except].
    - specialize (IH (downloaded ++ [set_content a c])%list w1).
      destruct (run h _ w1) as [[out w2] log]. exact IH.
    - specialize (IH downloaded w1).
      destruct (run h _ w1) as [[out w2] log]. exact IH. }
  cbn [download_loop].
  destruct (truthy (download_url a)) eqn:E1.
  - cbn [bind]. rewrite E1. cbn [negb]. apply Hcall.
  - destruct (hashable (file_token a)); [|reflexivity].
    cbn [bind]. destruct (truthy (token_to_url (file_token a))); cbn [negb].
    + apply Hcall.
    + apply IH.
Qed.

Lemma download_attachments_no_send attachments w :
  existsb is_send (snd (run h (download_attachments attachments) w)) = false.
Proof.
  destruct attachments as [|a rest]; [reflexivity|].
  unfold download_attachments.
  set (atts := a :: rest).
  destruct (map file_token _) as [|tok toks].
  - cbn [bind]. apply download_loop_no_send.
  - cbn [await bind run].
    destruct (h _ (get_file_download_urls (tok :: toks)) w) as [[m|e] w1];
      cbn [lift bind run]; [|reflexivity].
    pose proof (download_loop_no_send m atts [] w1) as Hn.
    destruct (run h (download_loop m atts []) w1) as [[out w2] log]. exact Hn.
Qed.

End DownloadFacts.

Lemma download_attachments_isolated {W : Type} (h : handler W)
    attachments w token_to_url w1 log0 :
  Forall (fun a => resolvable a = true) attachments ->
  url_resolution h attachments w = (Ok token_to_url, w1, log0) ->
  exists replies w',
    List.length replies = List.length (targets token_to_url attachments)
    /\ run h (download_attachments attachments) w
       = (Ok (successes (combine (targets token_to_url attachments) replies)),
          w',
          (log0 ++ download_log (combine (targets token_to_url attachments) replies))%list).
Proof.
  intros Hres Hurl. unfold url_resolution in Hurl.
  destruct attachments as [|a rest].
  - cbn in Hurl. injection Hurl as <- <- <-. exists [], w. split; reflexivity.
  - unfold download_attachments. fold needs_lookup.
    destruct (map file_token (filter needs_lookup (a :: rest))) as [|tok toks].
    + injection Hurl as <- <- <-. cbn [bind].
      destruct (download_loop_isolated h (fun _ => PNone) (a :: rest) Hres [] w)
        as (replies & w' & Hlen & Hrun).
      exists replies, w'. split; [exact Hlen | exact Hrun].
    + cbn [await bind run].
      destruct (h _ (get_file_download_urls (tok :: toks)) w) as [r w2].
      injection Hurl as -> -> <-. cbn [lift bind].
      destruct (download_loop_isolated h token_to_url (a :: rest) Hres [] w1)
        as (replies & w' & Hlen & Hrun).
      exists replies, w'. split; [exact Hlen|]. now rewrite Hrun.
Qed.

(** *** The mail sender over a whole event *)

Lemma no_send_send_ok log : existsb is_send log = false -> forallb send_ok log = true.
Proof.
  induction log as [|e log IH]; [reflexivity|]. cbn [existsb forallb].
  intros H. apply orb_false_iff in H. destruct H as [He Hl].
  rewrite (IH Hl), andb_true_r. destruct e as [R c r]. now destruct c.
Qed.

Section SenderFacts.

Context {RT : PyRuntime} {W : Type} (h : handler W).

Lemma run_lift {A : Type} (r : result A) w : run h (lift r) w = (r, w, []).
Proof. now destruct r. Qed.

Lemma run_reraise {A : Type} (p : prog A) : forall w,
  run h (try_except p (fun e => Raise e)) w = run h p w.
Proof.
  induction p as [a|e|R c k IH]; intros w; cbn [try_except run]; try reflexivity.
  destruct (h R c w) as [r w1]. now rewrite IH.
Qed.

Lemma download_loop_content token_to_url attachments :
  forall downloaded w out w' log,
  run h (download_loop token_to_url attachments downloaded) w = (Ok out, w', log) ->
  forallb has_content downloaded = true ->
  forallb has_content out = true.
Proof.
  induction attachments as [|a rest IH]; intros downloaded w out w' log.
  - cbn. now intros [= <- _ _].
  - assert (Hcall : forall u,
              run h
                (bind
                   (try_except
                      (bind (await (download_file u))
                         (fun c => Ret (downloaded ++ [set_content a c])%list))
                      (fun _ => Ret downloaded))
                   (fun downloaded' => download_loop token_to_url rest downloaded'))
                w = (Ok out, w', log) ->
              forallb has_content downloaded = true ->
              forallb has_content out = true).
    { intros u. cbn [await try_except bind run].
      destruct (h string (download_file u) w) as [[c|e] w1];
        cbn [lift bind try_except].
      - destruct (run h _ w1) as [[o w2] l] eqn:E. intros [= -> _ _] Hd.
        apply (IH _ _ _ _ _ E). rewrite forallb_app, Hd. reflexivity.
      - destruct (run h _ w1) as [[o w2] l] eqn:E. intros [= -> _ _] Hd.
        apply (IH _ _ _ _ _ E Hd). }
    cbn [download_loop].
    destruct (truthy (download_url a)) eqn:E1.
    + cbn [bind]. rewrite E1. cbn [negb]. apply Hcall.
    + destruct (hashable (file_token a)); [|discriminate].
      cbn [bind]. destruct (truthy (token_to_url (file_token a))); cbn [negb].
      * apply Hcall.
      * apply IH.
Qed.

Lemma download_attachments_content attachments w out w' log :
  run h (download_attachments attachments) w = (Ok out, w', log) ->
  forallb has_content out = true.
Proof.
  destruct attachments as [|a rest]; [now intros [= <- _ _]|].
  unfold download_attachments.
  destruct (map file_token _) as [|tok toks].
  - cbn [bind]. intros H. now apply (download_loop_content _ _ _ _ _ _ _ H).
  - cbn [await bind run].
    destruct (h _ (get_file_download_urls (tok :: toks)) w) as [[m|e] w1];
      cbn [lift bind run]; [|discriminate].
    destruct (run h _ w1) as [[o w2] l] eqn:E. intros [= -> _ _].
    now apply (download_loop_content _ _ _ _ _ _ _ E).
Qed.

Lemma forward_send_ok target_email approval_name approval_title approval_amount
    form_json w :
  forallb send_ok
    (snd (run h (forward target_email approval_name approval_title approval_amount
                         form_json) w)) = true.
Proof.
  unfold forward.
  destruct (extract_attachments form_json) as [[|a atts]|e]; try reflexivity.
  cbn [lift bind]. rewrite run_bind.
  pose proof (download_attachments_no_send h (a :: atts) w) as Hn.
  destruct (run h (download_attachments (a :: atts)) w) as [[[out|e] w1] log1] eqn:E;
    cbn [snd] in Hn; [|now apply no_send_send_ok].
  apply download_attachments_content in E.
  destruct out as [|x out].
  - cbn [run snd]. rewrite app_nil_r. now apply no_send_send_ok.
  - cbn [await run]. destruct (h unit _ w1) as [r w2]. rewrite run_lift.
    cbn [snd]. rewrite forallb_app, (no_send_send_ok _ Hn). cbn.
    cbn in E. now rewrite E.
Qed.

Lemma process_approval_send_ok settings instance_code w :
  forallb send_ok (snd (run h (_process_approval settings instance_code) w)) = true.
Proof.
  unfold _process_approval. cbn [await bind run].
  destruct (h _ (get_approval_instance instance_code) w) as [[instance|e] w1];
    cbn [lift bind run]; [|reflexivity].
  destruct (get instance "approval_name" (PStr "")) as [n|]; cbn [lift bind run];
    [|reflexivity].
  destruct (get instance "form" (PStr "[]")) as [fj|]; cbn [lift bind run];
    [|reflexivity].
  destruct (loads fj) as [fd|]; cbn [lift bind run]; [|reflexivity].
  destruct (_get_target_email settings n) as [[te|]|]; cbn [lift bind run];
    try reflexivity.
  destruct (summary fd) as [[t a]|]; cbn [lift bind run]; [|reflexivity].
  destruct (truthy t); cbn [lift bind run].
  - pose proof (forward_send_ok te n t a fj w1) as Hf.
    destruct (run h _ w1) as [[o w2] l]. exact Hf.
  - destruct (get instance "serial_number" instance_code) as [sn|];
      cbn [lift bind run]; [|reflexivity].
    pose proof (forward_send_ok te n sn a fj w1) as Hf.
    destruct (run h _ w1) as [[o w2] l]. exact Hf.
Qed.

Lemma handle_event_send_ok settings event w :
  forallb send_ok (snd (run h (handle_event settings event) w)) = true.
Proof.
  unfold handle_event.
  destruct (get event "header" (PDict [])) as [hd|]; cbn [lift bind run];
    [|reflexivity].
  destruct (get hd "event_type" (PStr "")) as [et|]; cbn [lift bind run];
    [|reflexivity].
  destruct (if truthy et
            then rbind (py_in "approval_instance" et) (fun found => Ok (negb found))
            else Ok false) as [[|]|]; cbn [lift bind run]; try reflexivity.
  destruct (get event "event" (PDict [])) as [ed|]; cbn [lift bind run];
    [|reflexivity].
  destruct (first_present ed "status" "instance_status" "status") as [st|];
    cbn [lift bind run]; [|reflexivity].
  destruct (negb (eq_str st "APPROVED")); [reflexivity|].
  unfold handle_approved.
  destruct (first_present ed "instance_code" "approval_code" "instance_code")
    as [code|]; cbn [lift bind run]; [|reflexivity].
  destruct (negb (truthy code)); [reflexivity|].
  rewrite run_reraise. apply process_approval_send_ok.
Qed.

End SenderFacts.

(** C8.  Within a batch every attachment that has a URL is attempted
    once, in order, and the batch returned holds exactly those whose own
    download succeeded: a failure removes that attachment only and never
    raises.  When no attachment was found, or none was downloaded, the
    forwarding steps end the event normally and the mail sender is not
    called; over a whole event, every call of the mail sender carries a
    non-empty batch of attachments with their content. *)
Theorem download_isolation {RT : PyRuntime} {W : Type} (h : handler W) :
  (forall attachments w token_to_url w1 log0,
     Forall (fun a => resolvable a = true) attachments ->
     url_resolution h attachments w = (Ok token_to_url, w1, log0) ->
     exists replies w',
       List.length replies = List.length (targets token_to_url attachments)
       /\ run h (download_attachments attachments) w
          = (Ok (successes (combine (targets token_to_url attachments) replies)),
             w',
             (log0 ++ download_log
                        (combine (targets token_to_url attachments) replies))%list))
  /\ (forall target_email approval_name approval_title approval_amount form_json,
        extract_attachments form_json = Ok [] ->
        forward target_email approval_name approval_title approval_amount form_json
        = Ret tt)
  /\ (forall target_email approval_name approval_title approval_amount form_json
             attachments w w1 log1,
        extract_attachments form_json = Ok attachments ->
        run h (download_attachments attachments) w = (Ok [], w1, log1) ->
        run h (forward target_email approval_name approval_title approval_amount
                       form_json) w
        = (Ok tt, w1, log1)
        /\ existsb is_send log1 = false)
  /\ (forall settings event w,
        forallb send_ok (snd (run h (handle_event settings event) w)) = true).
Proof.
  split; [|split; [|split]]; [| | |apply handle_event_send_ok].
  - intros atts w m w1 log0 Hres Hurl.
    exact (download_attachments_isolated h atts w m w1 log0 Hres Hurl).
  - intros te n t a fj He. unfold forward. now rewrite He.
  - intros te n t a fj atts w w1 log1 He Hrun. split.
    + unfold forward. rewrite He. cbn [lift bind].
      destruct atts as [|x atts].
      * cbn in Hrun. injection Hrun as <- <-. reflexivity.
      * rewrite run_bind, Hrun. cbn [run]. now rewrite app_nil_r.
    + pose proof (download_attachments_no_send h atts w) as Hn.
      now rewrite Hrun in Hn.
Qed.

Lemma download_isolation_witness :
  (exists replies w',
     List.length replies = 3
     /\ run scenario_handler (download_attachments scenario_batch) 0
        = (Ok (successes (combine (targets scenario_urls scenario_batch) replies)),
           w',
           ([ Entry (get_file_download_urls [ PStr "tok-2"; PStr "tok-3"; PStr "tok-4" ])
                    (Ok scenario_urls) ]
            ++ download_log (combine (targets scenario_urls scenario_batch) replies))%list))
  /\ fst (fst (run scenario_handler (download_attachments scenario_batch) 0))
     = Ok [ set_content (descriptor "" "http://files/1.pdf") "%PDF";
            set_content (descriptor "tok-3" "") "%PDF" ]
  /\ run scenario_handler
       (forward "ap@example.com" (PStr "付款test") (PStr "Taxi") (PStr "") bad_form) 0
     = (Ok tt, 1, [ Entry (download_file (PStr "http://files/bad"))
                          (Err (RemoteError "404")) ])
  /\ forallb send_ok
       (snd (run scenario_handler
               (handle_event no_settings (envelope None "APPROVED")) 0)) = true.
Proof.
  destruct (@download_isolation scenario_runtime nat scenario_handler)
    as (Hbatch & _ & Hnone & Hsend).
  split; [|split; [|split]].
  - apply (Hbatch scenario_batch 0 scenario_urls 1
             [ Entry (get_file_download_urls [ PStr "tok-2"; PStr "tok-3"; PStr "tok-4" ])
                     (Ok scenario_urls) ]).
    + repeat constructor.
    + reflexivity.
  - reflexivity.
  - apply (Hnone "ap@example.com" (PStr "付款test") (PStr "Taxi") (PStr "") bad_form
             [ bare_descriptor "http://files/bad" ] 0 1
             [ Entry (download_file (PStr "http://files/bad"))
                     (Err (RemoteError "404")) ]).
    + vm_compute. reflexivity.
    + reflexivity.
  - apply Hsend.
Defined.

(** ** Encryption of configuration values *)

Lemma xor_byte_cancel a b : xor_byte (xor_byte a b) b = a.
Proof.
  destruct a, b. unfold xor_byte.
  now rewrite !xorb_assoc, !xorb_nilpotent, !xorb_false_r.
Qed.

Lemma zip_xor_cancel k : forall x rest,
  zip_xor (zip_xor x k) (k ++ rest) = take (String.length k) x.
Proof.
  induction k as [|b k IH]; intros x rest.
  - destruct x; reflexivity.
  - destruct x as [|a x]; [reflexivity|].
    cbn [zip_xor append String.length take]. now rewrite xor_byte_cancel, IH.
Qed.

Lemma length_zip_xor x : forall y,
  String.length (zip_xor x y) = Nat.min (String.length x) (String.length y).
Proof.
  induction x as [|a x IH]; intros y; [reflexivity|].
  destruct y as [|b y]; [reflexivity|]. cbn [zip_xor String.length Nat.min].
  now rewrite IH.
Qed.

Lemma append_empty s : s ++ "" = s.
Proof. induction s as [|c s IH]; [reflexivity|]. cbn. now rewrite IH. Qed.

Lemma take_all s : forall n, String.length s <= n -> take n s = s.
Proof.
  induction s as [|c s IH]; intros n H; [now destruct n|].
  destruct n as [|n]; [cbn in H; lia|]. cbn [take]. rewrite IH; [reflexivity|].
  cbn in H. lia.
Qed.

Lemma length_append s t : String.length (s ++ t) = String.length s + String.length t.
Proof. induction s as [|c s IH]; [reflexivity|]. cbn. now rewrite IH. Qed.

Lemma string_app_assoc s t u : (s ++ t) ++ u = s ++ (t ++ u).
Proof. induction s as [|c s IH]; [reflexivity|]. cbn. now rewrite IH. Qed.

Lemma length_repeat_bytes k n :
  String.length (repeat_bytes k n) = n * String.length k.
Proof.
  induction n as [|n IH]; [reflexivity|].
  cbn [repeat_bytes]. rewrite length_append, IH. reflexivity.
Qed.

Lemma repeat_bytes_add k n m :
  repeat_bytes k (n + m) = repeat_bytes k n ++ repeat_bytes k m.
Proof.
  induction n as [|n IH]; [reflexivity|].
  cbn [Nat.add repeat_bytes]. now rewrite IH, string_app_assoc.
Qed.

Lemma py_len_le s : py_len s <= String.length s.
Proof.
  unfold py_len. induction s as [|c s IH]; [reflexivity|].
  cbn [code_points String.length].
  destruct (code_points s) as [|[|d t] more]; cbn [List.length] in *; try lia.
  destruct (is_continuation d); cbn [List.length]; lia.
Qed.

Section CryptoFacts.

Variable key : string.

Variable b64encode : string -> string.

Variable b64decode : string -> option string.

Hypothesis key_length : String.length key = 32.

Hypothesis b64_roundtrip : forall b, b64decode (b64encode b) = Some b.

Lemma decrypt_encrypt plaintext :
  decrypt key b64decode (encrypt key b64encode plaintext) =
  decode (take (String.length key * (py_len plaintext / String.length key + 1))
               plaintext).
Proof.
  unfold encrypt, decrypt.
  set (n1 := py_len plaintext / String.length key + 1).
  set (c := b64encode _).
  assert (Hp : startswith ("ENC:" ++ c) "ENC:" = true)
    by (clearbody c; now destruct c).
  rewrite Hp. cbn [negb append drop]. unfold c. rewrite b64_roundtrip.
  set (enc := zip_xor plaintext (repeat_bytes key n1)).
  assert (Hle : n1 <= String.length enc / String.length key + 1).
  { unfold enc. rewrite length_zip_xor, length_repeat_bytes, key_length.
    unfold n1. rewrite key_length.
    pose proof (py_len_le plaintext) as Hchars.
    destruct (Nat.min_spec (String.length plaintext) ((py_len plaintext / 32 + 1) * 32))
      as [[_ ->]|[_ ->]].
    - apply Nat.add_le_mono_r. apply Nat.Div0.div_le_mono. exact Hchars.
    - rewrite Nat.div_mul by discriminate. lia. }
  replace (String.length enc / String.length key + 1)
    with (n1 + (String.length enc / String.length key + 1 - n1)) by lia.
  rewrite repeat_bytes_add. unfold enc. rewrite zip_xor_cancel, length_repeat_bytes.
  now rewrite Nat.mul_comm.
Qed.

(** [encrypt] marks its output. *)
Lemma encrypt_prefix plaintext :
  startswith (encrypt key b64encode plaintext) "ENC:" = true.
Proof. unfold encrypt. now destruct (b64encode _). Qed.

(** [decrypt] leaves unmarked text as it is. *)
Lemma decrypt_plain ciphertext :
  startswith ciphertext "ENC:" = false -> decrypt key b64decode ciphertext = Ok ciphertext.
Proof. intros H. unfold decrypt. now rewrite H. Qed.

(** The round trip holds for a text whose UTF-8 encoding is no longer
    than the key repeated by its number of characters; every ASCII text
    is one. *)
Lemma encrypt_roundtrip_short plaintext :
  utf8_valid plaintext = true ->
  String.length plaintext <= 32 * (py_len plaintext / 32 + 1) ->
  decrypt key b64decode (encrypt key b64encode plaintext) = Ok plaintext.
Proof.
  intros Hv Hl. rewrite decrypt_encrypt, key_length, take_all by exact Hl.
  unfold decode. now rewrite Hv.
Qed.

End CryptoFacts.

(** C10, at the failing input.  Under any 32-byte key and any codec that
    decodes what it encodes, encrypting the 17 characters of [long_text]
    keeps 32 of its 34 bytes, and decrypting returns the first 16
    characters: the round trip loses the last one. *)
Theorem encrypt_roundtrip_truncates (key : string)
    (b64encode : string -> string) (b64decode : string -> option string) :
  String.length key = 32 ->
  (forall b, b64decode (b64encode b) = Some b) ->
  decrypt key b64decode (encrypt key b64encode long_text) = Ok (take 32 long_text)
  /\ take 32 long_text <> long_text.
Proof.
  intros Hk Hb. split.
  - rewrite (decrypt_encrypt key b64encode b64decode Hk Hb), Hk.
    reflexivity.
  - vm_compute. discriminate.
Qed.

(** *** The scenario codec decodes what it encodes *)

Lemma b64_value_char (x : sextet) : b64_value (b64_char x) = Some x.
Proof.
  destruct x as [[[[[b5 b4] b3] b2] b1] b0].
  destruct b5, b4, b3, b2, b1, b0; reflexivity.
Qed.

Lemma b64_value_pad : b64_value pad = None.
Proof. reflexivity. Qed.

Lemma scenario_b64_roundtrip_bounded : forall n s,
  String.length s <= n -> scenario_b64decode (scenario_b64encode s) = Some s.
Proof.
  induction n as [|n IH]; intros s Hn.
  - destruct s; [reflexivity | cbn in Hn; lia].
  - destruct s as [|a [|b [|c rest]]]; [reflexivity| | |].
    + destruct a as [a0 a1 a2 a3 a4 a5 a6 a7].
      cbn [scenario_b64encode scenario_b64decode].
      rewrite !b64_value_char, b64_value_pad. reflexivity.
    + destruct a as [a0 a1 a2 a3 a4 a5 a6 a7], b as [b0 b1 b2 b3 b4 b5 b6 b7].
      cbn [scenario_b64encode scenario_b64decode].
      rewrite !b64_value_char, b64_value_pad. reflexivity.
    + destruct a as [a0 a1 a2 a3 a4 a5 a6 a7], b as [b0 b1 b2 b3 b4 b5 b6 b7],
               c as [c0 c1 c2 c3 c4 c5 c6 c7].
      cbn [scenario_b64encode scenario_b64decode].
      rewrite !b64_value_char. rewrite IH; [reflexivity|].
      cbn [String.length] in Hn. lia.
Qed.

Lemma scenario_b64_roundtrip s : scenario_b64decode (scenario_b64encode s) = Some s.
Proof. apply (scenario_b64_roundtrip_bounded (String.length s)). lia. Qed.

Lemma encrypt_roundtrip_truncates_witness :
  decrypt scenario_key scenario_b64decode
    (encrypt scenario_key scenario_b64encode long_text)
  = Ok "éééééééééééééééé"
  /\ take 32 long_text <> long_text.
Proof.
  exact (encrypt_roundtrip_truncates scenario_key scenario_b64encode
           scenario_b64decode eq_refl scenario_b64_roundtrip).
Defined.

(** ** Scenarios of the specification, run on the model *)

(** Scenario 1. *)
Example scenario1_title :
  summary (PList [ title_control "Taxi" ]) = Ok (PStr "Taxi", PStr "").
Proof. reflexivity. Qed.

(** Scenario 2. *)
Example scenario2_amount :
  summary (PList [ PDict [ ("name", PStr "金额"); ("type", PStr "amount");
                           ("value", PStr "100");
                           ("ext", PDict [ ("currency", PStr "USD") ]) ] ])
  = Ok (PStr "", PStr "100 USD").
Proof. reflexivity. Qed.

(** The decoder on the form of the payment. *)
Example payment_form_decodes :
  scenario_loads payment_form
  = Some (PList
            [ PDict [ ("name", PStr "名称"); ("type", PStr "input"); ("value", PStr "Taxi") ];
              PDict [ ("name", PStr "金额"); ("type", PStr "amount"); ("value", PStr "100");
                      ("ext", PDict [ ("currency", PStr "USD") ]) ];
              PDict [ ("name", PStr "附件"); ("type", PStr "attachmentV2");
                      ("value", PList [ PStr "http://files/1.pdf" ]);
                      ("ext", PStr "receipt.pdf") ] ]).
Proof. vm_compute. reflexivity. Qed.

(** An approved event of a mapped category: the instance is fetched, the
    receipt downloaded and the mail sent. *)
Example approved_event_forwarded :
  run (payment_handler "付款test")
      (handle_event payment_settings (envelope (Some "approval_instance") "APPROVED")) 0
  = (Ok tt, 3,
     [ Entry (get_approval_instance (PStr "INST-1")) (Ok (payment_instance "付款test"));
       Entry (download_file (PStr "http://files/1.pdf")) (Ok "%PDF");
       Entry (send_with_attachments "pay@example.com" "[付款test]-Taxi"
                ("审批已通过" ++ newline ++ newline
                 ++ "审批类型: 付款test" ++ newline
                 ++ "审批标题: Taxi" ++ newline
                 ++ "审批金额: 100 USD" ++ newline
                 ++ "附件数量: 1" ++ newline)
                [ receipt ])
             (Ok tt) ]).
Proof. vm_compute. reflexivity. Qed.

(** Scenario 6: a category without mapping ends the event after the
    instance was fetched. *)
Example scenario6_unmapped_category :
  run (payment_handler "采购")
      (handle_event payment_settings (envelope (Some "approval_instance") "APPROVED")) 0
  = (Ok tt, 1,
     [ Entry (get_approval_instance (PStr "INST-1")) (Ok (payment_instance "采购")) ]).
Proof. vm_compute. reflexivity. Qed.

(** * Further properties *)

(** ** The e-mail field of a form *)

(** A value settles nothing exactly when the reader goes on with the
    loop. *)
Lemma settles_nothing_spec {RT : PyRuntime} val :
  settles_nothing val = true <-> email_decision val = Ok None.
Proof.
  unfold settles_nothing, email_decision.
  destruct val as [|b|z|f|s|l|m]; try (split; [reflexivity|reflexivity]).
  - destruct (json_loads s) as [v|].
    + destruct v as [|b|z|f|t|[|first l]|m]; cbn [other_json];
        rewrite ?andb_true_r, ?andb_false_r;
        destruct (contains "@" s); cbn [negb]; split; (reflexivity || discriminate).
    + destruct (json_error s); rewrite ?andb_true_r, ?andb_false_r;
        destruct (contains "@" s); cbn [negb]; split; (reflexivity || discriminate).
  - destruct l; split; (reflexivity || discriminate).
Qed.

Lemma email_loop_passes {RT : PyRuntime} field default pre : forall rest,
  Forall (fun c => email_passes field c = true) pre ->
  email_loop (pre ++ rest) field default = email_loop rest field default.
Proof.
  induction pre as [|c pre IH]; intros rest H; [reflexivity|].
  inversion H as [|? ? Hc Hpre]; subst.
  destruct c as [| | | | | |d]; try discriminate.
  cbn [app email_loop get rbind]. unfold email_passes in Hc.
  destruct (eq_str (dict_get d "name" (PStr "")) field); [|now apply IH].
  apply settles_nothing_spec in Hc. rewrite Hc. cbn [rbind]. now apply IH.
Qed.

(** The reader at the first control of the wanted name, after controls
    that pass. *)
Lemma email_loop_reaches {RT : PyRuntime} form_json field default pre d post :
  json_loads form_json = Some (PList (pre ++ PDict d :: post)) ->
  Forall (fun c => email_passes field c = true) pre ->
  eq_str (dict_get d "name" (PStr "")) field = true ->
  extract_email_from_form form_json field default
  = rbind (email_decision (dict_get d "value" (PStr ""))) (fun decided =>
    match decided with
    | Some r => Ok r
    | None => email_loop post field default
    end).
Proof.
  intros Hf Hpre Hn. unfold extract_email_from_form. rewrite Hf.
  cbn [py_iter rbind]. rewrite (email_loop_passes field default pre _ Hpre).
  cbn [email_loop get rbind]. now rewrite Hn.
Qed.



(** X2.  The first control that settles the address decides, whatever
    follows it.  After controls that pass, a control of the wanted name
    gives: the first element of its value, as text, when the value is a
    list; the first element of the list its value decodes to, as text,
    when the value is JSON text of a list; the string its value decodes
    to when the value is JSON text of a string; and the value stripped of
    blanks when it holds an "@" and the decoder refuses it by
    [JSONDecodeError] or decodes it to something else. *)
Theorem email_first_decision {RT : PyRuntime} (form_json field default : string)
    (pre post : list value) (d : list (string * value)) :
  json_loads form_json = Some (PList (pre ++ PDict d :: post)) ->
  Forall (fun c => email_passes field c = true) pre ->
  eq_str (dict_get d "name" (PStr "")) field = true ->
  (forall first rest,
     dict_get d "value" (PStr "") = PList (first :: rest) ->
     extract_email_from_form form_json field default = Ok (py_str first))
  /\ (forall s first rest,
        dict_get d "value" (PStr "") = PStr s ->
        json_loads s = Some (PList (first :: rest)) ->
        extract_email_from_form form_json field default = Ok (py_str first))
  /\ (forall s parsed,
        dict_get d "value" (PStr "") = PStr s ->
        json_loads s = Some (PStr parsed) ->
        extract_email_from_form form_json field default = Ok parsed)
  /\ (forall s,
        dict_get d "value" (PStr "") = PStr s ->
        contains "@" s = true ->
        (json_loads s = None /\ json_error s = JSONDecodeError)
        \/ (exists v, json_loads s = Some v /\ other_json v = true) ->
        extract_email_from_form form_json field default = Ok (strip s)).
Proof.
  intros Hf Hpre Hn.
  rewrite (email_loop_reaches form_json field default pre d post Hf Hpre Hn).
  repeat split.
  - intros first rest ->. reflexivity.
  - intros s first rest -> Hs. cbn [email_decision]. now rewrite Hs.
  - intros s parsed -> Hs. cbn [email_decision]. now rewrite Hs.
  - intros s -> Hat [[Hs He]|(v & Hs & Hv)]; cbn [email_decision]; rewrite Hs.
    + rewrite He, Hat. reflexivity.
    + destruct v as [|b|z|f|t|[|first l]|m]; try discriminate;
        rewrite Hat; reflexivity.
Qed.

Lemma email_first_decision_witness :
  extract_email_from_form selection_form "收件人" "ops@example.com"
  = Ok "pay@example.com"
  /\ extract_email_from_form padded_form "收件人" "ops@example.com"
     = Ok "pay@example.com".
Proof.
  split.
  - apply (proj1 (proj2
             (@email_first_decision scenario_runtime selection_form "收件人"
                "ops@example.com"
                [ PDict [ ("name", PStr "名称"); ("value", PStr "Taxi") ] ]
                [ PDict [ ("name", PStr "收件人"); ("value", PStr "late@example.com") ] ]
                [ ("name", PStr "收件人");
                  ("value", PStr ("[" ++ q "pay@example.com" ++ ","
                                  ++ q "second@example.com" ++ "]")) ]
                ltac:(vm_compute; reflexivity) ltac:(repeat constructor) eq_refl))
             _ (PStr "pay@example.com") [ PStr "second@example.com" ] eq_refl).
    vm_compute. reflexivity.
  - apply (proj2 (proj2 (proj2
             (@email_first_decision scenario_runtime padded_form "收件人"
                "ops@example.com"
                [ PDict [ ("name", PStr "名称"); ("value", PStr "Taxi") ] ]
                [ PDict [ ("name", PStr "收件人"); ("value", PStr "late@example.com") ] ]
                [ ("name", PStr "收件人"); ("value", PStr " pay@example.com ") ]
                ltac:(vm_compute; reflexivity) ltac:(repeat constructor) eq_refl)))
             " pay@example.com " eq_refl eq_refl).
    left. split; reflexivity.
Defined.

(** X3.  The two readers of a form differ on a control that is not a
    dictionary: the attachment walk passes over it, giving what it gives
    on the form without the control, the e-mail reader raises
    [AttributeError] when it reaches it before an address is settled. *)
Theorem email_reader_rejects_non_dict {RT : PyRuntime}
    (form_json field default : string) (pre post : list value) (x : value) :
  json_loads form_json = Some (PList (pre ++ x :: post)) ->
  Forall (fun c => email_passes field c = true) pre ->
  isinstance_dict x = false ->
  extract_email_from_form form_json field default = Err AttributeError
  /\ extract_attachments_from_form form_json
     = match walk_error (pre ++ post) with
       | Some e => Err e
       | None => Ok (_extract_attachments_recursive (pre ++ post) [])
       end.
Proof.
  intros Hf Hpre Hx. split.
  - unfold extract_email_from_form. rewrite Hf. cbn [py_iter rbind].
    rewrite (email_loop_passes field default pre _ Hpre).
    destruct x; try discriminate; reflexivity.
  - unfold extract_attachments_from_form. rewrite Hf. cbn [py_iter rbind].
    assert (Hl : leaf_controls (pre ++ x :: post) = leaf_controls (pre ++ post)).
    { clear Hf Hpre. induction pre as [|c pre IH].
      - cbn [app]. rewrite leaf_controls_cons. now destruct x.
      - cbn [app]. rewrite !leaf_controls_cons. f_equal. apply IH. }
    rewrite walk_raising_spec, !walk_concatenation.
    unfold walk_error, attachment_controls. now rewrite Hl.
Qed.

Lemma email_reader_rejects_non_dict_witness :
  extract_email_from_form ("[" ++ q "note" ++ "]") "收件人" "ops@example.com"
  = Err AttributeError
  /\ extract_attachments_from_form ("[" ++ q "note" ++ "]")
     = Ok (_extract_attachments_recursive ([] ++ []) []).
Proof.
  apply (@email_reader_rejects_non_dict scenario_runtime _ "收件人" "ops@example.com"
           [] [] (PStr "note")).
  - vm_compute. reflexivity.
  - constructor.
  - reflexivity.
Defined.

(** ** Entries of an attachment control *)

Lemma collect_files_indexed names files : forall i acc,
  collect_files names i files acc = (acc ++ indexed_descriptors names i files)%list.
Proof.
  unfold indexed_descriptors.
  induction files as [|f files IH]; intros i acc.
  - cbn. now rewrite app_nil_r.
  - cbn [collect_files List.length seq combine flat_map fst snd].
    rewrite IH. destruct (file_descriptor names i f); [|reflexivity].
    now rewrite <- app_assoc.
Qed.

Lemma resolved_list_value {RT : PyRuntime} d files :
  dict_get d "value" PNone = PList files -> files <> [] ->
  resolved d = indexed_descriptors (ext_filenames (dict_get d "ext" PNone)) 0 files.
Proof.
  intros Hv Hne. unfold resolved, resolve_control. rewrite Hv.
  destruct files as [|f files]; [congruence|]. cbn [truthy negb].
  now rewrite collect_files_indexed.
Qed.

Lemma in_combine_seq {A : Type} (l : list A) : forall i j x,
  nth_error l j = Some x -> In (i + j, x) (combine (seq i (List.length l)) l).
Proof.
  induction l as [|y l IH]; intros i j x H; [now destruct j|].
  destruct j as [|j]; cbn [nth_error] in H.
  - injection H as ->. rewrite Nat.add_0_r. now left.
  - right. rewrite <- Nat.add_succ_comm. now apply IH.
Qed.

(** X4.  An attachment control whose value is a non-empty list resolves
    to the descriptors of its entries in order, each taken at its own
    zero-based position among all entries, skipped ones included.  A URL
    entry at position [j] is named by the [j]-th name of [ext] and, when
    [ext] has no such name, "attachment_" followed by [j+1]. *)
Theorem entry_positions {RT : PyRuntime} (d : list (string * value))
    (files : list value) :
  dict_get d "value" PNone = PList files ->
  files <> [] ->
  resolved d = indexed_descriptors (ext_filenames (dict_get d "ext" PNone)) 0 files
  /\ (forall j url,
        nth_error files j = Some (PStr url) ->
        startswith url "http" = true ->
        In {| file_token := PStr "";
              name := match nth_error (ext_filenames (dict_get d "ext" PNone)) j with
                      | Some n => n
                      | None => PStr ("attachment_" ++ decimal (j + 1))
                      end;
              mime_type := PStr "";
              content := None;
              download_url := PStr url |}
           (resolved d)).
Proof.
  intros Hv Hne. split; [now apply resolved_list_value|].
  intros j url Hj Hu. rewrite (resolved_list_value d files Hv Hne).
  unfold indexed_descriptors. apply in_flat_map.
  exists (j, PStr url). split; [apply (in_combine_seq files 0 j _ Hj)|].
  cbn [fst snd file_descriptor]. rewrite Hu. now left.
Qed.

Lemma entry_positions_witness :
  In {| file_token := PStr "";
        name := PStr "attachment_3";
        mime_type := PStr "";
        content := None;
        download_url := PStr "http://a/3.pdf" |}
     (resolved [ ("type", PStr "attachment"); ("ext", PStr "one.pdf");
                 ("value", PList [ PStr "http://a/1.pdf"; PInt 7;
                                   PStr "http://a/3.pdf" ]) ]).
Proof.
  apply (proj2 (@entry_positions scenario_runtime
                  [ ("type", PStr "attachment"); ("ext", PStr "one.pdf");
                    ("value", PList [ PStr "http://a/1.pdf"; PInt 7;
                                      PStr "http://a/3.pdf" ]) ]
                  [ PStr "http://a/1.pdf"; PInt 7; PStr "http://a/3.pdf" ]
                  eq_refl ltac:(discriminate))
          2 "http://a/3.pdf" eq_refl eq_refl).
Defined.

Lemma collect_files_urls names files : forall i acc,
  Forall (fun f => is_url_text f = true) files ->
  map download_url (collect_files names i files acc)
  = (map download_url acc ++ files)%list
  /\ (Forall (fun a => file_token a = PStr "" /\ content a = None) acc ->
      Forall (fun a => file_token a = PStr "" /\ content a = None)
             (collect_files names i files acc)).
Proof.
  induction files as [|f files IH]; intros i acc H.
  - cbn. now rewrite app_nil_r.
  - inversion H as [|? ? Hf Hfs]; subst.
    destruct f as [| | | |u| |]; try discriminate. cbn in Hf.
    cbn [collect_files file_descriptor]. rewrite Hf.
    destruct (IH (S i) (acc ++ [ {| file_token := PStr "";
                                    name := match nth_error names i with
                                            | Some n => n
                                            | None => fallback_name i
                                            end;
                                    mime_type := PStr "";
                                    content := None;
                                    download_url := PStr u |} ])%list Hfs)
      as [Hm Ht].
    split.
    + rewrite Hm, map_app. cbn. now rewrite <- app_assoc.
    + intros Hacc. apply Ht. apply Forall_app. split; [exact Hacc|].
      now repeat constructor.
Qed.

(** X5.  When every entry of the list value is text starting with
    "http", the control resolves to one descriptor per entry, in order,
    whose download URLs are the entries themselves and whose file tokens
    are empty. *)
Theorem url_entries_preserved {RT : PyRuntime} (d : list (string * value))
    (files : list value) :
  dict_get d "value" PNone = PList files ->
  Forall (fun f => is_url_text f = true) files ->
  map download_url (resolved d) = files
  /\ Forall (fun a => file_token a = PStr "" /\ content a = None) (resolved d).
Proof.
  intros Hv Hf. unfold resolved, resolve_control. rewrite Hv.
  destruct files as [|f files]; [now split|]. cbn [truthy negb].
  destruct (collect_files_urls (ext_filenames (dict_get d "ext" PNone))
              (f :: files) 0 [] Hf) as [Hm Ht].
  split; [exact Hm | now apply Ht].
Qed.

Lemma url_entries_preserved_witness :
  map download_url
      (resolved [ ("type", PStr "attachmentV2");
                  ("value", PList [ PStr "http://a/1.pdf"; PStr "https://b/2.png" ]) ])
  = [ PStr "http://a/1.pdf"; PStr "https://b/2.png" ].
Proof.
  apply (@url_entries_preserved scenario_runtime
           [ ("type", PStr "attachmentV2");
             ("value", PList [ PStr "http://a/1.pdf"; PStr "https://b/2.png" ]) ]
           [ PStr "http://a/1.pdf"; PStr "https://b/2.png" ] eq_refl).
  repeat constructor.
Defined.

Lemma lookup_dict_set_same d k v : lookup k (dict_set d k v) = Some v.
Proof.
  induction d as [|[k0 v0] d IH]; simpl.
  - now rewrite String.eqb_refl.
  - destruct (String.eqb_spec k0 k) as [->|Hne]; simpl.
    + now rewrite String.eqb_refl.
    + destruct (String.eqb_spec k0 k); [contradiction | exact IH].
Qed.

(** X6.  A value given as JSON text and the same value already decoded
    resolve alike, provided the decoded value is non-empty and is not
    itself text. *)
Theorem encoded_value_equivalence {RT : PyRuntime} (d : list (string * value))
    (s : string) (v : value) (acc : list AttachmentInfo) :
  dict_get d "value" PNone = PStr s ->
  s <> "" ->
  json_loads s = Some v ->
  truthy v = true ->
  (forall t, v <> PStr t) ->
  resolve_control d acc = resolve_control (dict_set d "value" v) acc.
Proof.
  intros Hs Hne Hl Hv Hnt. unfold resolve_control.
  assert (Hget : dict_get (dict_set d "value" v) "value" PNone = v)
    by (unfold dict_get; now rewrite lookup_dict_set_same).
  assert (Hext : dict_get (dict_set d "value" v) "ext" PNone = dict_get d "ext" PNone)
    by (unfold dict_get; now rewrite lookup_dict_set_other).
  rewrite Hs, Hget, Hext, Hv, Hl. cbn [truthy].
  destruct (String.eqb_spec s ""); [contradiction|]. cbn [negb].
  destruct v; try reflexivity. destruct (Hnt s0 eq_refl).
Qed.

Lemma encoded_value_equivalence_witness :
  resolve_control [ ("type", PStr "attachmentV2");
                    ("value", PStr ("[" ++ q "http://a/1.pdf" ++ "]")) ] []
  = resolve_control
      (dict_set [ ("type", PStr "attachmentV2");
                  ("value", PStr ("[" ++ q "http://a/1.pdf" ++ "]")) ]
                "value" (PList [ PStr "http://a/1.pdf" ])) [].
Proof.
  apply (@encoded_value_equivalence scenario_runtime _
           ("[" ++ q "http://a/1.pdf" ++ "]") (PList [ PStr "http://a/1.pdf" ]) []).
  - reflexivity.
  - discriminate.
  - vm_compute. reflexivity.
  - reflexivity.
  - discriminate.
Defined.

(** ** Groups and concatenation in the walk *)

Lemma leaf_controls_app l1 l2 :
  leaf_controls (l1 ++ l2) = (leaf_controls l1 ++ leaf_controls l2)%list.
Proof.
  induction l1 as [|c l1 IH]; [reflexivity|].
  cbn [app]. rewrite !leaf_controls_cons, IH. now rewrite app_assoc.
Qed.

Lemma leaf_controls_rows rows :
  leaf_controls (row_controls rows)
  = flat_map (fun row => match row with
                         | PList cs => leaf_controls cs
                         | _ => []
                         end) rows.
Proof.
  unfold row_controls. induction rows as [|r rows IH]; [reflexivity|].
  cbn [flat_map]. rewrite leaf_controls_app, IH. now destruct r.
Qed.

(** X7.  The walk of a document is the walk of its parts one after the
    other, and a [fieldList] control is transparent to it: the control
    may be replaced by the controls of its rows, in order. *)
Theorem walk_composes {RT : PyRuntime} :
  (forall l1 l2 acc,
     _extract_attachments_recursive (l1 ++ l2) acc
     = _extract_attachments_recursive l2 (_extract_attachments_recursive l1 acc))
  /\ (forall d rows rest acc,
        eq_str (control_type d) "fieldList" = true ->
        dict_get d "value" (PList []) = PList rows ->
        _extract_attachments_recursive (PDict d :: rest) acc
        = _extract_attachments_recursive (row_controls rows ++ rest) acc).
Proof.
  split.
  - intros l1 l2 acc. rewrite !walk_concatenation.
    unfold attachment_controls.
    now rewrite leaf_controls_app, filter_app, flat_map_app, app_assoc.
  - intros d rows rest acc Hg Hv. rewrite !walk_concatenation. f_equal.
    unfold attachment_controls. f_equal. f_equal.
    rewrite leaf_controls_app, leaf_controls_cons, Hg, Hv.
    now rewrite leaf_controls_rows.
Qed.

Lemma walk_composes_witness :
  _extract_attachments_recursive nested_form []
  = _extract_attachments_recursive
      (row_controls
         [ PList [ PDict [ ("type", PStr "attachmentV2");
                           ("value", PList [ PStr "http://a/1.pdf";
                                             PStr "http://a/2.pdf" ]) ] ] ]
       ++ []) [].
Proof.
  apply (proj2 (@walk_composes scenario_runtime)); reflexivity.
Defined.

(** ** Direct URLs *)

(** X8.  A batch in which every attachment has a direct URL is downloaded
    without asking for the URLs of file tokens, whatever tokens the
    attachments carry: the calls are one download per attachment, in
    order, each from the attachment's own URL. *)
Theorem direct_urls_need_no_lookup {W : Type} (h : handler W)
    (attachments : list AttachmentInfo) (w : W) :
  Forall (fun a => truthy (download_url a) = true) attachments ->
  exists replies w',
    List.length replies = List.length attachments
    /\ run h (download_attachments attachments) w
       = (Ok (successes (combine (map (fun a => (a, download_url a)) attachments)
                                 replies)),
          w',
          download_log (combine (map (fun a => (a, download_url a)) attachments)
                                replies)).
Proof.
  intros Hd.
  assert (Ht : forall m, targets m attachments
                         = map (fun a => (a, download_url a)) attachments).
  { intros m. unfold targets, attachment_url.
    induction Hd as [|a l Ha _ IH]; [reflexivity|].
    cbn [flat_map map]. rewrite Ha, Ha. cbn [app]. f_equal. apply IH. }
  assert (Hf : filter needs_lookup attachments = []).
  { clear Ht. induction Hd as [|a l Ha _ IH]; [reflexivity|].
    cbn [filter]. unfold needs_lookup at 1. rewrite Ha, andb_false_r. exact IH. }
  assert (Hr : Forall (fun a => resolvable a = true) attachments).
  { apply Forall_impl with (2 := Hd). intros a Ha. unfold resolvable. now rewrite Ha. }
  destruct (download_attachments_isolated h attachments w (fun _ => PNone) w [] Hr)
    as (replies & w' & Hlen & Hrun).
  - unfold url_resolution. now rewrite Hf.
  - rewrite Ht in Hlen, Hrun. exists replies, w'.
    split; [now rewrite Hlen, length_map | exact Hrun].
Qed.

Lemma direct_urls_need_no_lookup_witness :
  exists replies w',
    List.length replies = 2
    /\ run scenario_handler
         (download_attachments [ descriptor "tok-2" "http://files/1.pdf";
                                 descriptor "tok-3" "http://files/bad" ]) 0
       = (Ok (successes
                (combine [ (descriptor "tok-2" "http://files/1.pdf",
                            PStr "http://files/1.pdf");
                           (descriptor "tok-3" "http://files/bad",
                            PStr "http://files/bad") ] replies)),
          w',
          download_log
            (combine [ (descriptor "tok-2" "http://files/1.pdf",
                        PStr "http://files/1.pdf");
                       (descriptor "tok-3" "http://files/bad",
                        PStr "http://files/bad") ] replies)).
Proof.
  apply (direct_urls_need_no_lookup scenario_handler
           [ descriptor "tok-2" "http://files/1.pdf";
             descriptor "tok-3" "http://files/bad" ] 0).
  repeat constructor.
Defined.

(** ** Approved events *)

(** X9.  For an approved event of the documented shape, handling the
    event is processing its instance code: without a code the event is
    skipped with no call, and with one the run is that of
    [_process_approval] on the code, whose exception, if any, comes out
    unchanged. *)
Theorem approved_event_processing {RT : PyRuntime} (settings : Settings)
    (event : value) :
  well_shaped event = true ->
  gate_open event = true ->
  (truthy (envelope_instance_code event) = false ->
   handle_event settings event = Ret tt)
  /\ (truthy (envelope_instance_code event) = true ->
      forall (W : Type) (h : handler W) (w : W),
        run h (handle_event settings event) w
        = run h (_process_approval settings (envelope_instance_code event)) w).
Proof.
  intros Hw Hg. rewrite (handle_event_well_shaped settings event Hw), Hg.
  unfold well_shaped in Hw. unfold envelope_instance_code, envelope_data.
  destruct event as [| | | | | |e]; try discriminate.
  destruct (dict_get e "header" (PDict [])); try discriminate.
  destruct (dict_get e "event" (PDict [])) as [| | | | | |ed]; try discriminate.
  destruct (dict_get items "event_type" (PStr "")); try discriminate.
  destruct (dict_get ed "object" (PDict [])) as [| | | | | |o] eqn:Eo; try discriminate.
  unfold handle_approved.
  assert (Hc : first_present (PDict ed) "instance_code" "approval_code" "instance_code"
               = Ok (py_or (dict_get ed "instance_code" PNone)
                       (py_or (dict_get ed "approval_code" PNone)
                              (dict_get o "instance_code" PNone)))).
  { unfold first_present, get, rbind, py_or. rewrite Eo.
    destruct (truthy (dict_get ed "instance_code" PNone)); [reflexivity|].
    destruct (truthy (dict_get ed "approval_code" PNone)); reflexivity. }
  rewrite Hc. cbn [lift bind]. split.
  - now intros ->.
  - intros ->. cbn [negb]. intros W h w. apply run_reraise.
Qed.

Lemma approved_event_processing_witness :
  run (payment_handler "付款test")
      (handle_event payment_settings (envelope (Some "approval_instance") "APPROVED")) 0
  = run (payment_handler "付款test")
        (_process_approval payment_settings (PStr "INST-1")) 0.
Proof.
  exact (proj2 (@approved_event_processing scenario_runtime payment_settings
                  (envelope (Some "approval_instance") "APPROVED") eq_refl eq_refl)
           eq_refl nat (payment_handler "付款test") 0).
Defined.

(** ** The course of an event *)

Lemma in_order_weaken log m n :
  (m <= n)%nat -> in_order n log = true -> in_order m log = true.
Proof.
  destruct log as [|e rest]; [reflexivity|]. cbn [in_order]. intros Hmn H.
  apply andb_true_iff in H. destruct H as [Hn Hr]. rewrite Hr, andb_true_r.
  apply Nat.leb_le. apply Nat.leb_le in Hn. lia.
Qed.

Lemma not_send_no_args log e :
  existsb is_send log = false -> In e log -> send_args e = None.
Proof.
  induction log as [|x log IH]; [intros _ []|]. cbn [existsb In].
  intros H [->|Hin].
  - apply orb_false_iff in H. destruct H as [He _].
    destruct e as [R c r]. now destruct c.
  - apply orb_false_iff in H. now apply IH.
Qed.

Section EventFacts.

Context {RT : PyRuntime} {W : Type} (h : handler W).

Lemma download_loop_order token_to_url attachments tail :
  in_order 2 tail = true ->
  forall downloaded w,
  in_order 2
    (snd (run h (download_loop token_to_url attachments downloaded) w) ++ tail)%list
  = true.
Proof.
  intros Htail.
  induction attachments as [|a rest IH]; intros downloaded w; [exact Htail|].
  assert (Hcall : forall u,
            in_order 2
              (snd (run h
                      (bind
                         (try_except
                            (bind (await (download_file u))
                               (fun c => Ret (downloaded ++ [set_content a c])%list))
                            (fun _ => Ret downloaded))
                         (fun downloaded' => download_loop token_to_url rest downloaded'))
                      w) ++ tail)%list = true).
  { intros u. cbn [await try_except bind run].
    destruct (h string (download_file u) w) as [[c|e] w1];
      cbn [lift bind try_except].
    - specialize (IH (downloaded ++ [set_content a c])%list w1).
      destruct (run h _ w1) as [[out w2] log]. exact IH.
    - specialize (IH downloaded w1).
      destruct (run h _ w1) as [[out w2] log]. exact IH. }
  cbn [download_loop].
  destruct (truthy (download_url a)) eqn:E1.
  - cbn [bind]. rewrite E1. cbn [negb]. apply Hcall.
  - destruct (hashable (file_token a)); [|exact Htail].
    cbn [bind]. destruct (truthy (token_to_url (file_token a))); cbn [negb].
    + apply Hcall.
    + apply IH.
Qed.

Lemma download_attachments_order attachments w tail :
  in_order 3 tail = true ->
  in_order 1 (snd (run h (download_attachments attachments) w) ++ tail)%list = true.
Proof.
  intros Htail.
  assert (H2 : in_order 2 tail = true) by (apply (in_order_weaken tail 2 3); [lia|easy]).
  assert (H1 : in_order 1 tail = true) by (apply (in_order_weaken tail 1 3); [lia|easy]).
  destruct attachments as [|a rest]; [exact H1|].
  unfold download_attachments.
  set (atts := a :: rest).
  destruct (map file_token _) as [|tok toks].
  - cbn [bind]. apply (in_order_weaken _ 1 2); [lia|].
    now apply download_loop_order.
  - cbn [await bind run].
    destruct (h _ (get_file_download_urls (tok :: toks)) w) as [[m|e] w1];
      cbn [lift bind run]; [|exact H2].
    pose proof (download_loop_order m atts tail H2 [] w1) as Hn.
    destruct (run h (download_loop m atts []) w1) as [[out w2] log]. exact Hn.
Qed.

Lemma forward_order target_email approval_name approval_title approval_amount
    form_json w :
  in_order 1
    (snd (run h (forward target_email approval_name approval_title approval_amount
                         form_json) w)) = true.
Proof.
  unfold forward.
  destruct (extract_attachments form_json) as [[|a atts]|e]; try reflexivity.
  cbn [lift bind]. rewrite run_bind.
  destruct (run h (download_attachments (a :: atts)) w) as [[[out|e] w1] log1] eqn:E.
  - destruct out as [|x out].
    + pose proof (download_attachments_order (a :: atts) w [] eq_refl) as Hd.
      rewrite E in Hd. exact Hd.
    + cbn [await run]. destruct (h unit _ w1) as [r w2]. rewrite run_lift.
      cbn [snd].
      match goal with
      | |- in_order 1 (log1 ++ ?t)%list = true =>
          pose proof (download_attachments_order (a :: atts) w t eq_refl) as Hd
      end.
      rewrite E in Hd. exact Hd.
  - pose proof (download_attachments_order (a :: atts) w [] eq_refl) as Hd.
    rewrite E, app_nil_r in Hd. exact Hd.
Qed.

Lemma process_approval_order settings instance_code w :
  in_order 0 (snd (run h (_process_approval settings instance_code) w)) = true.
Proof.
  unfold _process_approval. cbn [await bind run].
  destruct (h _ (get_approval_instance instance_code) w) as [[instance|e] w1];
    cbn [lift bind run]; [|reflexivity].
  destruct (get instance "approval_name" (PStr "")) as [n|]; cbn [lift bind run];
    [|reflexivity].
  destruct (get instance "form" (PStr "[]")) as [fj|]; cbn [lift bind run];
    [|reflexivity].
  destruct (loads fj) as [fd|]; cbn [lift bind run]; [|reflexivity].
  destruct (_get_target_email settings n) as [[te|]|]; cbn [lift bind run];
    try reflexivity.
  destruct (summary fd) as [[t a]|]; cbn [lift bind run]; [|reflexivity].
  destruct (truthy t); cbn [lift bind run].
  - pose proof (forward_order te n t a fj w1) as Hf.
    destruct (run h _ w1) as [[o w2] l]. exact Hf.
  - destruct (get instance "serial_number" instance_code) as [sn|];
      cbn [lift bind run]; [|reflexivity].
    pose proof (forward_order te n sn a fj w1) as Hf.
    destruct (run h _ w1) as [[o w2] l]. exact Hf.
Qed.

(** X11.  Whatever the event and whatever the collaborators answer, the
    calls of one event come in one order: the instance is fetched at most
    once and first, the download URLs are asked for at most once and
    before any download, and the mail is sent at most once, after every
    download. *)
Theorem calls_in_order settings event w :
  in_order 0 (snd (run h (handle_event settings event) w)) = true.
Proof.
  unfold handle_event.
  destruct (get event "header" (PDict [])) as [hd|]; cbn [lift bind run];
    [|reflexivity].
  destruct (get hd "event_type" (PStr "")) as [et|]; cbn [lift bind run];
    [|reflexivity].
  destruct (if truthy et
            then rbind (py_in "approval_instance" et) (fun found => Ok (negb found))
            else Ok false) as [[|]|]; cbn [lift bind run]; try reflexivity.
  destruct (get event "event" (PDict [])) as [ed|]; cbn [lift bind run];
    [|reflexivity].
  destruct (first_present ed "status" "instance_status" "status") as [st|];
    cbn [lift bind run]; [|reflexivity].
  destruct (negb (eq_str st "APPROVED")); [reflexivity|].
  unfold handle_approved.
  destruct (first_present ed "instance_code" "approval_code" "instance_code")
    as [code|]; cbn [lift bind run]; [|reflexivity].
  destruct (negb (truthy code)); [reflexivity|].
  rewrite run_reraise. apply process_approval_order.
Qed.

Lemma forward_mail target_email approval_name approval_title approval_amount
    form_json w e to_email subject body attachments :
  In e (snd (run h (forward target_email approval_name approval_title approval_amount
                            form_json) w)) ->
  send_args e = Some (to_email, subject, body, attachments) ->
  to_email = target_email
  /\ subject = mail_subject (py_str approval_name) (py_str approval_title)
  /\ body = mail_body (py_str approval_name) (py_str approval_title)
              (py_str approval_amount) (List.length attachments).
Proof.
  unfold forward.
  destruct (extract_attachments form_json) as [[|a atts]|e0]; try (now intros []).
  cbn [lift bind]. rewrite run_bind.
  pose proof (download_attachments_no_send h (a :: atts) w) as Hn.
  destruct (run h (download_attachments (a :: atts)) w) as [[[out|e0] w1] log1];
    cbn [snd] in Hn.
  - destruct out as [|x out].
    + cbn [run snd]. rewrite app_nil_r. intros Hin Hs.
      rewrite (not_send_no_args _ _ Hn Hin) in Hs. discriminate.
    + cbn [await run]. destruct (h unit _ w1) as [r w2]. rewrite run_lift.
      cbn [snd]. intros Hin Hs. apply in_app_or in Hin. destruct Hin as [Hin|Hin].
      * rewrite (not_send_no_args _ _ Hn Hin) in Hs. discriminate.
      * destruct Hin as [<-|[]]. cbn [send_args] in Hs.
        injection Hs as <- <- <- <-. repeat split.
  - cbn [snd]. intros Hin Hs.
    rewrite (not_send_no_args _ _ Hn Hin) in Hs. discriminate.
Qed.

(** X12.  What a mail says.  Any call of the mail sender made while an
    instance is processed goes to the address mapped to the category of
    the fetched instance, under the subject [[name]-title] and with the
    body that names the category, the title, the amount and
    the number of attachments sent; the title is that of the form or,
    when the form has none, the serial number of the instance or, failing
    that, the instance code. *)
Theorem mail_contract settings instance_code w e to_email subject body attachments :
  In e (snd (run h (_process_approval settings instance_code) w)) ->
  send_args e = Some (to_email, subject, body, attachments) ->
  exists i w1 title amount,
    h _ (get_approval_instance instance_code) w = (Ok (PDict i), w1)
    /\ mail_plan settings i instance_code = Some (to_email, title, amount)
    /\ subject = mail_subject (py_str (dict_get i "approval_name" (PStr "")))
                   (py_str title)
    /\ body = mail_body (py_str (dict_get i "approval_name" (PStr "")))
                (py_str title) (py_str amount) (List.length attachments).
Proof.
  unfold _process_approval. cbn [await bind run].
  destruct (h _ (get_approval_instance instance_code) w) as [[instance|e0] w1] eqn:Eh;
    cbn [lift bind run].
  2:{ intros [<-|[]]. discriminate. }
  assert (Hfirst : forall r,
            send_args (Entry (get_approval_instance instance_code) r) = None)
    by reflexivity.
  destruct instance as [| | | | | |i];
    try (cbn [get lift bind run snd]; intros [<-|[]]; discriminate).
  cbn [get lift bind run].
  destruct (loads (dict_get i "form" (PStr "[]"))) as [fd|] eqn:Efd;
    cbn [lift bind run]; [|intros [<-|[]]; discriminate].
  destruct (_get_target_email settings (dict_get i "approval_name" (PStr "")))
    as [[te|]|] eqn:Ete; cbn [lift bind run];
    try (intros [<-|[]]; discriminate).
  destruct (summary fd) as [[t a]|] eqn:Es; cbn [lift bind run];
    [|intros [<-|[]]; discriminate].
  assert (Hplan : mail_plan settings i instance_code
                  = Some (te, if truthy t then t
                              else dict_get i "serial_number" instance_code, a)).
  { unfold mail_plan. rewrite Ete, Efd. cbn [rbind]. now rewrite Es. }
  destruct (truthy t); cbn [get lift bind run].
  - pose proof (forward_mail te (dict_get i "approval_name" (PStr "")) t a
                  (dict_get i "form" (PStr "[]")) w1 e to_email subject body
                  attachments) as Hf.
    destruct (run h _ w1) as [[o w2] l]. cbn [snd] in *.
    intros [<-|Hin] Hs; [discriminate|].
    destruct (Hf Hin Hs) as (-> & -> & ->).
    exists i, w1, t, a. repeat split. exact Hplan.
  - pose proof (forward_mail te (dict_get i "approval_name" (PStr ""))
                  (dict_get i "serial_number" instance_code) a
                  (dict_get i "form" (PStr "[]")) w1 e to_email subject body
                  attachments) as Hf.
    destruct (run h _ w1) as [[o w2] l]. cbn [snd] in *.
    intros [<-|Hin] Hs; [discriminate|].
    destruct (Hf Hin Hs) as (-> & -> & ->).
    exists i, w1, (dict_get i "serial_number" instance_code), a.
    repeat split. exact Hplan.
Qed.

End EventFacts.

Lemma mail_contract_witness :
  exists i w1 title amount,
    payment_handler "付款test" _ (get_approval_instance (PStr "INST-1")) 0
    = (Ok (PDict i), w1)
    /\ mail_plan payment_settings i (PStr "INST-1")
       = Some ("pay@example.com", title, amount)
    /\ "[付款test]-Taxi"
       = mail_subject (py_str (dict_get i "approval_name" (PStr ""))) (py_str title)
    /\ ("审批已通过" ++ newline ++ newline
        ++ "审批类型: 付款test" ++ newline
        ++ "审批标题: Taxi" ++ newline
        ++ "审批金额: 100 USD" ++ newline
        ++ "附件数量: 1" ++ newline)
       = mail_body (py_str (dict_get i "approval_name" (PStr "")))
           (py_str title) (py_str amount) (List.length [ receipt ]).
Proof.
  apply (@mail_contract scenario_runtime nat (payment_handler "付款test")
           payment_settings (PStr "INST-1") 0
           (Entry (send_with_attachments "pay@example.com" "[付款test]-Taxi"
                     ("审批已通过" ++ newline ++ newline
                      ++ "审批类型: 付款test" ++ newline
                      ++ "审批标题: Taxi" ++ newline
                      ++ "审批金额: 100 USD" ++ newline
                      ++ "附件数量: 1" ++ newline)
                     [ receipt ])
                  (Ok tt))).
  - vm_compute. right. right. left. reflexivity.
  - reflexivity.
Defined.

(** ** Title and amount of a form *)

Lemma field_step_plain {RT : PyRuntime} st f :
  is_plain_control f = true -> field_step st f = Ok st.
Proof.
  destruct st as [t a]. destruct f as [| | | | | |d]; try discriminate.
  unfold is_plain_control, is_title_control, is_amount_control, field_step.
  cbn [get rbind]. intros H.
  apply andb_true_iff in H. destruct H as [H H3].
  apply andb_true_iff in H. destruct H as [H1 H2].
  apply negb_true_iff in H1, H2, H3. rewrite H1, H2, H3. reflexivity.
Qed.

(** X13.  The title and the amount of a form depend on the controls named
    "名称" of type [input], named "金额" of type [amount] and of type
    [fieldList] alone: every other dictionary control can be left out of
    the form without changing the result, an exception included. *)
Theorem summary_ignores_plain_controls {RT : PyRuntime} (fields : list value) :
  summary (PList fields)
  = summary (PList (filter (fun f => negb (is_plain_control f)) fields)).
Proof.
  unfold summary. cbn [py_iter rbind].
  generalize (PStr "", PStr "") as st.
  induction fields as [|f fields IH]; intros st; [reflexivity|].
  cbn [filter]. destruct (is_plain_control f) eqn:Ep; cbn [negb fields_loop].
  - rewrite (field_step_plain st f Ep). cbn [rbind]. apply IH.
  - destruct (field_step st f) as [st'|e]; cbn [rbind]; [apply IH | reflexivity].
Qed.

(** ** Secrets *)

Lemma length_take n : forall s, String.length (take n s) <= n.
Proof.
  induction n as [|n IH]; intros s; [now destruct s|].
  destruct s as [|c s]; cbn [take String.length]; [lia|].
  specialize (IH s). lia.
Qed.

Lemma in_range_ascii c : in_range 0 127 c = true -> is_continuation c = false.
Proof.
  destruct c as [b0 b1 b2 b3 b4 b5 b6 b7].
  destruct b7; [|reflexivity].
  destruct b0, b1, b2, b3, b4, b5, b6; discriminate.
Qed.

Lemma isascii_utf8_valid s : isascii s = true -> utf8_valid s = true.
Proof.
  induction s as [|c s IH]; [reflexivity|]. cbn [isascii]. intros H.
  apply andb_true_iff in H. destruct H as [Hc Hs].
  cbn [utf8_valid]. rewrite Hc. now apply IH.
Qed.

Lemma isascii_code_points s :
  isascii s = true ->
  List.length (code_points s) = String.length s
  /\ match code_points s with
     | String d _ :: _ => is_continuation d = false
     | _ => True
     end.
Proof.
  induction s as [|c s IH]; [now split|]. cbn [isascii]. intros H.
  apply andb_true_iff in H. destruct H as [Hc Hs].
  destruct (IH Hs) as [Hlen Hhead]. cbn [code_points String.length].
  destruct (code_points s) as [|[|d t] more].
  - cbn [List.length] in *. split; [lia|]. now apply in_range_ascii.
  - cbn [List.length] in *. split; [lia|]. now apply in_range_ascii.
  - rewrite Hhead. cbn [List.length] in *. split; [lia|]. now apply in_range_ascii.
Qed.

Section SecretFacts.

Variable key : string.

Variable b64encode : string -> string.

Variable b64decode : string -> option string.

Hypothesis key_length : String.length key = 32.

Hypothesis b64_roundtrip : forall b, b64decode (b64encode b) = Some b.

(** X14.  When the round trip holds.  Decrypting the encryption of a text
    of [n] characters returns the text exactly when its UTF-8 encoding is
    no longer than [32 * (n / 32 + 1)] bytes: the key is repeated by the
    count of characters, and the bytes beyond it are cut off. *)
Theorem encrypt_roundtrip_exact (plaintext : string) :
  utf8_valid plaintext = true ->
  (decrypt key b64decode (encrypt key b64encode plaintext) = Ok plaintext
   <-> String.length plaintext <= 32 * (py_len plaintext / 32 + 1)).
Proof.
  intros Hv. split.
  - rewrite (decrypt_encrypt key b64encode b64decode key_length b64_roundtrip),
      key_length.
    set (n := 32 * (py_len plaintext / 32 + 1)).
    pose proof (length_take n plaintext) as Hl.
    unfold decode. destruct (utf8_valid (take n plaintext)); [|discriminate].
    intros H. assert (Ht : take n plaintext = plaintext) by congruence.
    rewrite Ht in Hl. exact Hl.
  - now apply encrypt_roundtrip_short.
Qed.

(** X15.  A secret of ASCII characters survives: what [encrypt] wrote is
    decrypted to the same text, and the settings validator, given the
    stored text, yields the secret. *)
Theorem ascii_secret_roundtrip (plaintext : string) :
  isascii plaintext = true ->
  decrypt key b64decode (encrypt key b64encode plaintext) = Ok plaintext
  /\ decrypt_secret key b64decode (PStr (encrypt key b64encode plaintext))
     = Ok (PStr plaintext).
Proof.
  intros Ha.
  assert (Hr : decrypt key b64decode (encrypt key b64encode plaintext) = Ok plaintext).
  { apply (encrypt_roundtrip_short key b64encode b64decode key_length b64_roundtrip).
    - now apply isascii_utf8_valid.
    - unfold py_len. rewrite (proj1 (isascii_code_points plaintext Ha)).
      pose proof (Nat.div_mod_eq (String.length plaintext) 32) as Hd.
      pose proof (Nat.mod_upper_bound (String.length plaintext) 32) as Hm.
      lia. }
  split; [exact Hr|].
  unfold decrypt_secret.
  rewrite (encrypt_prefix key b64encode plaintext), Hr. reflexivity.
Qed.

End SecretFacts.

Lemma encrypt_roundtrip_exact_witness :
  decrypt scenario_key scenario_b64decode
    (encrypt scenario_key scenario_b64encode "日本語のパスワード")
  = Ok "日本語のパスワード".
Proof.
  apply (proj2 (encrypt_roundtrip_exact scenario_key scenario_b64encode
                  scenario_b64decode eq_refl scenario_b64_roundtrip
                  "日本語のパスワード" eq_refl)).
  apply Nat.leb_le. reflexivity.
Defined.

Lemma ascii_secret_roundtrip_witness :
  decrypt scenario_key scenario_b64decode
    (encrypt scenario_key scenario_b64encode "s3cret-p4ssw0rd")
  = Ok "s3cret-p4ssw0rd"
  /\ decrypt_secret scenario_key scenario_b64decode
       (PStr (encrypt scenario_key scenario_b64encode "s3cret-p4ssw0rd"))
     = Ok (PStr "s3cret-p4ssw0rd").
Proof.
  exact (ascii_secret_roundtrip scenario_key scenario_b64encode scenario_b64decode
           eq_refl scenario_b64_roundtrip "s3cret-p4ssw0rd" eq_refl).
Defined.

(** ** The mail sender *)

Section MailFacts.

Variable header_encode : string -> string.

Lemma attach_files_parts attachments : forall attached,
  Forall (fun a => has_content a = true -> name_encodable a = true) attachments ->
  EmailSender.attach_files header_encode attachments attached
  = Ok (attached
        ++ map (file_part header_encode) (filter has_content attachments))%list.
Proof.
  induction attachments as [|a rest IH]; intros attached H.
  - cbn. now rewrite app_nil_r.
  - inversion H as [|? ? Ha Hrest]; subst.
    cbn [EmailSender.attach_files filter].
    destruct (content a) as [c|] eqn:Ec.
    2:{ replace (has_content a) with false by (unfold has_content; now rewrite Ec).
        now apply IH. }
    replace (has_content a) with true in * by (unfold has_content; now rewrite Ec).
    specialize (Ha eq_refl). unfold name_encodable in Ha.
    assert (Hp : forall n,
              match name a with PStr s => header_encode s | _ => "" end = n ->
              file_part header_encode a = EmailSender.MIMEBase c n)
      by (intros n <-; unfold file_part; now rewrite Ec).
    unfold EmailSender.encoded_name.
    destruct (name a); try discriminate; cbn [rbind map];
      rewrite (IH _ Hrest), <- app_assoc, (Hp _ eq_refl); reflexivity.
Qed.

Lemma attach_files_bad_name attachments : forall attached,
  Exists (fun a => has_content a = true /\ name_encodable a = false) attachments ->
  EmailSender.attach_files header_encode attachments attached = Err AttributeError.
Proof.
  induction attachments as [|a rest IH]; intros attached H;
    [now apply Exists_nil in H|].
  cbn [EmailSender.attach_files].
  destruct (content a) as [c|] eqn:Ec.
  - destruct (name_encodable a) eqn:En.
    + assert (Hrest : Exists (fun a => has_content a = true /\ name_encodable a = false)
                        rest).
      { apply Exists_cons in H. destruct H as [[_ H]|H]; [congruence | exact H]. }
      unfold name_encodable in En. unfold EmailSender.encoded_name.
      destruct (name a); try discriminate; cbn [rbind]; now apply IH.
    + unfold name_encodable in En. unfold EmailSender.encoded_name.
      destruct (name a); try discriminate; reflexivity.
  - apply IH. apply Exists_cons in H. destruct H as [[H _]|H]; [|exact H].
    unfold has_content in H. now rewrite Ec in H.
Qed.

(** X16.  What the sender hands to the transport.  When every attachment
    with content has a name that is text or [None], the message is the
    body followed by one file part for each attachment with content, in
    the order of the batch; attachments without content are left out; and
    the connection is opened with STARTTLS on port 587 and with TLS from
    the start on any other port. *)
Theorem sender_message (self : EmailSender.t) (to_email subject body : string)
    (attachments : list AttachmentInfo) :
  Forall (fun a => has_content a = true -> name_encodable a = true) attachments ->
  exists request,
    EmailSender.send_with_attachments header_encode self to_email subject body
      attachments = Ok request
    /\ EmailSender.msg request
       = {| EmailSender.From := EmailSender.from_email self;
            EmailSender.To := to_email;
            EmailSender.Subject := subject;
            EmailSender.parts :=
              EmailSender.MIMEText body
              :: map (file_part header_encode) (filter has_content attachments) |}
    /\ (EmailSender.start_tls request, EmailSender.use_tls request)
       = (if (EmailSender.port self =? 587)%Z then (Some true, None)
          else (None, Some true)).
Proof.
  intros H. unfold EmailSender.send_with_attachments.
  rewrite (attach_files_parts attachments _ H). cbn [rbind app].
  destruct (EmailSender.port self =? 587)%Z; eexists; repeat split.
Qed.

(** X17.  One attachment with content whose name is neither text nor
    [None], a number taken from the side-data for instance, makes the
    sender raise [AttributeError] before anything is handed to the
    transport: no mail leaves, whatever the other attachments are. *)
Theorem sender_rejects_name (self : EmailSender.t) (to_email subject body : string)
    (attachments : list AttachmentInfo) :
  Exists (fun a => has_content a = true /\ name_encodable a = false) attachments ->
  EmailSender.send_with_attachments header_encode self to_email subject body
    attachments = Err AttributeError.
Proof.
  intros H. unfold EmailSender.send_with_attachments.
  now rewrite (attach_files_bad_name attachments _ H).
Qed.

(** The forwarding steps when the download returns a batch: the one
    further call is the mail, with that batch. *)
Lemma forward_run {RT : PyRuntime} {W : Type} (h : handler W)
    target_email approval_name approval_title approval_amount form_json
    attachments downloaded (w w2 w3 : W) log r :
  extract_attachments form_json = Ok attachments ->
  run h (download_attachments attachments) w = (Ok downloaded, w2, log) ->
  downloaded <> [] ->
  h _ (send_with_attachments target_email
         (mail_subject (py_str approval_name) (py_str approval_title))
         (mail_body (py_str approval_name) (py_str approval_title)
            (py_str approval_amount) (List.length downloaded))
         downloaded) w2 = (r, w3) ->
  run h (forward target_email approval_name approval_title approval_amount form_json) w
  = (r, w3,
     (log ++ [ Entry (send_with_attachments target_email
                        (mail_subject (py_str approval_name) (py_str approval_title))
                        (mail_body (py_str approval_name) (py_str approval_title)
                           (py_str approval_amount) (List.length downloaded))
                        downloaded) r ])%list).
Proof.
  intros He Hd Hne Hs. unfold forward. rewrite He. cbn [lift bind].
  destruct attachments as [|a atts].
  { cbn in Hd. injection Hd as <- _ _. now destruct Hne. }
  rewrite run_bind, Hd.
  destruct downloaded as [|x out]; [now destruct Hne|].
  cbn [await run]. unfold mail_subject, mail_body in Hs. rewrite Hs.
  now rewrite run_lift.
Qed.

(** X18.  The mail of an event carries every downloaded file.  When the
    instance is mapped and its form read, and the download step returns a
    batch that is not empty, processing the instance makes, after the
    fetch and the calls of the download step, exactly one more call: the
    mail to the mapped address, whose attachments are the batch the
    download step returned and whose body states the size of that batch.
    When the names of the batch can be encoded, the message the sender
    builds from this call has the body and then one file part for each
    downloaded file, in order. *)
Theorem event_mail_complete {RT : PyRuntime} {W : Type} (h : handler W)
    (settings : Settings) (instance_code : value) (i : list (string * value))
    (target_email : string) (title amount : value)
    (attachments downloaded : list AttachmentInfo) (w w1 w2 w3 : W)
    (log : list entry) (r : result unit) (self : EmailSender.t) :
  h _ (get_approval_instance instance_code) w = (Ok (PDict i), w1) ->
  mail_plan settings i instance_code = Some (target_email, title, amount) ->
  extract_attachments (dict_get i "form" (PStr "[]")) = Ok attachments ->
  run h (download_attachments attachments) w1 = (Ok downloaded, w2, log) ->
  downloaded <> [] ->
  h _ (send_with_attachments target_email
         (mail_subject (py_str (dict_get i "approval_name" (PStr ""))) (py_str title))
         (mail_body (py_str (dict_get i "approval_name" (PStr ""))) (py_str title)
            (py_str amount) (List.length downloaded))
         downloaded) w2 = (r, w3) ->
  Forall (fun a => name_encodable a = true) downloaded ->
  run h (_process_approval settings instance_code) w
  = (r, w3,
     Entry (get_approval_instance instance_code) (Ok (PDict i))
     :: (log ++
         [ Entry (send_with_attachments target_email
                    (mail_subject (py_str (dict_get i "approval_name" (PStr "")))
                       (py_str title))
                    (mail_body (py_str (dict_get i "approval_name" (PStr "")))
                       (py_str title) (py_str amount) (List.length downloaded))
                    downloaded) r ])%list)
  /\ exists request,
       EmailSender.send_with_attachments header_encode self target_email
         (mail_subject (py_str (dict_get i "approval_name" (PStr ""))) (py_str title))
         (mail_body (py_str (dict_get i "approval_name" (PStr ""))) (py_str title)
            (py_str amount) (List.length downloaded))
         downloaded = Ok request
       /\ EmailSender.parts (EmailSender.msg request)
          = EmailSender.MIMEText
              (mail_body (py_str (dict_get i "approval_name" (PStr ""))) (py_str title)
                 (py_str amount) (List.length downloaded))
            :: map (file_part header_encode) downloaded.
Proof.
  intros Hi Hplan He Hd Hne Hs Hn. split.
  - unfold _process_approval. cbn [await bind run]. rewrite Hi.
    cbn [get lift bind run]. unfold mail_plan in Hplan.
    destruct (_get_target_email settings (dict_get i "approval_name" (PStr "")))
      as [[te|]|]; try discriminate.
    destruct (loads (dict_get i "form" (PStr "[]"))) as [fd|]; [|discriminate].
    cbn [rbind] in Hplan. cbn [lift bind run].
    destruct (summary fd) as [[t a]|]; [|discriminate].
    injection Hplan as -> <- ->. cbn [lift bind run].
    destruct (truthy t); cbn [get lift bind run];
      rewrite (forward_run h _ _ _ _ _ attachments downloaded w1 w2 w3 log r
                 He Hd Hne Hs); reflexivity.
  - assert (Hc : forallb has_content downloaded = true)
      by exact (download_attachments_content h _ _ _ _ _ Hd).
    assert (Hf : filter has_content downloaded = downloaded).
    { clear - Hc. induction downloaded as [|a l IH]; [reflexivity|].
      cbn [forallb] in Hc. apply andb_true_iff in Hc. destruct Hc as [Ha Hl].
      cbn [filter]. rewrite Ha. now rewrite IH. }
    unfold EmailSender.send_with_attachments.
    rewrite (attach_files_parts downloaded [ EmailSender.MIMEText _ ]).
    + rewrite Hf. cbn [rbind app].
      destruct (EmailSender.port self =? 587)%Z; eexists; split; reflexivity.
    + clear - Hn. induction Hn; constructor; auto.
Qed.

End MailFacts.

Lemma sender_message_witness :
  exists request,
    EmailSender.send_with_attachments scenario_header scenario_sender
      "pay@example.com" "[付款test]-Taxi" "body"
      [ receipt; descriptor "tok-4" "" ] = Ok request
    /\ EmailSender.msg request
       = {| EmailSender.From := "bot@example.com";
            EmailSender.To := "pay@example.com";
            EmailSender.Subject := "[付款test]-Taxi";
            EmailSender.parts :=
              [ EmailSender.MIMEText "body";
                EmailSender.MIMEBase "%PDF" "=?utf-8?q?receipt=2Epdf?=" ] |}
    /\ (EmailSender.start_tls request, EmailSender.use_tls request)
       = (None, Some true).
Proof.
  apply (sender_message scenario_header scenario_sender "pay@example.com"
           "[付款test]-Taxi" "body" [ receipt; descriptor "tok-4" "" ]).
  repeat constructor.
Defined.

Lemma sender_rejects_name_witness :
  EmailSender.send_with_attachments scenario_header scenario_sender
    "pay@example.com" "[付款test]-Taxi" "body"
    [ receipt;
      {| file_token := PStr ""; name := PInt 7; mime_type := PStr "";
         content := Some "%PDF"; download_url := PStr "http://files/7" |} ]
  = Err AttributeError.
Proof.
  apply (sender_rejects_name scenario_header scenario_sender "pay@example.com"
           "[付款test]-Taxi" "body").
  apply Exists_cons_tl. apply Exists_cons_hd. split; reflexivity.
Defined.

Lemma event_mail_complete_witness :
  run (payment_handler "付款test") (_process_approval payment_settings (PStr "INST-1")) 0
  = (Ok tt, 3,
     [ Entry (get_approval_instance (PStr "INST-1")) (Ok (payment_instance "付款test"));
       Entry (download_file (PStr "http://files/1.pdf")) (Ok "%PDF");
       Entry (send_with_attachments "pay@example.com" "[付款test]-Taxi"
                (mail_body "付款test" "Taxi" "100 USD" 1) [ receipt ])
             (Ok tt) ])
  /\ exists request,
       EmailSender.send_with_attachments scenario_header scenario_sender
         "pay@example.com" "[付款test]-Taxi"
         (mail_body "付款test" "Taxi" "100 USD" 1) [ receipt ] = Ok request
       /\ EmailSender.parts (EmailSender.msg request)
          = [ EmailSender.MIMEText (mail_body "付款test" "Taxi" "100 USD" 1);
              EmailSender.MIMEBase "%PDF" "=?utf-8?q?receipt=2Epdf?=" ].
Proof.
  exact (@event_mail_complete scenario_header scenario_runtime nat
           (payment_handler "付款test") payment_settings (PStr "INST-1")
           [ ("approval_name", PStr "付款test");
             ("serial_number", PStr "202401010001");
             ("form", PStr payment_form) ]
           "pay@example.com" (PStr "Taxi") (PStr "100 USD")
           [ {| file_token := PStr ""; name := PStr "receipt.pdf";
                mime_type := PStr ""; content := None;
                download_url := PStr "http://files/1.pdf" |} ]
           [ receipt ] 0 1 2 3
           [ Entry (download_file (PStr "http://files/1.pdf")) (Ok "%PDF") ]
           (Ok tt) scenario_sender
           eq_refl
           ltac:(vm_compute; reflexivity)
           ltac:(vm_compute; reflexivity)
           ltac:(vm_compute; reflexivity)
           ltac:(discriminate)
           eq_refl
           ltac:(repeat constructor)).
Defined.

(** ** The API client *)

Section ClientFacts.

Context {RT : PyRuntime}.

Lemma url_items_ok items : forall inserted,
  Forall (fun item => url_item_ok item = true) items ->
  FeishuClient.url_items items inserted
  = FeishuClient.Returns
      (inserted
       ++ map (fun item =>
                 match item with
                 | PDict d => (dict_get d "file_token" PNone,
                               dict_get d "tmp_download_url" PNone)
                 | _ => (PNone, PNone)
                 end) items)%list.
Proof.
  induction items as [|item items IH]; intros inserted H.
  - cbn. now rewrite app_nil_r.
  - inversion H as [|? ? Hi Hrest]; subst.
    destruct item as [| | | | | |d]; try discriminate.
    cbn [FeishuClient.url_items FeishuClient.subscript map]. unfold dict_get.
    unfold url_item_ok in Hi.
    destruct (lookup "file_token" d) as [k|]; [|discriminate].
    destruct (lookup "tmp_download_url" d) as [v|]; [|discriminate].
    cbn [FeishuClient.obind]. rewrite Hi, (IH _ Hrest), <- app_assoc. reflexivity.
Qed.

Lemma get_text_app inserted : forall k v token,
  FeishuClient.get_text (inserted ++ [ (k, v) ])%list token
  = if eq_str k token then v else FeishuClient.get_text inserted token.
Proof.
  induction inserted as [|[k0 v0] inserted IH]; intros k v token.
  - cbn. now destruct (eq_str k token).
  - cbn [app FeishuClient.get_text]. rewrite existsb_app, IH. cbn [existsb fst].
    rewrite orb_false_r.
    destruct (eq_str k token); [now rewrite orb_true_r|].
    now rewrite orb_false_r.
Qed.

Lemma get_text_last_url items token :
  FeishuClient.get_text
    (map (fun item =>
            match item with
            | PDict d => (dict_get d "file_token" PNone,
                          dict_get d "tmp_download_url" PNone)
            | _ => (PNone, PNone)
            end) items) token
  = last_url items token.
Proof.
  unfold last_url. induction items as [|item items IH] using rev_ind; [reflexivity|].
  rewrite map_app, rev_app_distr.
  destruct item as [| | | | | |d]; cbn [map rev app find];
    rewrite get_text_app, IH; try reflexivity.
  now destruct (eq_str (dict_get d "file_token" PNone) token).
Qed.

(** X20.  What the mapping of download URLs holds.  For a response with
    code zero whose items each name a file token and a URL, the client
    returns a mapping in which a text token has the URL of the last item
    given for it, and [None] when no item is. *)
Theorem download_urls_last_wins (r data : list (string * value))
    (items : list value) :
  FeishuClient.ne_zero (dict_get r "code" PNone) = false ->
  dict_get r "data" (PDict []) = PDict data ->
  dict_get data "tmp_download_urls" (PList []) = PList items ->
  Forall (fun item => url_item_ok item = true) items ->
  exists mapping,
    FeishuClient.urls_of_response (FeishuClient.Returns (PDict r))
    = FeishuClient.Returns mapping
    /\ forall token, FeishuClient.get_text mapping token = last_url items token.
Proof.
  intros Hc Hd Hu Hi.
  unfold FeishuClient.urls_of_response, FeishuClient.check_code.
  cbn [FeishuClient.obind get FeishuClient.of_result]. rewrite Hc.
  cbn [FeishuClient.obind]. rewrite Hd.
  cbn [FeishuClient.obind get FeishuClient.of_result]. rewrite Hu.
  cbn [FeishuClient.obind py_iter FeishuClient.of_result].
  rewrite (url_items_ok items [] Hi). cbn [app].
  eexists. split; [reflexivity|]. intros token. apply get_text_last_url.
Qed.

(** X21.  An instance is returned on success alone.  The client asks for
    the instance by one GET on its code, and returns data exactly when
    the response is a dictionary whose code equals zero and which has a
    [data] entry, which is then what it returns; every other response
    raises. *)
Theorem instance_returned_iff (instance_code : value)
    (response : FeishuClient.outcome value) (d : value) :
  FeishuClient.get_approval_instance instance_code
  = FeishuClient.Request "GET" ("/approval/v4/instances/" ++ py_str instance_code)
      None FeishuClient.instance_of_response
  /\ (FeishuClient.instance_of_response response = FeishuClient.Returns d
      <-> exists r,
            response = FeishuClient.Returns (PDict r)
            /\ FeishuClient.ne_zero (dict_get r "code" PNone) = false
            /\ lookup "data" r = Some d).
Proof.
  split; [reflexivity|].
  unfold FeishuClient.instance_of_response, FeishuClient.check_code. split.
  - destruct response as [result|e]; [|discriminate].
    destruct result as [| | | | | |r]; try discriminate.
    cbn [FeishuClient.obind get FeishuClient.of_result FeishuClient.subscript].
    destruct (FeishuClient.ne_zero (dict_get r "code" PNone)) eqn:Ec;
      [discriminate|].
    cbn [FeishuClient.obind].
    destruct (lookup "data" r) as [x|] eqn:El; [|discriminate].
    intros [= ->]. exists r. split; [reflexivity|]. split; [exact Ec | exact El].
  - intros (r & -> & Hc & Hl).
    cbn [FeishuClient.obind get FeishuClient.of_result FeishuClient.subscript].
    rewrite Hc. cbn [FeishuClient.obind]. now rewrite Hl.
Qed.

End ClientFacts.

Lemma download_urls_last_wins_witness :
  exists mapping,
    FeishuClient.urls_of_response
      (FeishuClient.Returns
         (PDict [ ("code", PInt 0);
                  ("data",
                   PDict [ ("tmp_download_urls",
                            PList [ PDict [ ("file_token", PStr "tok-1");
                                            ("tmp_download_url", PStr "http://a") ];
                                    PDict [ ("file_token", PStr "tok-1");
                                            ("tmp_download_url", PStr "http://b") ] ]) ]) ]))
    = FeishuClient.Returns mapping
    /\ forall token,
         FeishuClient.get_text mapping token
         = last_url [ PDict [ ("file_token", PStr "tok-1");
                              ("tmp_download_url", PStr "http://a") ];
                      PDict [ ("file_token", PStr "tok-1");
                              ("tmp_download_url", PStr "http://b") ] ] token.
Proof.
  apply (@download_urls_last_wins scenario_runtime
           [ ("code", PInt 0);
             ("data",
              PDict [ ("tmp_download_urls",
                       PList [ PDict [ ("file_token", PStr "tok-1");
                                       ("tmp_download_url", PStr "http://a") ];
                               PDict [ ("file_token", PStr "tok-1");
                                       ("tmp_download_url", PStr "http://b") ] ]) ]) ]
           [ ("tmp_download_urls",
              PList [ PDict [ ("file_token", PStr "tok-1");
                              ("tmp_download_url", PStr "http://a") ];
                      PDict [ ("file_token", PStr "tok-1");
                              ("tmp_download_url", PStr "http://b") ] ]) ]).
  - reflexivity.
  - reflexivity.
  - reflexivity.
  - repeat constructor.
Defined.
